(** * raspberry-automation: the remotes of [backend/remote_object.py]

    A shallow embedding of the device classes ([RemoteAbstract],
    [SimpleOutput], [SimpleInput], [MotionSensor], [Switch]) and of the
    [AlarmSystem] composite, followed by the properties of the alarm state
    machine, its two rate limiters and the pin bookkeeping.

    Python objects are records; a method is a computation over the pair
    (object, world) that either returns or raises, and keeps every mutation
    made before a raise.  The world holds what the program reaches through
    [gpiozero], [time], the camera, the emailer and the database.  Names are
    resolved through the class hierarchy as the interpreter does it: the
    chain of bases, and the replacement of private names. *)

From Stdlib Require Import ZArith Ascii String.
From stdpp Require Import gmap strings list.

Local Open Scope Z_scope.
Local Open Scope string_scope.

(** ** Python values and dictionaries *)

Inductive val :=
| VNone
| VBool (b : bool)
| VInt (n : Z)
| VStr (s : string).

Abbreviation dict := (gmap string val).

(** [a == b] on the values above ([bool] is a subclass of [int]). *)
Definition py_eq (a b : val) : bool :=
  match a, b with
  | VNone, VNone => true
  | VBool x, VBool y => Bool.eqb x y
  | VBool x, VInt n => Z.eqb (Z.b2z x) n
  | VInt n, VBool x => Z.eqb n (Z.b2z x)
  | VInt m, VInt n => Z.eqb m n
  | VStr s, VStr t => String.eqb s t
  | _, _ => false
  end.

Definition py_ne (a b : val) : bool := negb (py_eq a b).

(** Truth value of an object in an [if]. *)
Definition truthy (v : val) : bool :=
  match v with
  | VNone => false
  | VBool b => b
  | VInt n => negb (Z.eqb n 0)
  | VStr s => negb (String.eqb s EmptyString)
  end.

(** [s.replace(" ", EMPTY)] *)
Fixpoint remove_spaces (s : string) : string :=
  match s with
  | EmptyString => EmptyString
  | String c s' =>
      if Ascii.eqb c " "%char then remove_spaces s'
      else String c (remove_spaces s')
  end.

(** [s.split(",")]: never the empty list. *)
Fixpoint split_comma (s : string) : list string :=
  match s with
  | EmptyString => [EmptyString]
  | String c s' =>
      if Ascii.eqb c ","%char then EmptyString :: split_comma s'
      else match split_comma s' with
           | h :: t => String c h :: t
           | [] => [String c EmptyString]
           end
  end.

(** ** Exceptions and results *)

Inductive exn :=
| KeyError (key : string)
| AttributeError (attr : string)
| ValueError (msg : string)
| GPIOZeroError (msg : string)   (* gpio.GPIOZeroError and its subclasses *)
| OtherError (msg : string).     (* any other Exception *)

Inductive Res (A : Type) :=
| Ok (a : A)
| Raise (e : exn).
Arguments Ok {A} a.
Arguments Raise {A} e.

(** ** The world outside the program *)

(** The gpiozero classes the module instantiates. *)
Inductive DevType := GPIODevice | OutputDevice | Motion | Button.

Inductive event :=
| Acquire (ty : DevType) (p : Z)     (* a device bound to pin [p] *)
| Release (p : Z)                    (* [device.close()] of an open device *)
| On (p : Z)                         (* [device.on()] *)
| Off (p : Z)                        (* [device.off()] *)
| Photo                              (* [backend.camera.take_photo()] *)
| Email (to : list string)           (* [backend.emailer.send_email(to)] *)
| Update (fields : dict) (key : val) (* [database.update(fields, query.pin == key)] *).

Record World := mkWorld {
  resolve : val -> exn + Z;   (* the pin factory: the pin number, or its refusal *)
  sensed : Z -> bool;         (* instantaneous state of an input pin *)
  clock : nat -> Z;           (* successive readings of [int(time.time())] *)
  strftime_c : Z -> string;   (* [time.strftime("%c")] of a reading *)
  ticks : nat;                (* clock readings taken so far *)
  reserved : gset Z;          (* pins held by open devices *)
  log : list event            (* effects so far, oldest first *)
}.

Definition with_reserved (r : gset Z) (w : World) : World :=
  mkWorld (resolve w) (sensed w) (clock w) (strftime_c w) (ticks w) r (log w).

Definition emit (e : event) (w : World) : World :=
  mkWorld (resolve w) (sensed w) (clock w) (strftime_c w) (ticks w)
          (reserved w) (log w ++ [e]).

Definition tick (w : World) : World :=
  mkWorld (resolve w) (sensed w) (clock w) (strftime_c w) (S (ticks w))
          (reserved w) (log w).

(** ** Computations: state that survives a raise *)

Definition M (S A : Type) : Type := S -> Res A * S.

Definition ret {S A} (a : A) : M S A := fun s => (Ok a, s).

Definition raise {S A} (e : exn) : M S A := fun s => (Raise e, s).

Definition bind {S A B} (m : M S A) (k : A -> M S B) : M S B :=
  fun s => match m s with
           | (Ok a, s') => k a s'
           | (Raise e, s') => (Raise e, s')
           end.

(** [try: m  except Exception as e: h e] *)
Definition catch {S A} (m : M S A) (h : exn -> M S A) : M S A :=
  fun s => match m s with
           | (Ok a, s') => (Ok a, s')
           | (Raise e, s') => h e s'
           end.

Declare Scope py_scope.
Delimit Scope py_scope with py.
Notation "x <- m ;; k" := (bind m (fun x => k))
  (at level 100, m at next level, k at level 200, right associativity) : py_scope.
Notation "m ;; k" := (bind m (fun _ => k))
  (at level 100, k at level 200, right associativity) : py_scope.
Local Open Scope py_scope.

(** An effect on the world alone, run from a method of an object. *)
Definition world {O A} (m : M World A) : M (O * World) A :=
  fun '(o, w) => let (r, w') := m w in (r, (o, w')).

(** Attributes of an object: absent until assigned. *)
Record Attr (O P : Type) := mkAttr {
  attr_name : string;
  attr_get : O -> option P;
  attr_set : P -> O -> O
}.
Arguments mkAttr {O P}.
Arguments attr_name {O P}.
Arguments attr_get {O P}.
Arguments attr_set {O P}.

(** [self.x] *)
Definition getattr {O P} (x : Attr O P) : M (O * World) P :=
  fun '(o, w) => match attr_get x o with
                 | Some p => (Ok p, (o, w))
                 | None => (Raise (AttributeError (attr_name x)), (o, w))
                 end.

(** [self.x = v] *)
Definition setattr {O P} (x : Attr O P) (v : P) : M (O * World) unit :=
  fun '(o, w) => (Ok tt, (attr_set x v o, w)).

(** [self.x.method(...)]: the method runs on the object held by [x]. *)
Definition via {O P A} (x : Attr O P) (m : M (P * World) A) : M (O * World) A :=
  fun '(o, w) => match attr_get x o with
                 | Some p => let '(r, (p', w')) := m (p, w) in
                             (r, (attr_set x p' o, w'))
                 | None => (Raise (AttributeError (attr_name x)), (o, w))
                 end.

(** [d[k]] *)
Definition getitem {S} (d : dict) (k : string) : M S val :=
  match d !! k with
  | Some v => ret v
  | None => raise (KeyError k)
  end.

(** [form.<field>.data]: the data of a form field, by field name. *)
Definition form_data {S} (form : dict) (field : string) : M S val :=
  match form !! field with
  | Some v => ret v
  | None => raise (AttributeError field)
  end.

(** [int(time.time())] *)
Definition time_time : M World Z :=
  fun w => (Ok (clock w (ticks w)), tick w).

(** [time.strftime("%c")] *)
Definition time_strftime_c : M World string :=
  fun w => (Ok (strftime_c w (clock w (ticks w))), tick w).

(** The handler every acquisition in the module is wrapped in:
    [except gpio.GPIOZeroError as e: raise ValueError(str(e))]
    [except Exception as e: raise e] *)
Definition gpio_handler {S A} (e : exn) : M S A :=
  match e with
  | GPIOZeroError msg => raise (ValueError msg)
  | _ => raise e
  end.

(** ** gpiozero devices *)

Record Device := mkDevice {
  dtype : DevType;
  dpin : Z;
  closed : bool
}.

(** [Type(pin)]: the pin factory resolves the pin and reserves it; a pin held
    by an open device is refused ([GPIOPinInUse]). *)
Definition new_device (ty : DevType) (p : val) : M World Device :=
  fun w => match resolve w p with
           | inl e => (Raise e, w)
           | inr n =>
               if decide (n ∈ reserved w)
               then (Raise (GPIOZeroError "pin is already in use"), w)
               else (Ok (mkDevice ty n false),
                     emit (Acquire ty n) (with_reserved ({[n]} ∪ reserved w) w))
           end.

(** [device.close()]: frees the pin; closing twice is harmless. *)
Definition device_close : M (Device * World) unit :=
  fun '(d, w) =>
    if closed d then (Ok tt, (d, w))
    else (Ok tt, (mkDevice (dtype d) (dpin d) true,
                  emit (Release (dpin d)) (with_reserved (reserved w ∖ {[dpin d]}) w))).

(** [device.is_active]: a closed device refuses ([DeviceClosed]). *)
Definition device_is_active : M (Device * World) bool :=
  fun '(d, w) =>
    if closed d then (Raise (GPIOZeroError "device is closed"), (d, w))
    else (Ok (sensed w (dpin d)), (d, w)).

(** [device.on()] and [device.off()] *)
Definition device_on : M (Device * World) unit :=
  fun '(d, w) =>
    if closed d then (Raise (GPIOZeroError "device is closed"), (d, w))
    else (Ok tt, (d, emit (On (dpin d)) w)).

Definition device_off : M (Device * World) unit :=
  fun '(d, w) =>
    if closed d then (Raise (GPIOZeroError "device is closed"), (d, w))
    else (Ok tt, (d, emit (Off (dpin d)) w)).

(** ** Collaborators that live outside this module *)

Definition is_photo (e : event) : bool :=
  match e with Photo => true | _ => false end.

Definition is_email (e : event) : bool :=
  match e with Email _ => true | _ => false end.

Definition photos_taken (l : list event) : nat := length (filter is_photo l).

(** Modelled from the spec: [backend.camera.take_photo], the photo service's
    [capture() -> void]. *)
Definition camera_take_photo : M World unit :=
  fun w => (Ok tt, emit Photo w).

(** Modelled from the spec: [backend.camera.get_newest_photo], the photo
    service's [latest() -> photo reference (nullable)]; a photo is referred to
    by its rank among the captures. *)
Definition newest_photo (l : list event) : val :=
  match photos_taken l with
  | O => VNone
  | S n => VInt (Z.of_nat (S n))
  end.

Definition get_newest_photo : M World val :=
  fun w => (Ok (newest_photo (log w)), w).

(** Modelled from the spec: [backend.emailer.send_email], the email sender's
    [send(recipients)]; its result is ignored by the callers. *)
Definition emailer_send_email (to : list string) : M World unit :=
  fun w => (Ok tt, emit (Email to) w).

(** [database.update(fields, query["pin"] == key)]: the persistence store is
    the caller's; the call is recorded. *)
Definition database_update (fields : dict) (key : val) : M World unit :=
  fun w => (Ok tt, emit (Update fields key) w).

(** ** The classes of the module and attribute lookup *)

Inductive class :=
| CObject
| CRemoteInterface
| CRemoteAbstract
| CSimpleOutput
| CSimpleInput
| CMotionSensor
| CSwitch
| CAlarmSystem.

(** [c.__name__] *)
Definition class_name (c : class) : string :=
  match c with
  | CObject => "object"
  | CRemoteInterface => "RemoteInterface"
  | CRemoteAbstract => "RemoteAbstract"
  | CSimpleOutput => "SimpleOutput"
  | CSimpleInput => "SimpleInput"
  | CMotionSensor => "MotionSensor"
  | CSwitch => "Switch"
  | CAlarmSystem => "AlarmSystem"
  end.

(** The base named in the [class] statement. *)
Definition base (c : class) : option class :=
  match c with
  | CObject => None
  | CRemoteInterface => Some CObject
  | CRemoteAbstract => Some CRemoteInterface
  | CSimpleOutput => Some CRemoteAbstract
  | CSimpleInput => Some CRemoteAbstract
  | CMotionSensor => Some CSimpleInput
  | CSwitch => Some CSimpleInput
  | CAlarmSystem => Some CRemoteInterface
  end.

(** The names bound in the body of the class; for [object], its attributes. *)
Definition class_body (c : class) : list string :=
  match c with
  | CObject =>
      [ "__class__"; "__delattr__"; "__dir__"; "__doc__"; "__eq__";
        "__format__"; "__ge__"; "__getattribute__"; "__gt__"; "__hash__";
        "__init__"; "__init_subclass__"; "__le__"; "__lt__"; "__ne__";
        "__new__"; "__reduce__"; "__reduce_ex__"; "__repr__"; "__setattr__";
        "__sizeof__"; "__str__"; "__subclasshook__" ]
  | CRemoteInterface => [ "close"; "input"; "output"; "Form"; "to_dic" ]
  | CRemoteAbstract =>
      [ "__init__"; "close"; "_change_pin"; "input"; "output"; "Form" ]
  | CSimpleOutput => [ "__init__"; "input"; "on"; "off"; "Form"; "to_dic" ]
  | CSimpleInput => [ "__init__"; "is_active"; "output"; "to_dic" ]
  | CMotionSensor => [ "__init__"; "output" ]
  | CSwitch => [ "__init__"; "output" ]
  | CAlarmSystem =>
      [ "__init__"; "alert_mode"; "take_photo"; "send_email"; "passive_mode";
        "input"; "output"; "close"; "Form"; "to_dic" ]
  end.

(** [c.__mro__]: every class has one base, so the chain of bases. *)
Fixpoint mro_from (fuel : nat) (c : class) : list class :=
  c :: match fuel with
       | O => []
       | S n => match base c with
                | Some b => mro_from n b
                | None => []
                end
       end.

Definition mro (c : class) : list class := mro_from 8 c.

Definition binds (name : string) (c : class) : bool :=
  bool_decide (name ∈ class_body c).

(** [getattr(c, name)]: the first class of [c.__mro__] that binds [name]. *)
Definition class_getattr (c : class) (name : string) : option class :=
  List.find (binds name) (mro c).

(** [super().name] in a method of [c], on an instance of [c]: the search
    starts after [c]. *)
Definition super_getattr (c : class) (name : string) : option class :=
  List.find (binds name) (tail (mro c)).

(** Private names.  An identifier of a class body that begins with two
    underscores and does not end with two is replaced by the class name,
    stripped of its leading underscores and preceded by one, followed by the
    identifier; there is no replacement when the class name is made of
    underscores only. *)
Fixpoint ends_with_dunder (s : string) : bool :=
  match s with
  | EmptyString => false
  | String c s' =>
      (Ascii.eqb c "_"%char && String.eqb s' "_") || ends_with_dunder s'
  end.

Definition is_private (name : string) : bool :=
  String.prefix "__" name && negb (ends_with_dunder name).

Fixpoint strip_underscores (s : string) : string :=
  match s with
  | String c s' => if Ascii.eqb c "_"%char then strip_underscores s' else s
  | EmptyString => EmptyString
  end.

Definition mangle (cls name : string) : string :=
  if is_private name then
    match strip_underscores cls with
    | EmptyString => name
    | stripped => String "_"%char (stripped ++ name)
    end
  else name.

(** ** class RemoteInterface *)

Module RemoteInterface.

(** [to_dic(cls, form)]; [cls] is the name of the class it is called on. *)
Definition to_dic {S} (cls : string) (form : dict) : M S dict :=
  p <- form_data form "pin" ;;
  n <- form_data form "name" ;;
  ret {[ "pin" := p; "name" := n; "type" := VStr cls ]}.

End RemoteInterface.

(** ** class RemoteAbstract *)

Module RemoteAbstract.

Record t := mk {
  _pin : val;
  _Type : option DevType;     (* unassigned when [__debug__] is off *)
  _device : option Device     (* unassigned when [__debug__] is off *)
}.

Definition pin : Attr t val :=
  mkAttr "pin" (fun o => Some (_pin o)) (fun v o => mk v (_Type o) (_device o)).
Definition Type_ : Attr t DevType :=
  mkAttr "Type" _Type (fun v o => mk (_pin o) (Some v) (_device o)).
Definition device : Attr t Device :=
  mkAttr "device" _device (fun v o => mk (_pin o) (_Type o) (Some v)).

Section Methods.
Variable debug : bool.   (* [__debug__] *)

Definition __init__ (dic : dict) (Type_arg : option DevType) : M World t :=
  p <- getitem dic "pin" ;;
  if debug then
    let ty := match Type_arg with None => GPIODevice | Some ty => ty end in
    d <- catch (new_device ty p) gpio_handler ;;
    ret (mk p (Some ty) (Some d))
  else ret (mk p None None).

Definition close : M (t * World) unit :=
  if debug then via device device_close else ret tt.

Definition _change_pin (new_pin : val) : M (t * World) unit :=
  close ;;
  if debug then
    catch (ty <- getattr Type_ ;;
           p <- getattr pin ;;
           d <- world (new_device ty p) ;;
           setattr device d)
          gpio_handler
  else ret tt.

Definition input (data : dict) : M (t * World) unit :=
  p <- getattr pin ;;
  q <- getitem data "pin" ;;
  if py_ne p q then
    setattr pin q ;;
    p' <- getattr pin ;;
    _change_pin p'
  else ret tt.

Definition output (data : option dict) : M (t * World) unit :=
  match data with
  | Some fields => p <- getattr pin ;; world (database_update fields p)
  | None => ret tt
  end.

End Methods.
End RemoteAbstract.

(** ** class SimpleOutput(RemoteAbstract) *)

Module SimpleOutput.

Definition t := RemoteAbstract.t.

Definition on : M (t * World) unit := via RemoteAbstract.device device_on.

Definition off : M (t * World) unit := via RemoteAbstract.device device_off.

Section Methods.
Variable debug : bool.

Definition __init__ (dic : dict) : M World t :=
  if debug then RemoteAbstract.__init__ debug dic (Some OutputDevice)
  else RemoteAbstract.__init__ debug dic None.

Definition input (data : dict) : M (t * World) unit :=
  RemoteAbstract.input debug data ;;
  if debug && bool_decide (is_Some (data !! "keep_on")) then
    k <- getitem data "keep_on" ;;
    if truthy k then on else off
  else ret tt.

Definition close : M (t * World) unit := RemoteAbstract.close debug.

End Methods.

Definition to_dic {S} (cls : string) (form : dict) : M S dict :=
  dic <- RemoteInterface.to_dic cls form ;;
  k <- form_data form "keep_on" ;;
  ret (<[ "keep_on" := k ]> dic).

End SimpleOutput.

(** ** class SimpleInput(RemoteAbstract) *)

Module SimpleInput.

Record t := mk {
  _super : RemoteAbstract.t;
  _data : val
}.

Definition super : Attr t RemoteAbstract.t :=
  mkAttr "super" (fun o => Some (_super o)) (fun r o => mk r (_data o)).
Definition data : Attr t val :=
  mkAttr "data" (fun o => Some (_data o)) (fun v o => mk (_super o) v).

Section Methods.
Variable debug : bool.

Definition __init__ (dic : dict) (Type_arg : option DevType) : M World t :=
  r <- (if debug then RemoteAbstract.__init__ debug dic Type_arg
        else RemoteAbstract.__init__ debug dic None) ;;
  ret (mk r VNone).

Definition is_active : M (t * World) bool :=
  if debug then via super (via RemoteAbstract.device device_is_active)
  else ret true.

Definition output (fields : option dict) : M (t * World) unit :=
  fields <- match fields with
            | None => d <- getattr data ;; ret {[ "data" := d ]}
            | Some f => ret f
            end ;;
  via super (RemoteAbstract.output (Some fields)).

(* inherited *)
Definition input (d : dict) : M (t * World) unit :=
  via super (RemoteAbstract.input debug d).

Definition close : M (t * World) unit :=
  via super (RemoteAbstract.close debug).

End Methods.

Definition to_dic {S} (cls : string) (form : dict) : M S dict :=
  dic <- RemoteInterface.to_dic cls form ;;
  ret (<[ "data" := VNone ]> dic).

End SimpleInput.

(** ** class MotionSensor(SimpleInput) *)

Module MotionSensor.

Definition t := SimpleInput.t.

Section Methods.
Variable debug : bool.

Definition __init__ (dic : dict) : M World t :=
  if debug then SimpleInput.__init__ debug dic (Some Motion)
  else SimpleInput.__init__ debug dic None.

Definition output : M (t * World) unit :=
  a <- SimpleInput.is_active debug ;;
  (if a then
     now <- world time_time ;;
     setattr SimpleInput.data (VInt now)
   else ret tt) ;;
  SimpleInput.output None.

End Methods.
End MotionSensor.

(** ** class Switch(SimpleInput) *)

Module Switch.

Definition t := SimpleInput.t.

Section Methods.
Variable debug : bool.

(** [super().<name>(dic)] in the constructor: [name] is an identifier of the
    class body, looked up after [Switch]; an absent attribute raises before
    the call.  Of what the lookup can yield only the inherited constructor is
    given a body. *)
Definition super_call (name : string) (dic : dict) : M World t :=
  let attr := mangle (class_name CSwitch) name in
  match super_getattr CSwitch attr with
  | None => raise (AttributeError attr)
  | Some c =>
      match c with
      | CSimpleInput =>
          if String.eqb attr "__init__" then SimpleInput.__init__ debug dic None
          else raise (OtherError "TypeError")
      | _ => raise (OtherError "TypeError")
      end
  end.

Definition __init__ (dic : dict) : M World t :=
  if debug then SimpleInput.__init__ debug dic (Some Button)
  else super_call "__init" dic.

Definition output : M (t * World) unit :=
  a <- SimpleInput.is_active debug ;;
  (if a then setattr SimpleInput.data (VStr "ON")
   else setattr SimpleInput.data (VStr "OFF")) ;;
  SimpleInput.output None.

End Methods.
End Switch.

(** ** class AlarmSystem(RemoteInterface) *)

Module AlarmSystem.

Record t := mk {
  _pin : option val;                  (* these five are assigned only *)
  _switch : option Switch.t;          (* when [__debug__] is on        *)
  _buzzer : option SimpleOutput.t;
  _motion : option MotionSensor.t;
  _emails : option val;
  _keep_on : val;
  _photo_toggle : val;
  _motion_detected : bool;
  _door_open : bool;
  _last_email_sent : option Z;        (* [None] is Python's [None] *)
  _last_picture_taken : option Z
}.

Definition EMAIL_MAX_TIME : Z := 3600.  (* 1 hour *)
Definition PHOTO_MAX_TIME : Z := 3.     (* 3 seconds *)

Definition pin : Attr t val :=
  mkAttr "pin" _pin
    (fun v o => mk (Some v) (_switch o) (_buzzer o) (_motion o) (_emails o)
                   (_keep_on o) (_photo_toggle o) (_motion_detected o)
                   (_door_open o) (_last_email_sent o) (_last_picture_taken o)).
Definition switch : Attr t Switch.t :=
  mkAttr "switch" _switch
    (fun v o => mk (_pin o) (Some v) (_buzzer o) (_motion o) (_emails o)
                   (_keep_on o) (_photo_toggle o) (_motion_detected o)
                   (_door_open o) (_last_email_sent o) (_last_picture_taken o)).
Definition buzzer : Attr t SimpleOutput.t :=
  mkAttr "buzzer" _buzzer
    (fun v o => mk (_pin o) (_switch o) (Some v) (_motion o) (_emails o)
                   (_keep_on o) (_photo_toggle o) (_motion_detected o)
                   (_door_open o) (_last_email_sent o) (_last_picture_taken o)).
Definition motion : Attr t MotionSensor.t :=
  mkAttr "motion" _motion
    (fun v o => mk (_pin o) (_switch o) (_buzzer o) (Some v) (_emails o)
                   (_keep_on o) (_photo_toggle o) (_motion_detected o)
                   (_door_open o) (_last_email_sent o) (_last_picture_taken o)).
Definition emails : Attr t val :=
  mkAttr "emails" _emails
    (fun v o => mk (_pin o) (_switch o) (_buzzer o) (_motion o) (Some v)
                   (_keep_on o) (_photo_toggle o) (_motion_detected o)
                   (_door_open o) (_last_email_sent o) (_last_picture_taken o)).
Definition keep_on : Attr t val :=
  mkAttr "keep_on" (fun o => Some (_keep_on o))
    (fun v o => mk (_pin o) (_switch o) (_buzzer o) (_motion o) (_emails o)
                   v (_photo_toggle o) (_motion_detected o)
                   (_door_open o) (_last_email_sent o) (_last_picture_taken o)).
Definition photo_toggle : Attr t val :=
  mkAttr "photo_toggle" (fun o => Some (_photo_toggle o))
    (fun v o => mk (_pin o) (_switch o) (_buzzer o) (_motion o) (_emails o)
                   (_keep_on o) v (_motion_detected o)
                   (_door_open o) (_last_email_sent o) (_last_picture_taken o)).
Definition motion_detected : Attr t bool :=
  mkAttr "motion_detected" (fun o => Some (_motion_detected o))
    (fun v o => mk (_pin o) (_switch o) (_buzzer o) (_motion o) (_emails o)
                   (_keep_on o) (_photo_toggle o) v
                   (_door_open o) (_last_email_sent o) (_last_picture_taken o)).
Definition door_open : Attr t bool :=
  mkAttr "door_open" (fun o => Some (_door_open o))
    (fun v o => mk (_pin o) (_switch o) (_buzzer o) (_motion o) (_emails o)
                   (_keep_on o) (_photo_toggle o) (_motion_detected o)
                   v (_last_email_sent o) (_last_picture_taken o)).
Definition last_email_sent : Attr t (option Z) :=
  mkAttr "last_email_sent" (fun o => Some (_last_email_sent o))
    (fun v o => mk (_pin o) (_switch o) (_buzzer o) (_motion o) (_emails o)
                   (_keep_on o) (_photo_toggle o) (_motion_detected o)
                   (_door_open o) v (_last_picture_taken o)).
Definition last_picture_taken : Attr t (option Z) :=
  mkAttr "last_picture_taken" (fun o => Some (_last_picture_taken o))
    (fun v o => mk (_pin o) (_switch o) (_buzzer o) (_motion o) (_emails o)
                   (_keep_on o) (_photo_toggle o) (_motion_detected o)
                   (_door_open o) (_last_email_sent o) v).

(** [v.replace(" ", EMPTY).split(",")]: only a [str] has [replace]. *)
Definition recipients {S} (v : val) : M S (list string) :=
  match v with
  | VStr s => ret (split_comma (remove_spaces s))
  | _ => raise (AttributeError "replace")
  end.

Definition take_photo : M (t * World) unit :=
  world camera_take_photo ;;
  now <- world time_time ;;
  setattr last_picture_taken (Some now).

Definition send_email : M (t * World) unit :=
  e <- getattr emails ;;
  to <- recipients e ;;
  world (emailer_send_email to) ;;
  now <- world time_time ;;
  setattr last_email_sent (Some now).

Definition alert_mode : M (t * World) unit :=
  via buzzer SimpleOutput.on ;;
  (* send email every hour if door is open *)
  last <- getattr last_email_sent ;;
  due <- match last with
         | None => ret true
         | Some sent => now <- world time_time ;;
                        ret (now - sent >? EMAIL_MAX_TIME)
         end ;;
  (if due then send_email else ret tt) ;;
  (* take photo every three seconds if door is open *)
  last <- getattr last_picture_taken ;;
  due <- match last with
         | None => ret true
         | Some taken => now <- world time_time ;;
                         ret (now - taken >? PHOTO_MAX_TIME)
         end ;;
  if due then take_photo else ret tt.

Definition passive_mode : M (t * World) unit :=
  last <- getattr last_email_sent ;;
  match last with
  | Some _ => setattr last_email_sent None
  | None => ret tt
  end ;;
  via buzzer SimpleOutput.off.

Section Methods.
Variable debug : bool.

Definition __init__ (dic : dict) : M World t :=
  hw <- (if debug then
           catch (p <- getitem dic "pin" ;;
                  p1 <- getitem dic "pin" ;;
                  sw <- Switch.__init__ debug {[ "pin" := p1 ]} ;;
                  p2 <- getitem dic "pin_buzzer" ;;
                  bz <- SimpleOutput.__init__ debug {[ "pin" := p2 ]} ;;
                  p3 <- getitem dic "pin_motion" ;;
                  mo <- MotionSensor.__init__ debug {[ "pin" := p3 ]} ;;
                  em <- getitem dic "emails" ;;
                  ret (Some p, Some sw, Some bz, Some mo, Some em))
                 gpio_handler
         else ret (None, None, None, None, None)) ;;
  let '(p, sw, bz, mo, em) := hw in
  k <- getitem dic "keep_on" ;;
  pt <- getitem dic "photo_toggle" ;;
  ret (mk p sw bz mo em k pt false false None None).

Definition input (data : dict) : M (t * World) unit :=
  if debug then
    getattr switch ;;
    p1 <- getitem data "pin" ;;
    via switch (SimpleInput.input debug {[ "pin" := p1 ]}) ;;
    getattr buzzer ;;
    p2 <- getitem data "pin_buzzer" ;;
    via buzzer (SimpleOutput.input debug {[ "pin" := p2 ]}) ;;
    getattr motion ;;
    p3 <- getitem data "pin_motion" ;;
    via motion (SimpleInput.input debug {[ "pin" := p3 ]}) ;;

    em <- getitem data "emails" ;;
    setattr emails em ;;

    k <- getitem data "keep_on" ;;
    setattr keep_on k ;;
    a <- via switch (SimpleInput.is_active debug) ;;
    setattr door_open (negb a) ;;
    m <- via motion (SimpleInput.is_active debug) ;;
    setattr motion_detected m ;;

    pt <- getitem data "photo_toggle" ;;
    old <- getattr photo_toggle ;;
    (if py_ne pt old then
       take_photo ;;
       pt <- getitem data "photo_toggle" ;;
       setattr photo_toggle pt
     else ret tt) ;;

    k <- getattr keep_on ;;
    d <- getattr door_open ;;
    if truthy k && d then  (* Door is open when not home *)
      alert_mode
    else
      passive_mode
  else ret tt.

Definition output : M (t * World) unit :=
  if debug then
    d <- getattr door_open ;;
    let dic : dict := {[ "door_open" := VBool d ]} in
    m <- getattr motion_detected ;;
    dic <- (if m then
              s <- world time_strftime_c ;;
              take_photo ;;
              ret (<[ "motion" := VStr s ]> dic)
            else ret dic) ;;
    ph <- world get_newest_photo ;;
    let dic := <[ "photo" := ph ]> dic in
    p <- getattr pin ;;
    world (database_update dic p)
  else ret tt.

Definition close : M (t * World) unit :=
  if debug then
    via switch (SimpleInput.close debug) ;;
    via buzzer (SimpleOutput.close debug) ;;
    via motion (SimpleInput.close debug)
  else ret tt.

End Methods.

(** [v.replace(" ", EMPTY)]: only a [str] has [replace]. *)
Definition without_spaces {S} (v : val) : M S val :=
  match v with
  | VStr s => ret (VStr (remove_spaces s))
  | _ => raise (AttributeError "replace")
  end.

Definition to_dic (cls : string) (form : dict) : M World dict :=
  dic <- RemoteInterface.to_dic cls form ;;
  pb <- form_data form "pin_buzzer" ;;
  let dic := <[ "pin_buzzer" := pb ]> dic in
  pm <- form_data form "pin_motion" ;;
  let dic := <[ "pin_motion" := pm ]> dic in
  k <- form_data form "keep_on" ;;
  let dic := <[ "keep_on" := k ]> dic in
  let dic := <[ "door_open" := VNone ]> dic in
  let dic := <[ "motion" := VNone ]> dic in
  let dic := <[ "photo_toggle" := VBool false ]> dic in
  ph <- get_newest_photo ;;
  let dic := <[ "photo" := ph ]> dic in
  e <- form_data form "emails" ;;
  e <- without_spaces e ;;
  ret (<[ "emails" := e ]> dic).

End AlarmSystem.

(** ** A pollable input as one object

    [RemoteAbstract], [SimpleInput] and its two subclasses define methods of
    one and the same [self]; an inherited method can reach every attribute of
    it.  Here the object has the four attributes the classes of that chain
    assign, and each method of the chain runs on the whole of it. *)

Module Instance.

Record t := mk {
  _pin : option val;
  _Type : option DevType;
  _device : option Device;
  _data : option val
}.

Definition pin : Attr t val :=
  mkAttr "pin" _pin (fun v o => mk (Some v) (_Type o) (_device o) (_data o)).
Definition Type_ : Attr t DevType :=
  mkAttr "Type" _Type (fun v o => mk (_pin o) (Some v) (_device o) (_data o)).
Definition device : Attr t Device :=
  mkAttr "device" _device (fun v o => mk (_pin o) (_Type o) (Some v) (_data o)).
Definition data : Attr t val :=
  mkAttr "data" _data (fun v o => mk (_pin o) (_Type o) (_device o) (Some v)).

Section Methods.
Variable debug : bool.   (* [__debug__] *)

(** [RemoteAbstract.close] *)
Definition close : M (t * World) unit :=
  if debug then via device device_close else ret tt.

(** [RemoteAbstract._change_pin] *)
Definition _change_pin (new_pin : val) : M (t * World) unit :=
  close ;;
  if debug then
    catch (ty <- getattr Type_ ;;
           p <- getattr pin ;;
           d <- world (new_device ty p) ;;
           setattr device d)
          gpio_handler
  else ret tt.

(** [RemoteAbstract.input] *)
Definition input (dic : dict) : M (t * World) unit :=
  p <- getattr pin ;;
  q <- getitem dic "pin" ;;
  if py_ne p q then
    setattr pin q ;;
    p' <- getattr pin ;;
    _change_pin p'
  else ret tt.

(** [RemoteAbstract.output] *)
Definition RemoteAbstract_output (fields : option dict) : M (t * World) unit :=
  match fields with
  | Some f => p <- getattr pin ;; world (database_update f p)
  | None => ret tt
  end.

(** [SimpleInput.is_active] *)
Definition is_active : M (t * World) bool :=
  if debug then via device device_is_active else ret true.

(** [SimpleInput.output] *)
Definition SimpleInput_output (fields : option dict) : M (t * World) unit :=
  fields <- match fields with
            | None => d <- getattr data ;; ret {[ "data" := d ]}
            | Some f => ret f
            end ;;
  RemoteAbstract_output (Some fields).

(** [MotionSensor.output] *)
Definition MotionSensor_output : M (t * World) unit :=
  a <- is_active ;;
  (if a then
     now <- world time_time ;;
     setattr data (VInt now)
   else ret tt) ;;
  SimpleInput_output None.

(** [Switch.output] *)
Definition Switch_output : M (t * World) unit :=
  a <- is_active ;;
  (if a then setattr data (VStr "ON")
   else setattr data (VStr "OFF")) ;;
  SimpleInput_output None.

End Methods.

(** The object a [SimpleInput] record stands for. *)
Definition of_record (s : SimpleInput.t) : t :=
  mk (Some (RemoteAbstract._pin (SimpleInput._super s)))
     (RemoteAbstract._Type (SimpleInput._super s))
     (RemoteAbstract._device (SimpleInput._super s))
     (Some (SimpleInput._data s)).

(** A run on a record, seen on the object. *)
Definition lift {A} (r : Res A * (SimpleInput.t * World))
  : Res A * (t * World) :=
  (fst r, (of_record (fst (snd r)), snd (snd r))).

End Instance.

(** ** Reading the model *)

(** What the caller of an acquisition sees of the pin factory's error. *)
Definition translated (e : exn) : exn :=
  match e with
  | GPIOZeroError msg => ValueError msg
  | _ => e
  end.

(** The world once the open device [d] has been closed. *)
Definition released (d : Device) (w : World) : World :=
  emit (Release (dpin d)) (with_reserved (reserved w ∖ {[dpin d]}) w).

(** The level an event commands on output pin [p], if it commands one. *)
Definition command (p : Z) (e : event) : option bool :=
  match e with
  | On q => if decide (p = q) then Some true else None
  | Off q => if decide (p = q) then Some false else None
  | _ => None
  end.

(** The last level commanded on output pin [p], if any. *)
Definition level (p : Z) (l : list event) : option bool :=
  last (omap (command p) l).

Definition is_pin_event (e : event) : bool :=
  match e with Acquire _ _ | Release _ => true | _ => false end.

Definition is_buzzer_command (e : event) : bool :=
  match e with On _ | Off _ => true | _ => false end.

(** A rate limiter lets its action through when no timestamp is set or more
    than [max] seconds separate [now] from the timestamp. *)
Definition limiter_due (max : Z) (last : option Z) (now : Z) : bool :=
  match last with
  | None => true
  | Some t => now - t >? max
  end.

(** Clock readings a limiter's test takes: none while the timestamp is unset
    ([or] does not evaluate its right operand). *)
Definition checks (last : option Z) : nat :=
  match last with None => 0 | Some _ => 1 end.

(** The reading [alert_mode] tests the photo limiter against: the first one
    left by the email limiter, which takes one reading for its test when a
    timestamp is set and one more when it sends. *)
Definition photo_check_tick (a : AlarmSystem.t) (w : World) : nat :=
  let last := AlarmSystem._last_email_sent a in
  (ticks w + checks last
   + Nat.b2n (limiter_due 3600 last (clock w (ticks w))))%nat.

(** The recipients [send_email] hands to the emailer. *)
Definition mail_to (a : AlarmSystem.t) : list string :=
  match AlarmSystem._emails a with
  | Some (VStr s) => split_comma (remove_spaces s)
  | _ => []
  end.

Local Open Scope list_scope.

(** From [w] to [w'] only pins were released and acquired. *)
Definition pin_only (w w' : World) : Prop :=
  resolve w' = resolve w /\ sensed w' = sensed w /\ clock w' = clock w /\
  strftime_c w' = strftime_c w /\ ticks w' = ticks w /\
  exists evs, log w' = log w ++ evs /\ forallb is_pin_event evs = true.

(** The pin an object holds: that of its gpiozero device while it is open. *)
Definition held_pin (r : RemoteAbstract.t) : option Z :=
  match RemoteAbstract._device r with
  | Some d => if closed d then None else Some (dpin d)
  | None => None
  end.

(** The pins the three sub-devices of an alarm hold. *)
Definition held_pins (a : AlarmSystem.t) : list Z :=
  omap (fun o : option RemoteAbstract.t => o ≫= held_pin)
       [ SimpleInput._super <$> AlarmSystem._switch a;
         AlarmSystem._buzzer a;
         SimpleInput._super <$> AlarmSystem._motion a ].

(** An alarm is well bound in a world when its open sub-devices sit on
    pairwise different pins, each of them reserved. *)
Definition well_bound (s : AlarmSystem.t * World) : Prop :=
  NoDup (held_pins (fst s)) /\ forall n, n ∈ held_pins (fst s) -> n ∈ reserved (snd s).

(** [m] keeps [I], whether it returns or raises. *)
Definition preserves {S A} (I : S -> Prop) (m : M S A) : Prop :=
  forall s, I s -> I (snd (m s)).

(** [m], whether it returns or raises, keeps the pins [P] of other devices
    reserved and leaves the object [sub o] on a reserved pin outside [P], or
    on none. *)
Definition rebinds {O A} (sub : O -> RemoteAbstract.t) (m : M (O * World) A) : Prop :=
  forall (P : Z -> Prop) o w res o' w',
    m (o, w) = (res, (o', w')) ->
    (forall k, P k -> k ∈ reserved w) ->
    (forall n, held_pin (sub o) = Some n -> n ∈ reserved w /\ ~ P n) ->
    (forall k, P k -> k ∈ reserved w') /\
    (forall n, held_pin (sub o') = Some n -> n ∈ reserved w' /\ ~ P n).

(** A board and a configuration to run the model on. *)
Module Example.

Definition board (v : val) : exn + Z :=
  match v with
  | VInt n =>
      if ((4 <=? n)%Z && (n <=? 26)%Z)%bool then inr n
      else inl (GPIOZeroError "invalid pin")
  | _ => inl (OtherError "not a pin")
  end.

(** Nothing acquired yet; pin 4 reads active; the clock starts at [t0] and
    advances one second per reading. *)
Definition boot (t0 : Z) : World :=
  mkWorld board (fun p => Z.eqb p 4) (fun n => t0 + Z.of_nat n)
          (fun _ => "Tue Nov  3 17:04:00 2026") 0 ∅ [].

Definition config : dict :=
  {[ "pin" := VInt 4; "pin_buzzer" := VInt 5; "pin_motion" := VInt 6;
     "emails" := VStr "a@b.c, d@e.f";
     "keep_on" := VBool true; "photo_toggle" := VBool false ]}.

Definition button (n : Z) : RemoteAbstract.t :=
  RemoteAbstract.mk (VInt n) (Some Button) (Some (mkDevice Button n false)).

Definition output_device (n : Z) : RemoteAbstract.t :=
  RemoteAbstract.mk (VInt n) (Some OutputDevice)
                    (Some (mkDevice OutputDevice n false)).

Definition motion_sensor (n : Z) : SimpleInput.t :=
  SimpleInput.mk
    (RemoteAbstract.mk (VInt n) (Some Motion) (Some (mkDevice Motion n false)))
    VNone.

(** An alarm on pins 4, 5 and 6 as its constructor leaves it, with the two
    timestamps and the derived flags given. *)
Definition alarm (keep_on photo_toggle : bool) (motion_detected door_open : bool)
           (last_email_sent last_picture_taken : option Z) : AlarmSystem.t :=
  AlarmSystem.mk (Some (VInt 4)) (Some (SimpleInput.mk (button 4) VNone))
                 (Some (output_device 5)) (Some (motion_sensor 6))
                 (Some (VStr "a@b.c, d@e.f"))
                 (VBool keep_on) (VBool photo_toggle)
                 motion_detected door_open
                 last_email_sent last_picture_taken.

(** The world in which that alarm's three pins are held. *)
Definition running (t0 : Z) : World :=
  mkWorld board (fun p => Z.eqb p 4) (fun n => t0 + Z.of_nat n)
          (fun _ => "Tue Nov  3 17:04:00 2026") 0 {[4; 5; 6]}
          [Acquire Button 4; Acquire OutputDevice 5; Acquire Motion 6].

(** The same world with the clock stopped at [t0]. *)
Definition frozen (t0 : Z) : World :=
  mkWorld board (fun p => Z.eqb p 4) (fun _ => t0)
          (fun _ => "Tue Nov  3 17:04:00 2026") 0 {[4; 5; 6]}
          [Acquire Button 4; Acquire OutputDevice 5; Acquire Motion 6].

End Example.

(** * Properties *)

(** ** Running computations *)

Arguments bind : simpl never.
Arguments catch : simpl never.
Arguments via : simpl never.
Arguments world : simpl never.
Arguments getattr : simpl never.
Arguments setattr : simpl never.
Arguments getitem : simpl never.
Arguments new_device : simpl never.
Arguments emit : simpl never.
Arguments tick : simpl never.
Arguments with_reserved : simpl never.
Arguments released : simpl never.

Section Run.
Context {S A B : Type}.

Lemma ret_run (a : A) (s : S) : ret a s = (Ok a, s).
Proof. reflexivity. Qed.

Lemma raise_run (e : exn) (s : S) : raise (A:=A) e s = (Raise e, s).
Proof. reflexivity. Qed.

Lemma bind_run (m : M S A) (k : A -> M S B) s :
  bind m k s = match m s with
               | (Ok a, s') => k a s'
               | (Raise e, s') => (Raise e, s')
               end.
Proof. reflexivity. Qed.

Lemma catch_run (m : M S A) (h : exn -> M S A) s :
  catch m h s = match m s with
                | (Ok a, s') => (Ok a, s')
                | (Raise e, s') => h e s'
                end.
Proof. reflexivity. Qed.

Lemma bind_Ok (m : M S A) (k : A -> M S B) s b s' :
  bind m k s = (Ok b, s') ->
  exists a s1, m s = (Ok a, s1) /\ k a s1 = (Ok b, s').
Proof.
  rewrite bind_run. destruct (m s) as [[a|e] s1]; [eauto | discriminate].
Qed.

Lemma getitem_run (d : dict) key (s : S) :
  getitem d key s = match d !! key with
                    | Some v => (Ok v, s)
                    | None => (Raise (KeyError key), s)
                    end.
Proof. unfold getitem. destruct (d !! key); reflexivity. Qed.

Lemma getitem_Ok (d : dict) key (s : S) v s' :
  getitem d key s = (Ok v, s') -> d !! key = Some v /\ s' = s.
Proof.
  rewrite getitem_run. destruct (d !! key); intros [= <- <-]; auto.
Qed.

Lemma gpio_handler_run (e : exn) (s : S) :
  gpio_handler (A:=A) e s = (Raise (translated e), s).
Proof. destruct e; reflexivity. Qed.

End Run.

Section RunObject.
Context {O P A : Type}.

Lemma world_run (m : M World A) (o : O) w :
  world m (o, w) = let (r, w') := m w in (r, (o, w')).
Proof. reflexivity. Qed.

Lemma getattr_run (x : Attr O P) o w :
  getattr x (o, w) = match attr_get x o with
                     | Some p => (Ok p, (o, w))
                     | None => (Raise (AttributeError (attr_name x)), (o, w))
                     end.
Proof. reflexivity. Qed.

Lemma setattr_run (x : Attr O P) v o w :
  setattr x v (o, w) = (Ok tt, (attr_set x v o, w)).
Proof. reflexivity. Qed.

Lemma via_run (x : Attr O P) (m : M (P * World) A) o w :
  via x m (o, w) = match attr_get x o with
                   | Some p => let '(r, (p', w')) := m (p, w) in
                               (r, (attr_set x p' o, w'))
                   | None => (Raise (AttributeError (attr_name x)), (o, w))
                   end.
Proof. reflexivity. Qed.

End RunObject.

(** One step of a run: expose the next operation and reduce what is known. *)
Ltac run1 :=
  first [ rewrite bind_run | rewrite catch_run | rewrite via_run
        | rewrite world_run | rewrite getattr_run | rewrite setattr_run
        | rewrite getitem_run | rewrite ret_run | rewrite raise_run
        | rewrite gpio_handler_run ].
Ltac run := cbn; repeat (run1; cbn).

(** Read the fields of a world built by the program's effects. *)
Ltac wsimpl :=
  unfold released, emit, tick, with_reserved in *;
  cbn [log reserved ticks clock sensed resolve strftime_c] in *.

Lemma translated_not_gpio e msg : translated e <> GPIOZeroError msg.
Proof. destruct e; discriminate. Qed.

Lemma new_device_Ok ty q w d w' :
  new_device ty q w = (Ok d, w') ->
  resolve w q = inr (dpin d) /\ (dpin d ∉ reserved w) /\
  d = mkDevice ty (dpin d) false /\
  w' = emit (Acquire ty (dpin d)) (with_reserved ({[dpin d]} ∪ reserved w) w).
Proof.
  unfold new_device. destruct (resolve w q) as [e|n]; [discriminate|].
  case_decide; [discriminate|]. intros [= <- <-]. auto.
Qed.

Lemma new_device_Raise ty q w e w' :
  new_device ty q w = (Raise e, w') -> w' = w.
Proof.
  unfold new_device. destruct (resolve w q) as [e0|n]; [congruence|].
  case_decide; congruence.
Qed.

(** ** Construction in no-hardware mode *)

Lemma mangle_private (cls name : string) (c : ascii) (rest : string) :
  is_private name = true ->
  strip_underscores cls = String c rest ->
  mangle cls name = String "_"%char (String c rest ++ name).
Proof. intros Hp Hc. unfold mangle. now rewrite Hp, Hc. Qed.

(** No class above [Switch] binds a name that begins with [_Switch]. *)
Lemma super_getattr_Switch_private (name : string) :
  super_getattr CSwitch ("_Switch" ++ name) = None.
Proof.
  unfold super_getattr, mro. cbn [mro_from base tail List.find].
  assert (H : forall c, In c [CSimpleInput; CRemoteAbstract; CRemoteInterface;
                               CObject] ->
                        binds ("_Switch" ++ name) c = false).
  { intros c Hc. apply bool_decide_eq_false_2. cbn in Hc.
    destruct Hc as [<-|[<-|[<-|[<-|[]]]]]; cbn [class_body];
      rewrite ?elem_of_cons, elem_of_nil; cbn;
      intros Hin; repeat destruct Hin as [Hin|Hin];
      first [discriminate Hin | exact Hin]. }
  rewrite !H by (cbn; tauto). reflexivity.
Qed.

(** C10: with [__debug__] off, [Switch(dic)] raises [AttributeError] for every
    configuration record and every world, and leaves the world as it was.
    The [else] branch asks [super()] for [__init]; in the body of [Switch]
    that identifier stands for [_Switch__init], and the search through the
    classes above [Switch] finds no such name, as it would find none for any
    other private name.  Spelled [__init__] the name is kept as it is and
    found in [SimpleInput], whose constructor the call would then be. *)
Theorem Switch_init_no_debug (dic : dict) (w : World) :
  Switch.__init__ false dic w = (Raise (AttributeError "_Switch__init"), w) /\
  mangle (class_name CSwitch) "__init" = "_Switch__init" /\
  (forall name, is_private name = true ->
     super_getattr CSwitch (mangle (class_name CSwitch) name) = None) /\
  super_getattr CSwitch (mangle (class_name CSwitch) "__init__")
  = Some CSimpleInput /\
  Switch.super_call false "__init__" dic = SimpleInput.__init__ false dic None.
Proof.
  assert (Hpriv : forall name, is_private name = true ->
            super_getattr CSwitch (mangle (class_name CSwitch) name) = None).
  { intros name Hp.
    rewrite (mangle_private (class_name CSwitch) name "S" "witch" Hp eq_refl).
    apply (super_getattr_Switch_private name). }
  assert (Hm : mangle (class_name CSwitch) "__init" = "_Switch__init").
  { now rewrite (mangle_private (class_name CSwitch) "__init" "S" "witch"
                               eq_refl eq_refl). }
  split; [|split; [exact Hm|split; [exact Hpriv|split; reflexivity]]].
  unfold Switch.__init__, Switch.super_call.
  rewrite (Hpriv "__init" eq_refl), Hm. reflexivity.
Qed.

(** ** Reconfiguration of a device *)

(** C6: [input] on a device bound through an open gpiozero device.  A pin
    equal to the current one changes nothing.  A different pin is stored, the
    old binding is released first, and the new pin is acquired in the world
    where the old one is already free: on success the device is bound to the
    new pin, the log showing the release before the acquisition; on failure
    the device stays closed, its old pin is no longer reserved, and the caller
    gets [ValueError] for a gpiozero error and the error itself otherwise. *)
Theorem RemoteAbstract_input_reconfigure
    (r : RemoteAbstract.t) (w : World) (data : dict) (q : val)
    (ty : DevType) (d : Device) :
  data !! "pin" = Some q ->
  RemoteAbstract._Type r = Some ty ->
  RemoteAbstract._device r = Some d ->
  closed d = false ->
  let run := RemoteAbstract.input true data (r, w) in
  if py_eq (RemoteAbstract._pin r) q then run = (Ok tt, (r, w))
  else
    match new_device ty q (released d w) with
    | (Ok d', w1) =>
        run = (Ok tt, (RemoteAbstract.mk q (Some ty) (Some d'), w1)) /\
        closed d' = false /\
        log w1 = log w ++ [Release (dpin d); Acquire ty (dpin d')]
    | (Raise e, _) =>
        run = (Raise (translated e),
               (RemoteAbstract.mk q (Some ty)
                                  (Some (mkDevice (dtype d) (dpin d) true)),
                released d w)) /\
        (forall msg, translated e <> GPIOZeroError msg) /\
        (dpin d ∉ reserved (released d w)) /\
        log (released d w) = log w ++ [Release (dpin d)]
    end.
Proof.
  intros Hq Hty Hd Hopen run0. subst run0.
  destruct r as [p ty0 d0], d as [dty dp c]; simpl in *; subst ty0 d0 c.
  unfold RemoteAbstract.input, py_ne. run. rewrite Hq.
  destruct (py_eq p q) eqn:Hpq; cbn; [reflexivity|].
  unfold RemoteAbstract._change_pin, RemoteAbstract.close, device_close. run.
  change (emit (Release dp) (with_reserved (reserved w ∖ {[dp]}) w))
    with (released (mkDevice dty dp false) w).
  destruct (new_device ty q (released (mkDevice dty dp false) w))
    as [[d'|e] w1] eqn:Hnew; run.
  - apply new_device_Ok in Hnew as (_ & _ & -> & ->).
    wsimpl. rewrite <- app_assoc. auto.
  - apply new_device_Raise in Hnew as ->.
    split; [reflexivity|]. split; [intros; apply translated_not_gpio|].
    wsimpl. split; [|reflexivity].
    apply not_elem_of_difference. right. apply elem_of_singleton. reflexivity.
Qed.

(** A device on pin 4 asked to move to pin 30, which the board refuses. *)
Lemma RemoteAbstract_input_reconfigure_witness :
  let r := Example.button 4 in
  let w := Example.running 0 in
  let data : dict := {[ "pin" := VInt 30 ]} in
  fst (RemoteAbstract.input true data (r, w)) = Raise (ValueError "invalid pin") /\
  4 ∉ reserved (released (mkDevice Button 4 false) w).
Proof.
  intros r w data.
  pose proof (RemoteAbstract_input_reconfigure r w data (VInt 30) Button
                (mkDevice Button 4 false)
                eq_refl eq_refl eq_refl eq_refl) as H.
  simpl in H. destruct H as (-> & _ & H & _). split; [reflexivity | exact H].
Defined.

(** ** Pollable inputs *)

(** C8: [MotionSensor.output] with hardware enabled.  When [is_active()]
    answers true the cached [data] becomes the clock reading taken at that
    moment (integer seconds); when it answers false, or raises, [data] is what
    it was before the call. *)
Theorem MotionSensor_output_sticky (s : MotionSensor.t) (w : World) :
  let '(res, (s', _)) := MotionSensor.output true (s, w) in
  match fst (SimpleInput.is_active true (s, w)) with
  | Ok true => res = Ok tt /\ SimpleInput._data s' = VInt (clock w (ticks w))
  | Ok false => res = Ok tt /\ SimpleInput._data s' = SimpleInput._data s
  | Raise e => res = Raise e /\ SimpleInput._data s' = SimpleInput._data s
  end.
Proof.
  destruct s as [[p ty [[dty n [|]]|]] dat];
    unfold MotionSensor.output, SimpleInput.is_active, SimpleInput.output,
           RemoteAbstract.output, device_is_active, time_time, database_update;
    run; try (split; reflexivity).
  destruct (sensed w n); run; split; reflexivity.
Qed.

(** ** The two modes of the alarm *)

Local Arguments Z.gtb : simpl never.
Local Arguments Z.sub : simpl never.

Lemma take_photo_run (a : AlarmSystem.t) (w : World) :
  AlarmSystem.take_photo (a, w) =
    (Ok tt, (attr_set AlarmSystem.last_picture_taken
                      (Some (clock w (ticks w))) a,
             tick (emit Photo w))).
Proof.
  unfold AlarmSystem.take_photo, camera_take_photo, time_time. run. reflexivity.
Qed.

(** What a successful [alert_mode] did, reading by reading. *)
Lemma alert_mode_Ok (a : AlarmSystem.t) (w : World) a' w' :
  AlarmSystem.alert_mode (a, w) = (Ok tt, (a', w')) ->
  exists bz db,
    AlarmSystem._buzzer a = Some bz /\
    RemoteAbstract._device bz = Some db /\ closed db = false /\
    let le := AlarmSystem._last_email_sent a in
    let lp := AlarmSystem._last_picture_taken a in
    let ed := limiter_due 3600 le (clock w (ticks w)) in
    let n1 := (ticks w + checks le + Nat.b2n ed)%nat in
    let pd := limiter_due 3 lp (clock w n1) in
    let n2 := (n1 + checks lp + Nat.b2n pd)%nat in
    (ed = true -> exists s, AlarmSystem._emails a = Some (VStr s)) /\
    a' = AlarmSystem.mk
           (AlarmSystem._pin a) (AlarmSystem._switch a) (AlarmSystem._buzzer a)
           (AlarmSystem._motion a) (AlarmSystem._emails a)
           (AlarmSystem._keep_on a) (AlarmSystem._photo_toggle a)
           (AlarmSystem._motion_detected a) (AlarmSystem._door_open a)
           (if ed then Some (clock w (ticks w + checks le)%nat) else le)
           (if pd then Some (clock w (n1 + checks lp)%nat) else lp) /\
    w' = mkWorld (resolve w) (sensed w) (clock w) (strftime_c w) n2 (reserved w)
           (log w ++ [On (dpin db)]
                  ++ (if ed then [Email (mail_to a)] else [])
                  ++ (if pd then [Photo] else [])).
Proof.
  destruct a as [p sw bz mo em k pt md dop le lp]; cbn.
  unfold AlarmSystem.alert_mode, SimpleOutput.on, device_on,
         AlarmSystem.send_email, AlarmSystem.recipients, AlarmSystem.take_photo,
         camera_take_photo, emailer_send_email, time_time,
         AlarmSystem.EMAIL_MAX_TIME, AlarmSystem.PHOTO_MAX_TIME.
  destruct bz as [[pb tyb [[dty dn [|]]|]]|]; run; try discriminate.
  intros H. exists (RemoteAbstract.mk pb tyb (Some (mkDevice dty dn false))),
                   (mkDevice dty dn false).
  repeat (split; [reflexivity|]). revert H.
  unfold mail_to; cbn [AlarmSystem._emails].
  destruct le as [sent|]; cbn [limiter_due checks]; run; wsimpl;
    [destruct (clock w (ticks w) - sent >? 3600) eqn:Hed; run; wsimpl|];
    cbn [Nat.b2n];
    try (destruct em as [[| | |s]|]; run; wsimpl; try discriminate);
    (destruct lp as [taken|]; cbn [limiter_due checks]; run; wsimpl;
     [match goal with
      | |- context [clock w ?n - taken >? 3] =>
          destruct (clock w n - taken >? 3) eqn:Hpd
      end; run; wsimpl|]).
  all: cbn [Nat.b2n]; rewrite ?Nat.add_0_r, ?Nat.add_1_r;
       try rewrite Hpd; cbn [Nat.b2n]; rewrite ?Nat.add_0_r, ?Nat.add_1_r;
       intros [= <- <-]; rewrite <- ?app_assoc;
       (split; [first [discriminate | eauto]|]); split; reflexivity.
Qed.

Lemma passive_mode_Ok (a : AlarmSystem.t) (w : World) a' w' :
  AlarmSystem.passive_mode (a, w) = (Ok tt, (a', w')) ->
  exists bz db,
    AlarmSystem._buzzer a = Some bz /\
    RemoteAbstract._device bz = Some db /\ closed db = false /\
    a' = AlarmSystem.mk
           (AlarmSystem._pin a) (AlarmSystem._switch a) (AlarmSystem._buzzer a)
           (AlarmSystem._motion a) (AlarmSystem._emails a)
           (AlarmSystem._keep_on a) (AlarmSystem._photo_toggle a)
           (AlarmSystem._motion_detected a) (AlarmSystem._door_open a)
           None (AlarmSystem._last_picture_taken a) /\
    w' = emit (Off (dpin db)) w.
Proof.
  destruct a as [p sw bz mo em k pt md dop le lp]; cbn.
  unfold AlarmSystem.passive_mode, SimpleOutput.off, device_off.
  destruct le as [sent|], bz as [[pb tyb [[dty dn [|]]|]]|];
    run; try discriminate; intros [= <- <-]; eexists _, _; eauto 6.
Qed.

(** ** One control cycle: [AlarmSystem.input] *)

Arguments AlarmSystem.alert_mode : simpl never.
Arguments AlarmSystem.passive_mode : simpl never.
Arguments AlarmSystem.take_photo : simpl never.
Arguments RemoteAbstract.input : simpl never.
Arguments SimpleInput.input : simpl never.
Arguments SimpleOutput.input : simpl never.
Arguments SimpleInput.is_active : simpl never.

Lemma pin_only_refl w : pin_only w w.
Proof.
  repeat (split; [reflexivity|]). exists []. rewrite app_nil_r. auto.
Qed.

Lemma pin_only_trans w1 w2 w3 : pin_only w1 w2 -> pin_only w2 w3 -> pin_only w1 w3.
Proof.
  intros (A1 & B1 & C1 & D1 & E1 & e1 & H1 & F1)
         (A2 & B2 & C2 & D2 & E2 & e2 & H2 & F2).
  repeat (split; [congruence|]). exists (e1 ++ e2).
  rewrite H2, H1, app_assoc, forallb_app, F1, F2. auto.
Qed.

Lemma pin_only_emit w e : is_pin_event e = true -> pin_only w (emit e w).
Proof.
  intros He. repeat (split; [reflexivity|]). exists [e]. cbn. rewrite He. auto.
Qed.

Lemma pin_only_reserved w r : pin_only w (with_reserved r w).
Proof.
  repeat (split; [reflexivity|]). exists []. cbn. rewrite app_nil_r. auto.
Qed.

Lemma new_device_pin_only ty q w res w' :
  new_device ty q w = (res, w') -> pin_only w w'.
Proof.
  destruct res as [d|e]; intros H.
  - apply new_device_Ok in H as (_ & _ & _ & ->).
    eapply pin_only_trans; [apply pin_only_reserved | now apply pin_only_emit].
  - apply new_device_Raise in H as ->. apply pin_only_refl.
Qed.

(** A reconfiguration, whatever its outcome, touches only pins. *)
Lemma RemoteAbstract_input_pin_only debug d r w res r' w' :
  RemoteAbstract.input debug d (r, w) = (res, (r', w')) -> pin_only w w'.
Proof.
  unfold RemoteAbstract.input, RemoteAbstract._change_pin, RemoteAbstract.close,
         device_close, py_ne.
  destruct r as [p ty dv]. run. destruct (d !! "pin") as [q|]; cbn;
    [|intros [= _ _ <-]; apply pin_only_refl].
  destruct (py_eq p q); cbn; [intros [= _ _ <-]; apply pin_only_refl|].
  run. destruct debug; run; [|intros [= _ _ <-]; apply pin_only_refl].
  destruct dv as [[dty dn c]|]; run; [|intros [= _ _ <-]; apply pin_only_refl].
  destruct c; run;
    (destruct ty as [ty|]; run; [|intros [= _ _ <-]]).
  all: try match goal with
       | |- context [new_device ?t ?q ?w0] =>
           destruct (new_device t q w0) as [[d'|e] w1] eqn:Hnew;
           apply new_device_pin_only in Hnew; run; intros [= _ _ <-]
       end.
  all: try assumption; try apply pin_only_refl.
  all: try (eapply pin_only_trans; [|eassumption]).
  all: try (eapply pin_only_trans; [apply pin_only_reserved | now apply pin_only_emit]).
Qed.

Lemma SimpleInput_input_pin_only debug d s w res s' w' :
  SimpleInput.input debug d (s, w) = (res, (s', w')) -> pin_only w w'.
Proof.
  unfold SimpleInput.input. rewrite via_run; cbn.
  destruct (RemoteAbstract.input debug d (SimpleInput._super s, w))
    as [r0 [r1 w1]] eqn:H.
  intros [= _ _ <-]. eapply RemoteAbstract_input_pin_only, H.
Qed.

(** The alarm hands its buzzer a dictionary that holds the pin alone, so the
    buzzer's [input] stops after the reconfiguration. *)
Lemma SimpleOutput_input_pin_only debug p r w res r' w' :
  SimpleOutput.input debug {[ "pin" := p ]} (r, w) = (res, (r', w')) ->
  pin_only w w'.
Proof.
  unfold SimpleOutput.input. rewrite bind_run.
  destruct (RemoteAbstract.input debug {[ "pin" := p ]} (r, w))
    as [[[]|e] [r1 w1]] eqn:H; apply RemoteAbstract_input_pin_only in H.
  - rewrite lookup_singleton_ne by discriminate.
    rewrite bool_decide_eq_false_2 by (intros [? ?]; discriminate).
    rewrite andb_false_r. intros [= _ _ <-]. exact H.
  - intros [= _ _ <-]. exact H.
Qed.

Lemma SimpleInput_is_active_Ok s w act s' w' :
  SimpleInput.is_active true (s, w) = (Ok act, (s', w')) ->
  s' = s /\ w' = w /\
  exists d, RemoteAbstract._device (SimpleInput._super s) = Some d /\
            closed d = false /\ act = sensed w (dpin d).
Proof.
  unfold SimpleInput.is_active, device_is_active.
  destruct s as [[p ty [[dty dn [|]]|]] dat]; run; try discriminate.
  intros [= <- <- <-]. eauto 7.
Qed.

(** A control cycle that returns: the three reconfigurations touched only
    pins, both sensors were read, the photo toggle was served, and the mode
    chosen by [keep_on and door_open] ran last. *)
Lemma AlarmSystem_input_Ok (data : dict) (a : AlarmSystem.t) (w : World) a' w' :
  AlarmSystem.input true data (a, w) = (Ok tt, (a', w')) ->
  exists k pt em sw bz mo ds dm w1,
    data !! "keep_on" = Some k /\ data !! "photo_toggle" = Some pt /\
    data !! "emails" = Some em /\
    pin_only w w1 /\
    RemoteAbstract._device (SimpleInput._super sw) = Some ds /\
    closed ds = false /\
    RemoteAbstract._device (SimpleInput._super mo) = Some dm /\
    closed dm = false /\
    let door := negb (sensed w (dpin ds)) in
    let toggled := py_ne pt (AlarmSystem._photo_toggle a) in
    (if truthy k && door then AlarmSystem.alert_mode
     else AlarmSystem.passive_mode)
      (AlarmSystem.mk
         (AlarmSystem._pin a) (Some sw) (Some bz) (Some mo) (Some em) k
         (if toggled then pt else AlarmSystem._photo_toggle a)
         (sensed w (dpin dm)) door (AlarmSystem._last_email_sent a)
         (if toggled then Some (clock w (ticks w))
          else AlarmSystem._last_picture_taken a),
       if toggled then tick (emit Photo w1) else w1)
    = (Ok tt, (a', w')).
Proof.
  destruct a as [p sw bz mo em0 k0 pt0 md dop le lp].
  unfold AlarmSystem.input. run.
  destruct sw as [sw|]; run; [|discriminate].
  destruct (data !! "pin") as [p1|]; run; [|discriminate].
  destruct (SimpleInput.input true {[ "pin" := p1 ]} (sw, w))
    as [[[]|e] [sw' w1]] eqn:H1; run; [|discriminate].
  apply SimpleInput_input_pin_only in H1.
  destruct bz as [bz|]; run; [|discriminate].
  destruct (data !! "pin_buzzer") as [p2|]; run; [|discriminate].
  destruct (SimpleOutput.input true {[ "pin" := p2 ]} (bz, w1))
    as [[[]|e] [bz' w2]] eqn:H2; run; [|discriminate].
  apply SimpleOutput_input_pin_only in H2.
  destruct mo as [mo|]; run; [|discriminate].
  destruct (data !! "pin_motion") as [p3|]; run; [|discriminate].
  destruct (SimpleInput.input true {[ "pin" := p3 ]} (mo, w2))
    as [[[]|e] [mo' w3]] eqn:H3; run; [|discriminate].
  apply SimpleInput_input_pin_only in H3.
  pose proof (pin_only_trans _ _ _ (pin_only_trans _ _ _ H1 H2) H3) as Hw.
  clear H1 H2 H3.
  destruct (data !! "emails") as [em|]; run; [|discriminate].
  destruct (data !! "keep_on") as [k|]; run; [|discriminate].
  match goal with
  | |- context [SimpleInput.is_active true ?s] =>
      destruct (SimpleInput.is_active true s) as [[act|e] [sw2 w4]] eqn:Hsw
  end; run; [|discriminate].
  apply SimpleInput_is_active_Ok in Hsw as (-> & -> & ds & Hds & Hcs & ->).
  match goal with
  | |- context [SimpleInput.is_active true ?s] =>
      destruct (SimpleInput.is_active true s) as [[actm|e] [mo2 w4]] eqn:Hmo
  end; run; [|discriminate].
  apply SimpleInput_is_active_Ok in Hmo as (-> & -> & dm & Hdm & Hcm & ->).
  destruct (data !! "photo_toggle") as [pt|] eqn:Hpt; run; [|discriminate].
  intros H. exists k, pt, em, sw', bz', mo', ds, dm, w3.
  repeat (split; [first [reflexivity | assumption]|]).
  destruct Hw as (_ & Hs & Hc & _ & Ht & _). cbn zeta.
  rewrite <- Hs, <- Hc, <- Ht. revert H.
  destruct (py_ne pt pt0); run; [rewrite take_photo_run; run; rewrite Hpt; run|];
    exact id.
Qed.

Lemma pin_events_no_command p evs :
  forallb is_pin_event evs = true -> omap (command p) evs = [].
Proof.
  induction evs as [|[] evs IH]; cbn; try discriminate; auto.
Qed.

Lemma pin_events_no_photo evs :
  forallb is_pin_event evs = true -> filter is_photo evs = [].
Proof.
  induction evs as [|[] evs IH]; cbn; try discriminate; auto.
Qed.

Lemma level_app p l evs b :
  omap (command p) evs = [b] -> level p (l ++ evs) = Some b.
Proof.
  intros H. unfold level. rewrite omap_app, H. apply last_snoc.
Qed.

(** The events of the part of a cycle that precedes the mode. *)
Lemma before_mode_log w w1 (toggled : bool) :
  pin_only w w1 ->
  exists pins, forallb is_pin_event pins = true /\
    log (if toggled then tick (emit Photo w1) else w1) =
      log w ++ pins ++ (if toggled then [Photo] else []).
Proof.
  intros (_ & _ & _ & _ & _ & pins & Hlog & Hpins). exists pins.
  split; [exact Hpins|]. destruct toggled; wsimpl; rewrite Hlog.
  - now rewrite <- app_assoc.
  - now rewrite app_nil_r.
Qed.

(** The same cycle seen from outside: the state [a2], [w2] the mode starts
    from, and what the call logged before it. *)
Lemma AlarmSystem_input_phases (data : dict) (a : AlarmSystem.t) (w : World) a' w' :
  AlarmSystem.input true data (a, w) = (Ok tt, (a', w')) ->
  exists k pt sw ds pins a2 w2,
    let toggled := py_ne pt (AlarmSystem._photo_toggle a) in
    data !! "keep_on" = Some k /\ data !! "photo_toggle" = Some pt /\
    AlarmSystem._keep_on a2 = k /\
    AlarmSystem._switch a2 = Some sw /\
    RemoteAbstract._device (SimpleInput._super sw) = Some ds /\
    closed ds = false /\
    AlarmSystem._door_open a2 = negb (sensed w (dpin ds)) /\
    AlarmSystem._photo_toggle a2 =
      (if toggled then pt else AlarmSystem._photo_toggle a) /\
    forallb is_pin_event pins = true /\
    log w2 = log w ++ pins ++ (if toggled then [Photo] else []) /\
    (if truthy k && AlarmSystem._door_open a2 then AlarmSystem.alert_mode
     else AlarmSystem.passive_mode) (a2, w2) = (Ok tt, (a', w')).
Proof.
  intros H.
  apply AlarmSystem_input_Ok in H
    as (k & pt & em & sw & bz & mo & ds & dm & w1 & Hk & Hpt & _ & Hw & Hds & Hcs
        & _ & _ & Hm).
  cbn zeta in Hm.
  destruct (before_mode_log w w1 (py_ne pt (AlarmSystem._photo_toggle a)) Hw)
    as (pins & Hpins & Hlog).
  exists k, pt, sw, ds, pins.
  match type of Hm with
  | _ (?a2, ?w2) = _ => exists a2, w2
  end.
  cbn. repeat (split; [first [assumption | reflexivity]|]).
  exact Hm.
Qed.

(** Either mode commands the buzzer once, first thing, and leaves the
    configuration flags and the sub-devices as they were. *)
Lemma alert_mode_buzzer (a : AlarmSystem.t) (w : World) a' w' :
  AlarmSystem.alert_mode (a, w) = (Ok tt, (a', w')) ->
  exists bz db evs,
    AlarmSystem._buzzer a' = Some bz /\ RemoteAbstract._device bz = Some db /\
    log w' = log w ++ On (dpin db) :: evs /\
    omap (command (dpin db)) evs = [] /\
    AlarmSystem._keep_on a' = AlarmSystem._keep_on a /\
    AlarmSystem._door_open a' = AlarmSystem._door_open a /\
    AlarmSystem._switch a' = AlarmSystem._switch a /\
    AlarmSystem._photo_toggle a' = AlarmSystem._photo_toggle a.
Proof.
  intros H.
  apply alert_mode_Ok in H as (bz & db & Hbz & Hdb & _ & _ & -> & ->).
  cbn. eexists bz, db, _. repeat (split; [first [eassumption | reflexivity]|]).
  split; [|auto].
  destruct (limiter_due 3600 _ _), (limiter_due 3 _ _); reflexivity.
Qed.

Lemma passive_mode_buzzer (a : AlarmSystem.t) (w : World) a' w' :
  AlarmSystem.passive_mode (a, w) = (Ok tt, (a', w')) ->
  exists bz db,
    AlarmSystem._buzzer a' = Some bz /\ RemoteAbstract._device bz = Some db /\
    log w' = log w ++ [Off (dpin db)] /\
    AlarmSystem._last_email_sent a' = None /\
    AlarmSystem._keep_on a' = AlarmSystem._keep_on a /\
    AlarmSystem._door_open a' = AlarmSystem._door_open a /\
    AlarmSystem._switch a' = AlarmSystem._switch a /\
    AlarmSystem._photo_toggle a' = AlarmSystem._photo_toggle a.
Proof.
  intros H.
  apply passive_mode_Ok in H as (bz & db & Hbz & Hdb & _ & -> & ->).
  cbn. eexists bz, db. repeat (split; [first [eassumption | reflexivity]|]). auto.
Qed.

Lemma command_self_on p : command p (On p) = Some true.
Proof. cbn. now rewrite decide_True. Qed.

Lemma command_self_off p : command p (Off p) = Some false.
Proof. cbn. now rewrite decide_True. Qed.

Lemma commands_before_mode p pins (toggled : bool) :
  forallb is_pin_event pins = true ->
  omap (command p) (pins ++ (if toggled then [Photo] else [])) = [].
Proof.
  intros H. rewrite omap_app, (pin_events_no_command _ _ H).
  now destruct toggled.
Qed.

(** Such cycles exist whenever the alarm is in working order: sub-devices
    bound and open, the configured pins unchanged, every key present and the
    recipients a string. *)
Lemma alert_mode_returns (a : AlarmSystem.t) (w : World) bz db s :
  AlarmSystem._buzzer a = Some bz ->
  RemoteAbstract._device bz = Some db -> closed db = false ->
  AlarmSystem._emails a = Some (VStr s) ->
  fst (AlarmSystem.alert_mode (a, w)) = Ok tt.
Proof.
  destruct a as [p sw bz0 mo em k pt md dop le lp], bz as [pb tyb dv],
           db as [dty dn c]; cbn.
  intros -> -> -> ->.
  unfold AlarmSystem.alert_mode, SimpleOutput.on, device_on,
         AlarmSystem.send_email, AlarmSystem.recipients, AlarmSystem.take_photo,
         camera_take_photo, emailer_send_email, time_time.
  run. destruct le as [sent|]; run;
    [match goal with |- context [?x >? ?y] => destruct (x >? y) end; run|];
    (destruct lp as [taken|]; run;
     [match goal with |- context [?x >? ?y] => destruct (x >? y) end; run|]);
    reflexivity.
Qed.

Lemma passive_mode_returns (a : AlarmSystem.t) (w : World) bz db :
  AlarmSystem._buzzer a = Some bz ->
  RemoteAbstract._device bz = Some db -> closed db = false ->
  fst (AlarmSystem.passive_mode (a, w)) = Ok tt.
Proof.
  destruct a as [p sw bz0 mo em k pt md dop le lp], bz as [pb tyb dv],
           db as [dty dn c]; cbn.
  intros -> -> ->.
  unfold AlarmSystem.passive_mode, SimpleOutput.off, device_off.
  destruct le; run; reflexivity.
Qed.

Lemma AlarmSystem_input_returns
    (data : dict) (a : AlarmSystem.t) (w : World)
    (sw mo : SimpleInput.t) (bz : SimpleOutput.t) (ds db dm : Device)
    (p1 p2 p3 k pt : val) (s : string) :
  AlarmSystem._switch a = Some sw ->
  AlarmSystem._buzzer a = Some bz ->
  AlarmSystem._motion a = Some mo ->
  RemoteAbstract._device (SimpleInput._super sw) = Some ds -> closed ds = false ->
  RemoteAbstract._device bz = Some db -> closed db = false ->
  RemoteAbstract._device (SimpleInput._super mo) = Some dm -> closed dm = false ->
  data !! "pin" = Some p1 ->
  data !! "pin_buzzer" = Some p2 ->
  data !! "pin_motion" = Some p3 ->
  py_eq (RemoteAbstract._pin (SimpleInput._super sw)) p1 = true ->
  py_eq (RemoteAbstract._pin bz) p2 = true ->
  py_eq (RemoteAbstract._pin (SimpleInput._super mo)) p3 = true ->
  data !! "emails" = Some (VStr s) ->
  data !! "keep_on" = Some k ->
  data !! "photo_toggle" = Some pt ->
  fst (AlarmSystem.input true data (a, w)) = Ok tt.
Proof.
  destruct a as [p sw0 bz0 mo0 em0 k0 pt0 md dop le lp],
           sw as [[ps tys dvs] dats], mo as [[pm tym dvm] datm],
           bz as [pb tyb dvb], ds as [? ? ?], db as [? ? ?], dm as [? ? ?]; cbn.
  intros -> -> -> -> -> -> -> -> -> H1 H2 H3 E1 E2 E3 Hem Hk Hpt.
  unfold AlarmSystem.input, SimpleInput.input, SimpleOutput.input,
         RemoteAbstract.input, SimpleInput.is_active, device_is_active, py_ne.
  repeat (run; rewrite ?H1, ?H2, ?H3, ?E1, ?E2, ?E3, ?Hem, ?Hk, ?Hpt,
                       ?lookup_singleton_eq).
  rewrite lookup_singleton_ne by discriminate.
  rewrite bool_decide_eq_false_2 by (intros [? ?]; discriminate).
  repeat (run; rewrite ?H1, ?H2, ?H3, ?E1, ?E2, ?E3, ?Hem, ?Hk, ?Hpt,
                       ?lookup_singleton_eq).
  destruct (negb (py_eq pt pt0));
    repeat (run; rewrite ?take_photo_run, ?Hpt);
    match goal with
    | |- context [if ?c then AlarmSystem.alert_mode else _] => destruct c
    end;
    first [ eapply alert_mode_returns; cbn; reflexivity
          | eapply passive_mode_returns; cbn; reflexivity ].
Qed.

(** C1: a call of [AlarmSystem.input] that returns, hardware enabled.  The
    call stores [keep_on] from [data] and [door_open = not switch.is_active()]
    as read during the call, then runs [alert_mode] when both hold and
    [passive_mode] otherwise.  In the first case the one level commanded on
    the buzzer pin during the call is on, and the buzzer is left on; in every
    other case the one level commanded is off, the buzzer is left off, and
    [last_email_sent] is [None]. *)
Theorem AlarmSystem_input_transition
    (data : dict) (a : AlarmSystem.t) (w : World) a' w' :
  AlarmSystem.input true data (a, w) = (Ok tt, (a', w')) ->
  exists k sw ds bz db evs,
    data !! "keep_on" = Some k /\ AlarmSystem._keep_on a' = k /\
    AlarmSystem._switch a' = Some sw /\
    RemoteAbstract._device (SimpleInput._super sw) = Some ds /\
    closed ds = false /\
    AlarmSystem._door_open a' = negb (sensed w (dpin ds)) /\
    AlarmSystem._buzzer a' = Some bz /\
    RemoteAbstract._device bz = Some db /\
    log w' = log w ++ evs /\
    let alert := truthy k && AlarmSystem._door_open a' in
    (exists a2 w2,
       (if alert then AlarmSystem.alert_mode else AlarmSystem.passive_mode)
         (a2, w2) = (Ok tt, (a', w'))) /\
    if alert then
      omap (command (dpin db)) evs = [true] /\
      level (dpin db) (log w') = Some true
    else
      omap (command (dpin db)) evs = [false] /\
      level (dpin db) (log w') = Some false /\
      AlarmSystem._last_email_sent a' = None.
Proof.
  intros H.
  apply AlarmSystem_input_phases in H
    as (k & pt & sw & ds & pins & a2 & w2 & Hk & _ & Hk2 & Hsw & Hds & Hcs & Hdo
        & _ & Hpins & Hlog & Hm).
  pose proof Hm as Hrun.
  set (before := pins ++ (if py_ne pt (AlarmSystem._photo_toggle a)
                          then [Photo] else [])) in *.
  assert (Hb : forall p, omap (command p) before = [])
    by (intros p; now apply commands_before_mode).
  destruct (truthy k && AlarmSystem._door_open a2) eqn:Hd.
  - apply alert_mode_buzzer in Hm
      as (bz & db & evs & Hbz & Hdb & Hlog' & Hevs & Hk' & Hdo' & Hsw' & _).
    assert (Hc : omap (command (dpin db)) (before ++ On (dpin db) :: evs) = [true]).
    { rewrite omap_app, Hb. cbn [omap list_omap app].
      now rewrite command_self_on, Hevs. }
    exists k, sw, ds, bz, db, (before ++ On (dpin db) :: evs).
    rewrite Hdo', Hk', Hsw', Hlog', Hlog, Hd. cbn zeta.
    repeat (split; [first [assumption | reflexivity]|]).
    split; [now rewrite <- app_assoc|].
    split; [eauto|]. split; [exact Hc|].
    rewrite <- app_assoc. now apply level_app.
  - apply passive_mode_buzzer in Hm
      as (bz & db & Hbz & Hdb & Hlog' & Hle & Hk' & Hdo' & Hsw' & _).
    assert (Hc : omap (command (dpin db)) (before ++ [Off (dpin db)]) = [false]).
    { rewrite omap_app, Hb. cbn [omap list_omap app].
      now rewrite command_self_off. }
    exists k, sw, ds, bz, db, (before ++ [Off (dpin db)]).
    rewrite Hdo', Hk', Hsw', Hlog', Hlog, Hd. cbn zeta.
    repeat (split; [first [assumption | reflexivity]|]).
    split; [now rewrite <- app_assoc|].
    split; [eauto|]. split; [exact Hc|]. split; [|exact Hle].
    rewrite <- app_assoc. now apply level_app.
Qed.

(** The alarm of the example, armed, told to move its switch to pin 7, which
    reads inactive: the door counts as open and the buzzer ends up on. *)
Lemma AlarmSystem_input_transition_witness :
  let a := Example.alarm false false false false None None in
  let w := Example.running 0 in
  let data : dict := <[ "pin" := VInt 7 ]> Example.config in
  exists a' w',
    AlarmSystem.input true data (a, w) = (Ok tt, (a', w')) /\
    AlarmSystem._door_open a' = true /\
    level 5 (log w') = Some true.
Proof.
  intros a w data.
  destruct (AlarmSystem.input true data (a, w)) as [res [a' w']] eqn:Hrun.
  assert (Hres : res = Ok tt)
    by (apply (f_equal fst) in Hrun; vm_compute in Hrun; congruence).
  subst res. exists a', w'. split; [reflexivity|].
  destruct (AlarmSystem_input_transition data a w a' w' Hrun)
    as (k & sw & ds & bz & db & evs & Hk & _ & _ & _ & _ & Hdo & Hbz & Hdb & _ & _ & H).
  assert (Ha : a' = fst (snd (AlarmSystem.input true data (a, w))))
    by (rewrite Hrun; reflexivity).
  vm_compute in Hk. injection Hk as <-.
  rewrite Ha in Hbz. vm_compute in Hbz. injection Hbz as <-.
  vm_compute in Hdb. injection Hdb as <-.
  assert (Hopen : AlarmSystem._door_open a' = true)
    by (rewrite Ha; vm_compute; reflexivity).
  rewrite Hopen in H. cbn in H. split; [exact Hopen | apply H].
Defined.

(** ** The rate limiters *)

Lemma filter_email_alert p (ed pd : bool) to :
  filter is_email ([On p] ++ (if ed then [Email to] else [])
                          ++ (if pd then [Photo] else []))
  = if ed then [Email to] else [].
Proof. destruct ed, pd; reflexivity. Qed.

Lemma filter_photo_alert p (ed pd : bool) to :
  filter is_photo ([On p] ++ (if ed then [Email to] else [])
                          ++ (if pd then [Photo] else []))
  = if pd then [Photo] else [].
Proof. destruct ed, pd; reflexivity. Qed.

Lemma limiter_due_spec max last now :
  limiter_due max last now = true <->
  last = None \/ exists t, last = Some t /\ now - t > max.
Proof.
  destruct last as [t|]; cbn.
  - rewrite Z.gtb_gt. split; [eauto|]. intros [H|(t' & [= <-] & H)]; [discriminate|lia].
  - split; auto.
Qed.

(** C2: a call of [alert_mode] that returns.  With [now] the clock reading of
    the test, an email goes out, to the recipients listed in [emails], and
    [last_email_sent] becomes the reading taken right after the send, exactly
    when [last_email_sent] is [None] or [now - last_email_sent > 3600];
    otherwise no email goes out and [last_email_sent] keeps its value.  So
    with [last_email_sent = T] a call at [T + 3601] sends and a call at
    [T + 3599] does not. *)
Theorem alert_mode_email_limiter (a : AlarmSystem.t) (w : World) a' w' :
  AlarmSystem.alert_mode (a, w) = (Ok tt, (a', w')) ->
  let last := AlarmSystem._last_email_sent a in
  let now := clock w (ticks w) in
  exists evs, log w' = log w ++ evs /\
    (limiter_due 3600 last now = true <->
     last = None \/ exists t, last = Some t /\ now - t > 3600) /\
    (if limiter_due 3600 last now then
       filter is_email evs = [Email (mail_to a)] /\
       (exists s, AlarmSystem._emails a = Some (VStr s)) /\
       AlarmSystem._last_email_sent a' = Some (clock w (ticks w + checks last)%nat)
     else
       filter is_email evs = [] /\
       AlarmSystem._last_email_sent a' = last) /\
    (forall T, last = Some T -> now = T + 3601 ->
       filter is_email evs = [Email (mail_to a)] /\
       AlarmSystem._last_email_sent a' = Some (clock w (S (ticks w)))) /\
    (forall T, last = Some T -> now = T + 3599 ->
       filter is_email evs = [] /\
       AlarmSystem._last_email_sent a' = Some T).
Proof.
  intros H last now.
  apply alert_mode_Ok in H as (bz & db & _ & _ & _ & Hem & -> & ->).
  cbn zeta in *. fold last now in Hem |- *. cbn [log AlarmSystem._last_email_sent].
  eexists. split; [reflexivity|]. rewrite filter_email_alert.
  split; [apply limiter_due_spec|].
  split; [|split].
  - destruct (limiter_due 3600 last now); auto.
  - intros T HT Hnow. rewrite HT, Hnow. cbn [limiter_due checks].
    replace (T + 3601 - T >? 3600) with true by (symmetry; apply Z.gtb_gt; lia).
    rewrite Nat.add_1_r. auto.
  - intros T HT Hnow. rewrite HT, Hnow. cbn [limiter_due checks].
    replace (T + 3599 - T >? 3600) with false by (symmetry; rewrite Z.gtb_ltb; apply Z.ltb_ge; lia).
    auto.
Qed.

(** The alarm of the example an hour and a second after its last email. *)
Lemma alert_mode_email_limiter_witness :
  let a := Example.alarm true false false true (Some 0) None in
  let w := Example.running 3601 in
  exists a' w',
    AlarmSystem.alert_mode (a, w) = (Ok tt, (a', w')) /\
    exists evs, log w' = log w ++ evs /\
      filter is_email evs = [Email ["a@b.c"; "d@e.f"]] /\
      AlarmSystem._last_email_sent a' = Some 3602.
Proof.
  intros a w.
  destruct (AlarmSystem.alert_mode (a, w)) as [res [a' w']] eqn:Hrun.
  assert (Hres : res = Ok tt)
    by (apply (f_equal fst) in Hrun; vm_compute in Hrun; congruence).
  subst res. exists a', w'. split; [reflexivity|].
  destruct (alert_mode_email_limiter a w a' w' Hrun)
    as (evs & Hlog & _ & _ & Hsend & _).
  exists evs. split; [exact Hlog|].
  exact (Hsend 0 eq_refl eq_refl).
Defined.

(** C3: a call of [alert_mode] that returns.  With [now] the clock reading of
    the photo test, a photo is captured and [last_picture_taken] becomes the
    reading taken right after the capture, exactly when [last_picture_taken]
    is [None] or [now - last_picture_taken > 3]; otherwise nothing is captured
    and the timestamp keeps its value.  So with [last_picture_taken = T] a
    call at [T + 4] captures and a call at [T + 2] does not.  And
    [passive_mode], whatever its outcome, leaves [last_picture_taken] as it
    found it. *)
Theorem alert_mode_photo_limiter :
  (forall (a : AlarmSystem.t) (w : World) a' w',
     AlarmSystem.alert_mode (a, w) = (Ok tt, (a', w')) ->
     let last := AlarmSystem._last_picture_taken a in
     let n := photo_check_tick a w in
     let now := clock w n in
     exists evs, log w' = log w ++ evs /\
       (limiter_due 3 last now = true <->
        last = None \/ exists t, last = Some t /\ now - t > 3) /\
       (if limiter_due 3 last now then
          filter is_photo evs = [Photo] /\
          AlarmSystem._last_picture_taken a' = Some (clock w (n + checks last)%nat)
        else
          filter is_photo evs = [] /\
          AlarmSystem._last_picture_taken a' = last) /\
       (forall T, last = Some T -> now = T + 4 ->
          filter is_photo evs = [Photo] /\
          AlarmSystem._last_picture_taken a' = Some (clock w (S n))) /\
       (forall T, last = Some T -> now = T + 2 ->
          filter is_photo evs = [] /\
          AlarmSystem._last_picture_taken a' = Some T)) /\
  (forall (a : AlarmSystem.t) (w : World),
     AlarmSystem._last_picture_taken (fst (snd (AlarmSystem.passive_mode (a, w))))
     = AlarmSystem._last_picture_taken a).
Proof.
  split.
  - intros a w a' w' H last n now.
    apply alert_mode_Ok in H as (bz & db & _ & _ & _ & _ & -> & ->).
    cbn zeta in *. fold (photo_check_tick a w) last. fold n. fold now.
    cbn [log AlarmSystem._last_picture_taken].
    eexists. split; [reflexivity|]. rewrite filter_photo_alert.
    split; [apply limiter_due_spec|].
    split; [|split].
    + destruct (limiter_due 3 last now); auto.
    + intros T HT Hnow. rewrite HT, Hnow. cbn [limiter_due checks].
      replace (T + 4 - T >? 3) with true by (symmetry; apply Z.gtb_gt; lia).
      rewrite Nat.add_1_r. auto.
    + intros T HT Hnow. rewrite HT, Hnow. cbn [limiter_due checks].
      replace (T + 2 - T >? 3) with false
        by (symmetry; rewrite Z.gtb_ltb; apply Z.ltb_ge; lia).
      auto.
  - intros [p sw bz mo em k pt md dop le lp] w.
    unfold AlarmSystem.passive_mode, SimpleOutput.off, device_off.
    destruct le as [sent|], bz as [[pb tyb [[dty dn [|]]|]]|]; run; reflexivity.
Qed.

(** The alarm of the example four seconds after its last photo, its last
    email two seconds old. *)
Lemma alert_mode_photo_limiter_witness :
  let a := Example.alarm true false false true (Some 2) (Some 0) in
  let w := Example.running 3 in
  exists a' w',
    AlarmSystem.alert_mode (a, w) = (Ok tt, (a', w')) /\
    exists evs, log w' = log w ++ evs /\
      filter is_photo evs = [Photo] /\
      AlarmSystem._last_picture_taken a' = Some 5.
Proof.
  intros a w.
  destruct (AlarmSystem.alert_mode (a, w)) as [res [a' w']] eqn:Hrun.
  assert (Hres : res = Ok tt)
    by (apply (f_equal fst) in Hrun; vm_compute in Hrun; congruence).
  subst res. exists a', w'. split; [reflexivity|].
  destruct (proj1 alert_mode_photo_limiter a w a' w' Hrun)
    as (evs & Hlog & _ & _ & Hshoot & _).
  exists evs. split; [exact Hlog|].
  exact (Hshoot 0 eq_refl eq_refl).
Defined.

(** ** The photo toggle *)

Lemma py_eq_refl v : py_eq v v = true.
Proof.
  destruct v as [|b|n|s]; cbn; auto.
  - now destruct b.
  - apply Z.eqb_refl.
  - apply String.eqb_refl.
Qed.

(** The log of a cycle that returns: pin events, the toggle's photo if the
    flag changed, then the mode, which starts with its buzzer command. *)
Lemma AlarmSystem_input_log (data : dict) (a : AlarmSystem.t) (w : World) a' w' :
  AlarmSystem.input true data (a, w) = (Ok tt, (a', w')) ->
  exists pt pins cmd rest,
    let toggled := py_ne pt (AlarmSystem._photo_toggle a) in
    data !! "photo_toggle" = Some pt /\
    forallb is_pin_event pins = true /\
    is_buzzer_command cmd = true /\
    log w' = log w ++ pins ++ (if toggled then [Photo] else []) ++ cmd :: rest /\
    AlarmSystem._photo_toggle a' =
      (if toggled then pt else AlarmSystem._photo_toggle a).
Proof.
  intros H.
  apply AlarmSystem_input_phases in H
    as (k & pt & sw & ds & pins & a2 & w2 & _ & Hpt & _ & _ & _ & _ & _
        & Htog & Hpins & Hlog & Hm).
  exists pt, pins.
  destruct (truthy k && AlarmSystem._door_open a2).
  - apply alert_mode_buzzer in Hm
      as (bz & db & evs & _ & _ & Hlog' & _ & _ & _ & _ & Hpt').
    exists (On (dpin db)), evs. cbn zeta.
    rewrite Hlog', Hlog, Hpt', Htog, <- !app_assoc. auto.
  - apply passive_mode_buzzer in Hm
      as (bz & db & _ & _ & Hlog' & _ & _ & _ & _ & Hpt').
    exists (Off (dpin db)), []. cbn zeta.
    rewrite Hlog', Hlog, Hpt', Htog, <- !app_assoc. auto.
Qed.

(** C4: two calls of [AlarmSystem.input] that return, the first with a
    [photo_toggle] that differs from the stored one, the second, in any world,
    with the same flag again.  The first call stores the incoming flag and
    logs, after its pin events and before the first action of its mode
    (the buzzer command of [alert_mode] or of [passive_mode]), one photo; the
    second call logs none there. *)
Theorem AlarmSystem_input_photo_toggle
    (data data2 : dict) (pt : val) (a : AlarmSystem.t) (w : World)
    a1 w1 w2 a3 w3 :
  data !! "photo_toggle" = Some pt ->
  data2 !! "photo_toggle" = Some pt ->
  py_ne pt (AlarmSystem._photo_toggle a) = true ->
  AlarmSystem.input true data (a, w) = (Ok tt, (a1, w1)) ->
  AlarmSystem.input true data2 (a1, w2) = (Ok tt, (a3, w3)) ->
  AlarmSystem._photo_toggle a1 = pt /\
  (exists pins cmd rest,
     forallb is_pin_event pins = true /\ is_buzzer_command cmd = true /\
     log w1 = log w ++ pins ++ [Photo] ++ cmd :: rest) /\
  AlarmSystem._photo_toggle a3 = pt /\
  (exists pins cmd rest,
     forallb is_pin_event pins = true /\ is_buzzer_command cmd = true /\
     log w3 = log w2 ++ pins ++ cmd :: rest).
Proof.
  intros Hpt Hpt2 Hne H1 H2.
  apply AlarmSystem_input_log in H1
    as (pt1 & pins1 & cmd1 & rest1 & Hk1 & Hp1 & Hc1 & Hlog1 & Htog1).
  rewrite Hpt in Hk1. injection Hk1 as <-. rewrite Hne in Hlog1, Htog1.
  apply AlarmSystem_input_log in H2
    as (pt2 & pins2 & cmd2 & rest2 & Hk2 & Hp2 & Hc2 & Hlog2 & Htog2).
  rewrite Hpt2 in Hk2. injection Hk2 as <-.
  rewrite Htog1 in Hlog2, Htog2. unfold py_ne in Hlog2, Htog2.
  rewrite py_eq_refl in Hlog2, Htog2. cbn in Hlog2, Htog2.
  split; [exact Htog1|]. split; [eauto 7|]. split; [exact Htog2|]. eauto 7.
Qed.

(** The alarm of the example, disarmed, given a flipped [photo_toggle] twice
    in a row. *)
Lemma AlarmSystem_input_photo_toggle_witness :
  let a := Example.alarm false false false false None None in
  let w := Example.running 0 in
  let data : dict := <[ "photo_toggle" := VBool true ]> Example.config in
  let r1 := AlarmSystem.input true data (a, w) in
  let r3 := AlarmSystem.input true data (snd r1) in
  fst r1 = Ok tt /\ fst r3 = Ok tt /\
  data !! "photo_toggle" = Some (VBool true) /\
  py_ne (VBool true) (AlarmSystem._photo_toggle a) = true /\
  AlarmSystem._photo_toggle (fst (snd r1)) = VBool true /\
  AlarmSystem._photo_toggle (fst (snd r3)) = VBool true.
Proof.
  intros a w data r1 r3.
  assert (H1 : AlarmSystem.input true data (a, w)
               = (Ok tt, (fst (snd r1), snd (snd r1))))
    by (vm_compute; reflexivity).
  assert (H3 : AlarmSystem.input true data (fst (snd r1), snd (snd r1))
               = (Ok tt, (fst (snd r3), snd (snd r3))))
    by (vm_compute; reflexivity).
  assert (Hpt : data !! "photo_toggle" = Some (VBool true))
    by (vm_compute; reflexivity).
  destruct (AlarmSystem_input_photo_toggle data data (VBool true) a w
              _ _ _ _ _ Hpt Hpt eq_refl H1 H3) as (Ha & _ & Hb & _).
  repeat split; try assumption; vm_compute; reflexivity.
Defined.

(** ** Construction of the alarm *)

Lemma translated_idem e : translated (translated e) = translated e.
Proof. destruct e; reflexivity. Qed.

Lemma new_device_pin p w d w' ty :
  new_device ty p w = (Ok d, w') -> dpin d ∈ reserved w'.
Proof.
  intros H. apply new_device_Ok in H as (_ & _ & _ & ->).
  wsimpl. apply elem_of_union_l, elem_of_singleton. reflexivity.
Qed.

(** C5, as the code has it: when the switch and the buzzer have been acquired
    and the motion sensor's acquisition fails, [AlarmSystem(dic)] raises what
    the caller of an acquisition always sees ([ValueError] for a gpiozero
    error, the error itself otherwise) and releases nothing: the constructor
    logged its two acquisitions only, and both pins are still reserved in the
    world the error reaches the caller in. *)
Theorem AlarmSystem_init_motion_failure
    (dic : dict) (w : World) (p1 p2 p3 : val) (d1 d2 : Device) (w1 w2 : World)
    (e : exn) :
  dic !! "pin" = Some p1 ->
  dic !! "pin_buzzer" = Some p2 ->
  dic !! "pin_motion" = Some p3 ->
  new_device Button p1 w = (Ok d1, w1) ->
  new_device OutputDevice p2 w1 = (Ok d2, w2) ->
  fst (new_device Motion p3 w2) = Raise e ->
  AlarmSystem.__init__ true dic w = (Raise (translated e), w2) /\
  dpin d1 ∈ reserved w2 /\ dpin d2 ∈ reserved w2 /\
  log w2 = log w ++ [Acquire Button (dpin d1); Acquire OutputDevice (dpin d2)].
Proof.
  intros H1 H2 H3 Hsw Hbz Hmo.
  destruct (new_device Motion p3 w2) as [r3 w3] eqn:Hmo'. cbn in Hmo. subst r3.
  pose proof (new_device_Raise _ _ _ _ _ Hmo') as ->.
  split.
  - unfold AlarmSystem.__init__, Switch.__init__, SimpleOutput.__init__,
           MotionSensor.__init__, SimpleInput.__init__, RemoteAbstract.__init__.
    repeat (run; rewrite ?H1, ?H2, ?H3, ?lookup_singleton_eq, ?Hsw, ?Hbz, ?Hmo').
    now rewrite translated_idem.
  - pose proof (new_device_pin _ _ _ _ _ Hbz) as Hin2.
    apply new_device_Ok in Hsw as (_ & _ & _ & ->).
    apply new_device_Ok in Hbz as (_ & _ & _ & ->).
    wsimpl. split; [|split; [exact Hin2|now rewrite <- app_assoc]].
    apply elem_of_union_r, elem_of_union_l, elem_of_singleton. reflexivity.
Qed.

(** A configuration whose motion pin lies outside the board's range. *)
Lemma AlarmSystem_init_motion_failure_witness :
  let dic : dict := <[ "pin_motion" := VInt 30 ]> Example.config in
  let w := Example.boot 0 in
  let r := AlarmSystem.__init__ true dic w in
  dic !! "pin_motion" = Some (VInt 30) /\
  fst r = Raise (ValueError "invalid pin") /\
  4 ∈ reserved (snd r) /\ 5 ∈ reserved (snd r).
Proof.
  intros dic w r.
  set (r1 := new_device Button (VInt 4) w).
  set (r2 := new_device OutputDevice (VInt 5) (snd r1)).
  assert (H1 : dic !! "pin" = Some (VInt 4)) by (vm_compute; reflexivity).
  assert (H2 : dic !! "pin_buzzer" = Some (VInt 5)) by (vm_compute; reflexivity).
  assert (H3 : dic !! "pin_motion" = Some (VInt 30)) by (vm_compute; reflexivity).
  destruct (AlarmSystem_init_motion_failure dic w (VInt 4) (VInt 5) (VInt 30)
              (mkDevice Button 4 false) (mkDevice OutputDevice 5 false)
              (snd r1) (snd r2) (GPIOZeroError "invalid pin")
              H1 H2 H3 eq_refl eq_refl eq_refl) as (Hrun & Hin1 & Hin2 & _).
  subst r. rewrite Hrun. auto.
Defined.

(** The claim C5 fails on the code: with the motion sensor configured on the
    switch's pin, its acquisition is refused, the constructor raises, and at
    that moment the pins of the switch and of the buzzer are still reserved;
    the constructor logged two acquisitions and no release. *)
Lemma AlarmSystem_init_leaves_pins_reserved :
  let dic : dict := <[ "pin_motion" := VInt 4 ]> Example.config in
  let r := AlarmSystem.__init__ true dic (Example.boot 0) in
  fst r = Raise (ValueError "pin is already in use") /\
  4 ∈ reserved (snd r) /\ 5 ∈ reserved (snd r) /\
  reserved (Example.boot 0) = ∅ /\
  log (snd r) = [Acquire Button 4; Acquire OutputDevice 5].
Proof.
  intros dic r. split; [vm_compute; reflexivity|].
  split; [apply (bool_decide_unpack _); vm_compute; exact I|].
  split; [apply (bool_decide_unpack _); vm_compute; exact I|].
  split; [reflexivity | vm_compute; reflexivity].
Qed.

(** ** Reporting: [AlarmSystem.output] *)

Lemma photos_taken_app l1 l2 :
  photos_taken (l1 ++ l2) = (photos_taken l1 + photos_taken l2)%nat.
Proof. unfold photos_taken. now rewrite filter_app, length_app. Qed.

Lemma newest_photo_update l fields key :
  newest_photo (l ++ [Update fields key]) = newest_photo l.
Proof.
  unfold newest_photo. rewrite photos_taken_app. cbn. now rewrite Nat.add_0_r.
Qed.

Lemma newest_photo_photo l :
  newest_photo (l ++ [Photo]) = VInt (Z.of_nat (S (photos_taken l))).
Proof.
  unfold newest_photo. rewrite photos_taken_app. cbn. now rewrite Nat.add_1_r.
Qed.

Arguments newest_photo : simpl never.

(** C7, as the code has it: with hardware enabled every call of [output]
    returns and hands the database one record, keyed by the alarm's pin, that
    holds [door_open] and, under [photo], the newest photo at that moment.
    When [motion_detected] is set the record also holds under [motion] the
    formatted time of the call, and one photo is captured first, whatever
    [last_picture_taken] holds; that capture goes through [take_photo], so it
    stamps [last_picture_taken], the timestamp the alert-mode limiter tests.
    When it is not set, nothing is captured and the alarm is left as it was. *)
Theorem AlarmSystem_output_report (a : AlarmSystem.t) (w : World) (p : val) :
  AlarmSystem._pin a = Some p ->
  let '(res, (a', w')) := AlarmSystem.output true (a, w) in
  let motion := AlarmSystem._motion_detected a in
  res = Ok tt /\
  exists fields,
    log w' = log w ++ (if motion then [Photo] else []) ++ [Update fields p] /\
    fields !! "door_open" = Some (VBool (AlarmSystem._door_open a)) /\
    fields !! "photo" = Some (newest_photo (log w')) /\
    if motion then
      fields !! "motion" = Some (VStr (strftime_c w (clock w (ticks w)))) /\
      newest_photo (log w') = VInt (Z.of_nat (S (photos_taken (log w)))) /\
      AlarmSystem._last_picture_taken a' = Some (clock w (S (ticks w)))
    else
      fields !! "motion" = None /\ a' = a.
Proof.
  destruct a as [p0 sw bz mo em k pt md dop le lp]; cbn. intros ->.
  unfold AlarmSystem.output, time_strftime_c, get_newest_photo, database_update.
  destruct md; run.
  - rewrite take_photo_run. run. split; [reflexivity|].
    eexists. wsimpl.
    split; [now rewrite <- app_assoc|].
    rewrite newest_photo_update, newest_photo_photo.
    split; [now rewrite !lookup_insert_ne, lookup_singleton_eq by discriminate|].
    split; [now rewrite lookup_insert_eq|].
    split; [now rewrite lookup_insert_ne, lookup_insert_eq by discriminate|].
    auto.
  - split; [reflexivity|].
    eexists. wsimpl.
    split; [reflexivity|].
    rewrite newest_photo_update.
    split; [now rewrite lookup_insert_ne, lookup_singleton_eq by discriminate|].
    split; [now rewrite lookup_insert_eq|].
    split; [|reflexivity].
    now rewrite lookup_insert_ne, lookup_singleton_ne by discriminate.
Qed.

(** The alarm of the example with motion detected, asked to report. *)
Lemma AlarmSystem_output_report_witness :
  let a := Example.alarm true false true true (Some 100) (Some 0) in
  let w := Example.frozen 100 in
  AlarmSystem._pin a = Some (VInt 4) /\
  fst (AlarmSystem.output true (a, w)) = Ok tt /\
  AlarmSystem._last_picture_taken (fst (snd (AlarmSystem.output true (a, w))))
  = Some 100.
Proof.
  intros a w. split; [reflexivity|].
  pose proof (AlarmSystem_output_report a w (VInt 4) eq_refl) as H.
  destruct (AlarmSystem.output true (a, w)) as [res [a' w']].
  destruct H as (Hres & fields & _ & _ & _ & _ & _ & Hlast).
  split; [exact Hres | exact Hlast].
Defined.

(** The claim C7 fails on the code where it says the capture of [output]
    does not interact with the alert-mode limiter.  Clock stopped at 100, last
    photo taken at 0: [alert_mode] run on that state captures a photo; run
    right after [output] has captured one, it captures none, because [output]
    moved [last_picture_taken] from 0 to 100. *)
Lemma AlarmSystem_output_restarts_photo_cooldown :
  let a := Example.alarm true false true true (Some 100) (Some 0) in
  let w := Example.frozen 100 in
  let after := snd (AlarmSystem.output true (a, w)) in
  filter is_photo
    (drop (length (log w)) (log (snd (snd (AlarmSystem.alert_mode (a, w))))))
  = [Photo] /\
  filter is_photo
    (drop (length (log (snd after)))
          (log (snd (snd (AlarmSystem.alert_mode after)))))
  = [] /\
  AlarmSystem._last_picture_taken a = Some 0 /\
  AlarmSystem._last_picture_taken (fst after) = Some 100.
Proof.
  intros a w after. repeat split; vm_compute; reflexivity.
Qed.

(** * Further properties *)

(** ** Reports of the pollable inputs *)

(** X1: [Switch.output] on an open device returns and hands the database one
    record, keyed by the switch's pin, whose [data] is the string ON when the
    pin reads active and OFF when it does not; the cached [data] is that
    string and no clock reading is taken.  On a closed device it raises the
    gpiozero error and changes nothing. *)
Theorem Switch_output_reports (s : Switch.t) (w : World) (d : Device) :
  RemoteAbstract._device (SimpleInput._super s) = Some d ->
  (closed d = false ->
   let data' := VStr (if sensed w (dpin d) then "ON" else "OFF") in
   Switch.output true (s, w)
   = (Ok tt, (SimpleInput.mk (SimpleInput._super s) data',
              emit (Update {[ "data" := data' ]}
                           (RemoteAbstract._pin (SimpleInput._super s))) w))) /\
  (closed d = true ->
   Switch.output true (s, w) = (Raise (GPIOZeroError "device is closed"), (s, w))).
Proof.
  destruct s as [[p ty dv] dat], d as [dty dn c]; cbn. intros ->.
  unfold Switch.output, SimpleInput.is_active, SimpleInput.output,
         RemoteAbstract.output, device_is_active, database_update.
  split; intros ->; run; [|reflexivity].
  destruct (sensed w dn); run; reflexivity.
Qed.

(** A switch on pin 4, which reads active. *)
Lemma Switch_output_reports_witness :
  let s : Switch.t := SimpleInput.mk (Example.button 4) VNone in
  let w := Example.running 0 in
  SimpleInput._data (fst (snd (Switch.output true (s, w)))) = VStr "ON".
Proof.
  intros s w.
  destruct (Switch_output_reports s w (mkDevice Button 4 false) eq_refl) as [H _].
  rewrite (H eq_refl). reflexivity.
Defined.

(** X2: [MotionSensor.output] on an open device returns and hands the
    database one record, keyed by the sensor's pin, whose [data] is the value
    cached after the call: the clock reading when motion is sensed, the value
    cached before the call otherwise, in which case the clock is not read. *)
Theorem MotionSensor_output_reports (s : MotionSensor.t) (w : World) (d : Device) :
  RemoteAbstract._device (SimpleInput._super s) = Some d ->
  closed d = false ->
  let active := sensed w (dpin d) in
  let data' := if active then VInt (clock w (ticks w)) else SimpleInput._data s in
  MotionSensor.output true (s, w)
  = (Ok tt, (SimpleInput.mk (SimpleInput._super s) data',
             emit (Update {[ "data" := data' ]}
                          (RemoteAbstract._pin (SimpleInput._super s)))
                  (if active then tick w else w))).
Proof.
  destruct s as [[p ty dv] dat], d as [dty dn c]; cbn. intros -> ->.
  unfold MotionSensor.output, SimpleInput.is_active, SimpleInput.output,
         RemoteAbstract.output, device_is_active, database_update, time_time.
  run. destruct (sensed w dn); run; reflexivity.
Qed.

(** A motion sensor moved to pin 4, which reads active, at time 50. *)
Lemma MotionSensor_output_reports_witness :
  let s : MotionSensor.t := Example.motion_sensor 4 in
  let w := Example.running 50 in
  SimpleInput._data (fst (snd (MotionSensor.output true (s, w)))) = VInt 50.
Proof.
  intros s w.
  rewrite (MotionSensor_output_reports s w (mkDevice Motion 4 false) eq_refl eq_refl).
  reflexivity.
Defined.

(** ** Simple outputs *)

(** X3: a call of [SimpleOutput.input] that returns, hardware enabled.  When
    [data] has [keep_on], the call ends by commanding the device the object
    is then bound to (the new one after a change of pin): on when [keep_on]
    is true, off otherwise, which is the level the pin is left at.  When
    [data] has no [keep_on], nothing but pin events is logged. *)
Theorem SimpleOutput_input_level
    (data : dict) (r : SimpleOutput.t) (w : World) r' w' :
  SimpleOutput.input true data (r, w) = (Ok tt, (r', w')) ->
  exists pins, forallb is_pin_event pins = true /\
    match data !! "keep_on" with
    | Some k =>
        exists d, RemoteAbstract._device r' = Some d /\ closed d = false /\
          log w' = log w ++ pins
                         ++ [if truthy k then On (dpin d) else Off (dpin d)] /\
          level (dpin d) (log w') = Some (truthy k)
    | None => log w' = log w ++ pins
    end.
Proof.
  unfold SimpleOutput.input. intros H.
  apply bind_Ok in H as ([] & [r1 w1] & H1 & H2).
  apply RemoteAbstract_input_pin_only in H1
    as (_ & _ & _ & _ & _ & pins & Hlog & Hpins).
  exists pins. split; [exact Hpins|]. revert H2. cbn [andb].
  destruct (data !! "keep_on") as [k|] eqn:Hk.
  - rewrite bool_decide_eq_true_2 by eauto.
    unfold SimpleOutput.on, SimpleOutput.off, device_on, device_off.
    run. rewrite Hk. destruct r1 as [p ty [[dty dn [|]]|]];
      destruct (truthy k) eqn:Ht; run; try discriminate;
      intros [= <- <-]; eexists; (split; [reflexivity|]); (split; [reflexivity|]);
      wsimpl; rewrite Hlog, <- app_assoc; (split; [reflexivity|]);
      apply level_app; rewrite omap_app, (pin_events_no_command _ _ Hpins);
      cbn [omap list_omap app];
      rewrite ?command_self_on, ?command_self_off; reflexivity.
  - rewrite bool_decide_eq_false_2 by (intros [? ?]; discriminate).
    run. intros [= <- <-]. exact Hlog.
Qed.

(** An output moved from pin 5 to pin 9 and switched on. *)
Lemma SimpleOutput_input_level_witness :
  let r : SimpleOutput.t := Example.output_device 5 in
  let w := Example.running 0 in
  let data : dict := {[ "pin" := VInt 9; "keep_on" := VBool true ]} in
  fst (SimpleOutput.input true data (r, w)) = Ok tt /\
  level 9 (log (snd (snd (SimpleOutput.input true data (r, w))))) = Some true.
Proof.
  intros r w data.
  destruct (SimpleOutput.input true data (r, w)) as [res [r' w']] eqn:Hrun.
  assert (Hres : res = Ok tt)
    by (apply (f_equal fst) in Hrun; vm_compute in Hrun; congruence).
  subst res. split; [reflexivity|].
  destruct (SimpleOutput_input_level data r w r' w' Hrun) as (pins & _ & H).
  assert (Hr : r' = fst (snd (SimpleOutput.input true data (r, w))))
    by (rewrite Hrun; reflexivity).
  change (data !! "keep_on") with (Some (VBool true)) in H.
  destruct H as (d & Hd & _ & _ & Hlevel).
  rewrite Hr in Hd. vm_compute in Hd. injection Hd as <-. exact Hlevel.
Defined.

(** ** Pins held by open devices *)

Lemma new_device_reserves ty q w d w' (P : Z -> Prop) :
  new_device ty q w = (Ok d, w') ->
  (forall m, P m -> m ∈ reserved w) ->
  closed d = false /\
  (forall m, P m -> m ∈ reserved w') /\ dpin d ∈ reserved w' /\ ~ P (dpin d).
Proof.
  intros H HP. apply new_device_Ok in H as (_ & Hfresh & -> & ->). wsimpl.
  split; [reflexivity|]. split; [|split].
  - intros m Hm. apply elem_of_union_r. auto.
  - apply elem_of_union_l, elem_of_singleton. reflexivity.
  - intros Hn. apply Hfresh. auto.
Qed.

(** A reconfiguration, whatever its outcome, keeps the pins of other open
    devices reserved and leaves the object on a reserved pin that none of
    them uses, or on no pin. *)
Lemma RemoteAbstract_input_held debug data r w res r' w' (P : Z -> Prop) :
  RemoteAbstract.input debug data (r, w) = (res, (r', w')) ->
  (forall m, P m -> m ∈ reserved w) ->
  (forall n, held_pin r = Some n -> n ∈ reserved w /\ ~ P n) ->
  (forall m, P m -> m ∈ reserved w') /\
  (forall n, held_pin r' = Some n -> n ∈ reserved w' /\ ~ P n).
Proof.
  unfold RemoteAbstract.input, RemoteAbstract._change_pin, RemoteAbstract.close,
         device_close, py_ne, held_pin.
  destruct r as [p ty dv]. run. intros H HP Hr. revert H.
  destruct (data !! "pin") as [q|]; cbn; [|intros [= _ <- <-]; auto].
  destruct (py_eq p q); cbn; [intros [= _ <- <-]; auto|].
  run. destruct debug; run; [|intros [= _ <- <-]; auto].
  destruct dv as [[dty dn c]|]; run; [|intros [= _ <- <-]; auto].
  cbn in Hr.
  assert (Hrel : forall m, P m -> m ∈ reserved w ∖ {[dn]} \/ c = true).
  { intros m Hm. destruct c; [auto|left]. destruct (Hr dn eq_refl) as [_ Hn].
    apply elem_of_difference. split; [auto|].
    intros ->%elem_of_singleton. auto. }
  destruct c; run; (destruct ty as [ty|]; run; [|intros [= _ <- <-]; cbn]).
  all: try match goal with
       | |- context [new_device ?t ?q ?w0] =>
           destruct (new_device t q w0) as [[d'|e] w1] eqn:Hnew; run;
           intros [= _ <- <-]; cbn
       end.
  all: try (apply new_device_Raise in Hnew as ->).
  all: wsimpl.
  all: try (split; [|discriminate]).
  all: try (intros m Hm; destruct (Hrel m Hm); [assumption|discriminate]).
  all: try solve [auto].
  - eapply new_device_reserves in Hnew as (-> & H1 & H2 & H3); [|exact HP].
    split; [exact H1|]. intros n [= <-]. auto.
  - eapply (new_device_reserves _ _ _ _ _ P) in Hnew as (-> & H1 & H2 & H3).
    + split; [exact H1|]. intros n [= <-]. auto.
    + wsimpl. intros m Hm. destruct (Hrel m Hm); [assumption|discriminate].
Qed.

Lemma well_bound_pairwise (a : AlarmSystem.t) (w : World) :
  well_bound (a, w) <->
  let h1 := (SimpleInput._super <$> AlarmSystem._switch a) ≫= held_pin in
  let h2 := AlarmSystem._buzzer a ≫= held_pin in
  let h3 := (SimpleInput._super <$> AlarmSystem._motion a) ≫= held_pin in
  (forall n, h1 = Some n -> n ∈ reserved w /\ h2 <> Some n /\ h3 <> Some n) /\
  (forall n, h2 = Some n -> n ∈ reserved w /\ h3 <> Some n) /\
  (forall n, h3 = Some n -> n ∈ reserved w).
Proof.
  unfold well_bound, held_pins. cbn [fst snd omap list_omap].
  destruct ((SimpleInput._super <$> AlarmSystem._switch a) ≫= held_pin) as [n1|],
           (AlarmSystem._buzzer a ≫= held_pin) as [n2|],
           ((SimpleInput._super <$> AlarmSystem._motion a) ≫= held_pin) as [n3|];
    cbn; rewrite ?NoDup_cons, ?NoDup_nil, ?elem_of_cons, ?elem_of_nil;
    setoid_rewrite elem_of_cons || idtac.
  all: split; [intros (Hd & Hin) | intros (H1 & H2 & H3)].
  all: try pose proof (H1 _ eq_refl) as (? & ? & ?);
       try pose proof (H2 _ eq_refl) as (? & ?);
       try pose proof (H3 _ eq_refl).
  all: repeat split; try (intros ? [= <-]); try discriminate;
       try (intros ? Hx; rewrite ?elem_of_cons, ?elem_of_nil in Hx);
       try (rewrite ?elem_of_cons, ?elem_of_nil; intros ?);
       intuition (subst; try congruence; auto).
  all: repeat match goal with H : Some _ = Some _ |- _ => injection H as <- end;
       apply Hin; rewrite ?elem_of_cons; tauto.
Qed.

(** ** What a control cycle keeps *)

Section Preserves.
Context {S : Type} (I : S -> Prop).

Lemma preserves_same {A} (m : M S A) :
  (forall s, snd (m s) = s) -> preserves I m.
Proof. intros H s Hs. now rewrite H. Qed.

Lemma preserves_bind {A B} (m : M S A) (k : A -> M S B) :
  preserves I m -> (forall a, preserves I (k a)) -> preserves I (bind m k).
Proof.
  intros Hm Hk s Hs. rewrite bind_run. specialize (Hm s Hs).
  destruct (m s) as [[a|e] s1]; cbn in *; [now apply Hk | assumption].
Qed.

Lemma preserves_catch {A} (m : M S A) (h : exn -> M S A) :
  preserves I m -> (forall e, preserves I (h e)) -> preserves I (catch m h).
Proof.
  intros Hm Hh s Hs. rewrite catch_run. specialize (Hm s Hs).
  destruct (m s) as [[a|e] s1]; cbn in *; [assumption | now apply Hh].
Qed.

Lemma preserves_getitem (d : dict) key : preserves I (getitem d key).
Proof.
  apply preserves_same. intros s. rewrite getitem_run. now destruct (d !! key).
Qed.

Lemma preserves_handler {A} e : preserves I (gpio_handler (A:=A) e).
Proof. apply preserves_same. intros s. now rewrite gpio_handler_run. Qed.

End Preserves.

Lemma preserves_getattr {O P} (I : O * World -> Prop) (x : Attr O P) :
  preserves I (getattr x).
Proof.
  apply preserves_same. intros [o w]. rewrite getattr_run.
  now destruct (attr_get x o).
Qed.

Lemma well_bound_frame a w a' w' :
  held_pins a' = held_pins a -> reserved w' = reserved w ->
  well_bound (a, w) -> well_bound (a', w').
Proof. unfold well_bound. cbn. now intros -> ->. Qed.

Lemma well_bound_setattr {P} (x : Attr AlarmSystem.t P) v :
  (forall a, held_pins (attr_set x v a) = held_pins a) ->
  preserves well_bound (setattr x v).
Proof.
  intros H [a w] Hs. rewrite setattr_run. cbn.
  eapply well_bound_frame; [apply H | reflexivity | exact Hs].
Qed.

Lemma well_bound_world {A} (m : M World A) :
  (forall w, reserved (snd (m w)) = reserved w) ->
  preserves well_bound (world m).
Proof.
  intros H [a w] Hs. rewrite world_run. specialize (H w).
  destruct (m w) as [r w']. cbn in *.
  eapply well_bound_frame; [reflexivity | exact H | exact Hs].
Qed.

Lemma well_bound_via_switch {A} (m : M (SimpleInput.t * World) A) :
  rebinds SimpleInput._super m ->
  preserves well_bound (via AlarmSystem.switch m).
Proof.
  intros Hm [a w] Hs. rewrite via_run. cbn.
  destruct (AlarmSystem._switch a) as [sw|] eqn:Hsw; [|exact Hs].
  destruct (m (sw, w)) as [res [sw' w']] eqn:Hrun. cbn.
  apply well_bound_pairwise in Hs. apply well_bound_pairwise.
  cbn in *. rewrite Hsw in Hs. cbn in Hs. destruct Hs as (H1 & H2 & H3).
  destruct (Hm (fun k => AlarmSystem._buzzer a ≫= held_pin = Some k \/
                         (SimpleInput._super <$> AlarmSystem._motion a) ≫= held_pin
                         = Some k)
               _ _ _ _ _ Hrun) as [HP Hn].
  - intros k [Hk|Hk]; [apply (H2 k Hk) | apply (H3 k Hk)].
  - intros n Hn. destruct (H1 n Hn) as (? & ? & ?). split; [assumption|tauto].
  - split; [|split].
    + intros n Hn'. destruct (Hn n Hn') as [? Hnot]. split; [assumption|tauto].
    + intros n Hn'. split; [apply HP; auto | apply (H2 n Hn')].
    + intros n Hn'. apply HP; auto.
Qed.

Lemma well_bound_via_buzzer {A} (m : M (SimpleOutput.t * World) A) :
  rebinds id m ->
  preserves well_bound (via AlarmSystem.buzzer m).
Proof.
  intros Hm [a w] Hs. rewrite via_run. cbn.
  destruct (AlarmSystem._buzzer a) as [bz|] eqn:Hbz; [|exact Hs].
  destruct (m (bz, w)) as [res [bz' w']] eqn:Hrun. cbn.
  apply well_bound_pairwise in Hs. apply well_bound_pairwise.
  cbn in *. rewrite Hbz in Hs. cbn in Hs. destruct Hs as (H1 & H2 & H3).
  destruct (Hm (fun k => (SimpleInput._super <$> AlarmSystem._switch a) ≫= held_pin
                         = Some k \/
                         (SimpleInput._super <$> AlarmSystem._motion a) ≫= held_pin
                         = Some k)
               _ _ _ _ _ Hrun) as [HP Hn].
  - intros k [Hk|Hk]; [apply (H1 k Hk) | apply (H3 k Hk)].
  - intros n Hn. destruct (H2 n Hn) as (? & ?). split; [assumption|].
    intros [Hk|Hk]; [destruct (H1 n Hk) as (_ & ? & _); auto | auto].
  - split; [|split].
    + intros n Hn'. split; [apply HP; auto|]. split.
      * intros Hb. destruct (Hn n Hb) as [_ Hnot]. tauto.
      * apply (H1 n Hn').
    + intros n Hn'. destruct (Hn n Hn') as [? Hnot]. split; [assumption|tauto].
    + intros n Hn'. apply HP; auto.
Qed.

Lemma well_bound_via_motion {A} (m : M (SimpleInput.t * World) A) :
  rebinds SimpleInput._super m ->
  preserves well_bound (via AlarmSystem.motion m).
Proof.
  intros Hm [a w] Hs. rewrite via_run. cbn.
  destruct (AlarmSystem._motion a) as [mo|] eqn:Hmo; [|exact Hs].
  destruct (m (mo, w)) as [res [mo' w']] eqn:Hrun. cbn.
  apply well_bound_pairwise in Hs. apply well_bound_pairwise.
  cbn in *. rewrite Hmo in Hs. cbn in Hs. destruct Hs as (H1 & H2 & H3).
  destruct (Hm (fun k => (SimpleInput._super <$> AlarmSystem._switch a) ≫= held_pin
                         = Some k \/
                         AlarmSystem._buzzer a ≫= held_pin = Some k)
               _ _ _ _ _ Hrun) as [HP Hn].
  - intros k [Hk|Hk]; [apply (H1 k Hk) | apply (H2 k Hk)].
  - intros n Hn. split; [apply (H3 n Hn)|].
    intros [Hk|Hk]; [destruct (H1 n Hk) as (_ & _ & ?) | destruct (H2 n Hk)]; auto.
  - split; [|split].
    + intros n Hn'. split; [apply HP; auto|]. split; [apply (H1 n Hn')|].
      intros Hb. destruct (Hn n Hb) as [_ Hnot]. tauto.
    + intros n Hn'. split; [apply HP; auto|].
      intros Hb. destruct (Hn n Hb) as [_ Hnot]. tauto.
    + intros n Hn'. apply (Hn n Hn').
Qed.

Lemma rebinds_quiet {O A} (sub : O -> RemoteAbstract.t) (m : M (O * World) A) :
  (forall o w, fst (snd (m (o, w))) = o /\
               reserved (snd (snd (m (o, w)))) = reserved w) ->
  rebinds sub m.
Proof.
  intros H P o w res o' w' Hrun HP Hn. destruct (H o w) as [Ho Hw].
  rewrite Hrun in Ho, Hw. cbn in Ho, Hw. subst o'. rewrite Hw. auto.
Qed.

Lemma rebinds_bind {O A B} (sub : O -> RemoteAbstract.t)
      (m : M (O * World) A) (k : A -> M (O * World) B) :
  rebinds sub m -> (forall a, rebinds sub (k a)) -> rebinds sub (bind m k).
Proof.
  intros Hm Hk P o w res o' w'. rewrite bind_run.
  destruct (m (o, w)) as [[a|e] [o1 w1]] eqn:Hrun; intros H HP Hn.
  - destruct (Hm P _ _ _ _ _ Hrun HP Hn) as [HP1 Hn1].
    exact (Hk a P _ _ _ _ _ H HP1 Hn1).
  - injection H as <- <- <-. exact (Hm P _ _ _ _ _ Hrun HP Hn).
Qed.

Lemma rebinds_super {A} (m : M (RemoteAbstract.t * World) A) :
  rebinds id m -> rebinds SimpleInput._super (via SimpleInput.super m).
Proof.
  intros Hm P [r dat] w res o' w'. rewrite via_run. cbn.
  destruct (m (r, w)) as [res1 [r1 w1]] eqn:Hrun. intros [= <- <- <-]. cbn.
  exact (Hm P _ _ _ _ _ Hrun).
Qed.

Lemma rebinds_RemoteAbstract_input debug d :
  rebinds id (RemoteAbstract.input debug d).
Proof.
  intros P o w res o' w' H. exact (RemoteAbstract_input_held _ _ _ _ _ _ _ P H).
Qed.

Lemma rebinds_device_on : rebinds id SimpleOutput.on.
Proof.
  apply rebinds_quiet. intros [p ty [[dty dn [|]]|]] w;
    unfold SimpleOutput.on, device_on; run; auto.
Qed.

Lemma rebinds_device_off : rebinds id SimpleOutput.off.
Proof.
  apply rebinds_quiet. intros [p ty [[dty dn [|]]|]] w;
    unfold SimpleOutput.off, device_off; run; auto.
Qed.

Lemma rebinds_SimpleOutput_input debug d :
  rebinds id (SimpleOutput.input debug d).
Proof.
  unfold SimpleOutput.input.
  apply rebinds_bind; [apply rebinds_RemoteAbstract_input|]. intros _.
  destruct (debug && bool_decide (is_Some (d !! "keep_on"))).
  - apply rebinds_bind.
    + apply rebinds_quiet. intros o w. rewrite getitem_run.
      now destruct (d !! "keep_on").
    + intros k. destruct (truthy k);
        [apply rebinds_device_on | apply rebinds_device_off].
  - apply rebinds_quiet. auto.
Qed.

Lemma rebinds_SimpleInput_input debug d :
  rebinds SimpleInput._super (SimpleInput.input debug d).
Proof. apply rebinds_super, rebinds_RemoteAbstract_input. Qed.

Lemma rebinds_is_active debug :
  rebinds SimpleInput._super (SimpleInput.is_active debug).
Proof.
  apply rebinds_quiet. intros [[p ty [[dty dn [|]]|]] dat] w;
    unfold SimpleInput.is_active, device_is_active; destruct debug; run; auto.
Qed.

Lemma rebinds_RemoteAbstract_close debug : rebinds id (RemoteAbstract.close debug).
Proof.
  intros P [p ty dv] w res o' w'.
  unfold RemoteAbstract.close, device_close, held_pin.
  destruct debug; run; [|intros [= _ <- <-]; auto].
  destruct dv as [[dty dn [|]]|]; run; intros [= _ <- <-]; cbn; auto.
  intros HP Hn. destruct (Hn dn eq_refl) as [_ Hnot]. wsimpl.
  split; [|discriminate].
  intros k Hk. apply elem_of_difference. split; [auto|].
  intros ->%elem_of_singleton. auto.
Qed.

(** Decompose a method into its steps; what is left is about one step. *)
Ltac pres_step :=
  lazymatch goal with
  | |- preserves _ (bind _ _) => apply preserves_bind; [|intros ?]
  | |- preserves _ (catch _ _) => apply preserves_catch; [|intros ?]
  | |- preserves _ (getitem _ _) => apply preserves_getitem
  | |- preserves _ (getattr _) => apply preserves_getattr
  | |- preserves _ (gpio_handler _) => apply preserves_handler
  | |- preserves _ (ret _) => apply preserves_same; reflexivity
  | |- preserves _ (raise _) => apply preserves_same; reflexivity
  | |- preserves _ (if ?b then _ else _) => destruct b
  | |- preserves _ (match ?x with _ => _ end) => destruct x
  end.

Ltac pres_well_bound :=
  repeat first
    [ pres_step
    | apply well_bound_setattr; reflexivity
    | apply well_bound_world; reflexivity
    | apply well_bound_via_buzzer; first [apply rebinds_device_on | apply rebinds_device_off] ].

Lemma take_photo_well_bound : preserves well_bound AlarmSystem.take_photo.
Proof. unfold AlarmSystem.take_photo. pres_well_bound. Qed.

Lemma send_email_well_bound : preserves well_bound AlarmSystem.send_email.
Proof. unfold AlarmSystem.send_email, AlarmSystem.recipients. pres_well_bound. Qed.

Lemma alert_mode_well_bound : preserves well_bound AlarmSystem.alert_mode.
Proof.
  unfold AlarmSystem.alert_mode. pres_well_bound;
    first [apply send_email_well_bound | apply take_photo_well_bound].
Qed.

Lemma passive_mode_well_bound : preserves well_bound AlarmSystem.passive_mode.
Proof. unfold AlarmSystem.passive_mode. pres_well_bound. Qed.

Lemma input_well_bound (debug : bool) (data : dict) :
  preserves well_bound (AlarmSystem.input debug data).
Proof.
  unfold AlarmSystem.input. destruct debug; [|apply preserves_same; reflexivity].
  repeat first
    [ pres_step
    | apply well_bound_setattr; reflexivity
    | apply well_bound_via_switch;
        first [apply rebinds_SimpleInput_input | apply rebinds_is_active]
    | apply well_bound_via_motion;
        first [apply rebinds_SimpleInput_input | apply rebinds_is_active]
    | apply well_bound_via_buzzer, rebinds_SimpleOutput_input
    | apply take_photo_well_bound
    | apply alert_mode_well_bound
    | apply passive_mode_well_bound ].
Qed.

Lemma output_well_bound (debug : bool) :
  preserves well_bound (AlarmSystem.output debug).
Proof.
  unfold AlarmSystem.output. destruct debug; [|apply preserves_same; reflexivity].
  repeat first
    [ pres_step
    | apply well_bound_world; reflexivity
    | apply take_photo_well_bound ].
Qed.

Lemma close_well_bound (debug : bool) :
  preserves well_bound (AlarmSystem.close debug).
Proof.
  unfold AlarmSystem.close, SimpleInput.close, SimpleOutput.close.
  destruct debug; [|apply preserves_same; reflexivity].
  repeat first
    [ pres_step
    | apply well_bound_via_switch, rebinds_super, rebinds_RemoteAbstract_close
    | apply well_bound_via_motion, rebinds_super, rebinds_RemoteAbstract_close
    | apply well_bound_via_buzzer, rebinds_RemoteAbstract_close ].
Qed.

(** X4: in a world where the open sub-devices of an alarm sit on pairwise
    different, reserved pins, they still do after [AlarmSystem.input], after
    [AlarmSystem.output] and after [AlarmSystem.close], for every [data] and
    whether the call returns or raises half-way: a reconfiguration that fails
    leaves its device on no pin, one that succeeds leaves it on a freshly
    reserved pin, and nothing else touches the reservations. *)
Theorem AlarmSystem_methods_keep_well_bound
    (debug : bool) (data : dict) (a : AlarmSystem.t) (w : World) :
  well_bound (a, w) ->
  well_bound (snd (AlarmSystem.input debug data (a, w))) /\
  well_bound (snd (AlarmSystem.output debug (a, w))) /\
  well_bound (snd (AlarmSystem.close debug (a, w))).
Proof.
  intros H. split; [|split].
  - now apply input_well_bound.
  - now apply output_well_bound.
  - now apply close_well_bound.
Qed.

Lemma example_well_bound k pt md dop le lp t0 :
  well_bound (Example.alarm k pt md dop le lp, Example.running t0).
Proof.
  split; cbn.
  - repeat (apply NoDup_cons; split; [rewrite ?elem_of_cons, elem_of_nil; lia|]).
    apply NoDup_nil_2.
  - intros n. rewrite !elem_of_cons, elem_of_nil.
    intros [->|[->|[->|[]]]]; apply (bool_decide_unpack _); vm_compute; exact I.
Qed.

(** The alarm of the example told to move its switch to pin 5, which its
    buzzer holds: the call raises, and the alarm is still well bound. *)
Lemma AlarmSystem_methods_keep_well_bound_witness :
  let a := Example.alarm true false false false None None in
  let w := Example.running 0 in
  let data : dict := <[ "pin" := VInt 5 ]> Example.config in
  well_bound (a, w) /\
  fst (AlarmSystem.input true data (a, w)) = Raise (ValueError "pin is already in use") /\
  well_bound (snd (AlarmSystem.input true data (a, w))).
Proof.
  intros a w data.
  pose proof (example_well_bound true false false false None None 0) as H.
  split; [exact H|]. split; [vm_compute; reflexivity|].
  exact (proj1 (AlarmSystem_methods_keep_well_bound true data a w H)).
Defined.

(** ** The life of an alarm: construction and release *)

Lemma RemoteAbstract_init_run (ty : DevType) (p : val) (w : World) :
  RemoteAbstract.__init__ true {[ "pin" := p ]} (Some ty) w =
    match new_device ty p w with
    | (Ok d, w') => (Ok (RemoteAbstract.mk p (Some ty) (Some d)), w')
    | (Raise e, w') => (Raise (translated e), w')
    end.
Proof.
  unfold RemoteAbstract.__init__. run. rewrite lookup_singleton_eq. run.
  destruct (new_device ty p w) as [[d|e] w']; run; reflexivity.
Qed.

Lemma AlarmSystem_init_inv (dic : dict) (w : World) a w' :
  AlarmSystem.__init__ true dic w = (Ok a, w') ->
  exists p1 p2 p3 em k pt d1 d2 d3 w1 w2,
    dic !! "pin" = Some p1 /\ dic !! "pin_buzzer" = Some p2 /\
    dic !! "pin_motion" = Some p3 /\ dic !! "emails" = Some em /\
    dic !! "keep_on" = Some k /\ dic !! "photo_toggle" = Some pt /\
    new_device Button p1 w = (Ok d1, w1) /\
    new_device OutputDevice p2 w1 = (Ok d2, w2) /\
    new_device Motion p3 w2 = (Ok d3, w') /\
    a = AlarmSystem.mk
          (Some p1)
          (Some (SimpleInput.mk (RemoteAbstract.mk p1 (Some Button) (Some d1)) VNone))
          (Some (RemoteAbstract.mk p2 (Some OutputDevice) (Some d2)))
          (Some (SimpleInput.mk (RemoteAbstract.mk p3 (Some Motion) (Some d3)) VNone))
          (Some em) k pt false false None None.
Proof.
  unfold AlarmSystem.__init__, Switch.__init__, SimpleOutput.__init__,
         MotionSensor.__init__, SimpleInput.__init__.
  run. destruct (dic !! "pin") as [p1|] eqn:H1; run; [|discriminate].
  rewrite H1. run. rewrite RemoteAbstract_init_run.
  destruct (new_device Button p1 w) as [[d1|e] w1] eqn:Hd1; run; [|discriminate].
  destruct (dic !! "pin_buzzer") as [p2|]; run; [|discriminate].
  rewrite RemoteAbstract_init_run.
  destruct (new_device OutputDevice p2 w1) as [[d2|e] w2] eqn:Hd2; run;
    [|discriminate].
  destruct (dic !! "pin_motion") as [p3|]; run; [|discriminate].
  rewrite RemoteAbstract_init_run.
  destruct (new_device Motion p3 w2) as [[d3|e] w3] eqn:Hd3; run; [|discriminate].
  destruct (dic !! "emails") as [em|]; run; [|discriminate].
  destruct (dic !! "keep_on") as [k|]; run; [|discriminate].
  destruct (dic !! "photo_toggle") as [pt|]; run; [|discriminate].
  intros [= <- <-]. exists p1, p2, p3, em, k, pt, d1, d2, d3, w1, w2.
  repeat (split; [first [reflexivity | assumption]|]). reflexivity.
Qed.

Lemma init_returns_bound (dic : dict) (w : World) a w' :
  AlarmSystem.__init__ true dic w = (Ok a, w') ->
  exists n1 n2 n3,
    held_pins a = [n1; n2; n3] /\ NoDup [n1; n2; n3] /\
    (n1 ∉ reserved w) /\ (n2 ∉ reserved w) /\ (n3 ∉ reserved w) /\
    reserved w' = {[n1; n2; n3]} ∪ reserved w /\
    log w' = log w ++ [Acquire Button n1; Acquire OutputDevice n2;
                       Acquire Motion n3] /\
    well_bound (a, w') /\
    AlarmSystem._pin a = dic !! "pin" /\
    AlarmSystem._emails a = dic !! "emails" /\
    Some (AlarmSystem._keep_on a) = dic !! "keep_on" /\
    Some (AlarmSystem._photo_toggle a) = dic !! "photo_toggle" /\
    AlarmSystem._door_open a = false /\
    AlarmSystem._motion_detected a = false /\
    AlarmSystem._last_email_sent a = None /\
    AlarmSystem._last_picture_taken a = None.
Proof.
  intros H.
  apply AlarmSystem_init_inv in H
    as (p1 & p2 & p3 & em & k & pt & d1 & d2 & d3 & w1 & w2
        & -> & _ & _ & -> & -> & -> & H1 & H2 & H3 & ->).
  apply new_device_Ok in H1 as (_ & F1 & E1 & ->).
  apply new_device_Ok in H2 as (_ & F2 & E2 & ->).
  apply new_device_Ok in H3 as (_ & F3 & E3 & ->).
  rewrite E1, E2, E3. wsimpl.
  apply not_elem_of_union in F2 as [F21%not_elem_of_singleton F2].
  apply not_elem_of_union in F3 as [F32%not_elem_of_singleton F3].
  apply not_elem_of_union in F3 as [F31%not_elem_of_singleton F3].
  exists (dpin d1), (dpin d2), (dpin d3).
  assert (Hnd : NoDup [dpin d1; dpin d2; dpin d3]).
  { rewrite !NoDup_cons, !not_elem_of_cons. repeat split; auto using NoDup_nil_2;
      try apply not_elem_of_nil. }
  assert (Hres : {[dpin d3]} ∪ ({[dpin d2]} ∪ ({[dpin d1]} ∪ reserved w))
                 = {[dpin d1; dpin d2; dpin d3]} ∪ reserved w).
  { apply set_eq. intros x. rewrite !elem_of_union, !elem_of_singleton. tauto. }
  split; [reflexivity|]. split; [exact Hnd|].
  repeat (split; [assumption|]).
  split; [now rewrite <- !app_assoc|].
  split; [|repeat split; reflexivity].
  split; cbn; [exact Hnd|]. intros n.
  rewrite !elem_of_cons, elem_of_nil, !elem_of_union, !elem_of_singleton. tauto.
Qed.

(** X5: when [AlarmSystem(dic)] returns, hardware enabled, its three
    sub-devices are open on three pairwise different pins, none of which was
    reserved before; the constructor reserved exactly those three, in the
    order switch, buzzer, motion sensor, and the alarm is well bound.  It
    starts with [door_open] and [motion_detected] false and both timestamps
    unset, and holds [pin], [emails], [keep_on] and [photo_toggle] of [dic]. *)
Theorem AlarmSystem_init_returns_bound (dic : dict) (w : World) a w' :
  AlarmSystem.__init__ true dic w = (Ok a, w') ->
  exists n1 n2 n3,
    held_pins a = [n1; n2; n3] /\ NoDup [n1; n2; n3] /\
    (n1 ∉ reserved w) /\ (n2 ∉ reserved w) /\ (n3 ∉ reserved w) /\
    reserved w' = {[n1; n2; n3]} ∪ reserved w /\
    log w' = log w ++ [Acquire Button n1; Acquire OutputDevice n2;
                       Acquire Motion n3] /\
    well_bound (a, w') /\
    AlarmSystem._pin a = dic !! "pin" /\
    AlarmSystem._emails a = dic !! "emails" /\
    Some (AlarmSystem._keep_on a) = dic !! "keep_on" /\
    Some (AlarmSystem._photo_toggle a) = dic !! "photo_toggle" /\
    AlarmSystem._door_open a = false /\
    AlarmSystem._motion_detected a = false /\
    AlarmSystem._last_email_sent a = None /\
    AlarmSystem._last_picture_taken a = None.
Proof. apply init_returns_bound. Qed.

(** The configuration of the example on a board with nothing acquired. *)
Lemma AlarmSystem_init_returns_bound_witness :
  exists a w',
    AlarmSystem.__init__ true Example.config (Example.boot 0) = (Ok a, w') /\
    held_pins a = [4; 5; 6] /\ well_bound (a, w').
Proof.
  destruct (AlarmSystem.__init__ true Example.config (Example.boot 0))
    as [res w'] eqn:Hrun.
  assert (Hres : exists a, res = Ok a
                           /\ a = Example.alarm true false false false None None).
  { apply (f_equal fst) in Hrun. vm_compute in Hrun. subst res. eauto. }
  destruct Hres as (a & -> & Ha). exists a, w'. split; [reflexivity|].
  destruct (AlarmSystem_init_returns_bound _ _ _ _ Hrun)
    as (n1 & n2 & n3 & Hheld & _ & _ & _ & _ & _ & _ & Hwb & _).
  split; [subst a; reflexivity | exact Hwb].
Defined.

Lemma close_releases (a : AlarmSystem.t) (w : World) a' w' :
  AlarmSystem.close true (a, w) = (Ok tt, (a', w')) ->
  held_pins a' = [] /\
  (forall n, n ∈ reserved w' <-> n ∈ reserved w /\ n ∉ held_pins a) /\
  log w' = log w ++ map Release (held_pins a) /\
  (forall w2, AlarmSystem.close true (a', w2) = (Ok tt, (a', w2))).
Proof.
  destruct a as [p sw bz mo em k pt md dop le lp].
  unfold AlarmSystem.close, SimpleInput.close, SimpleOutput.close,
         RemoteAbstract.close, device_close, held_pins, held_pin.
  destruct sw as [[[ps tys [[ty1 n1 c1]|]] dats]|]; run; try discriminate.
  destruct bz as [[pb tyb [[ty2 n2 c2]|]]|];
    [| destruct c1; run; discriminate | destruct c1; run; discriminate].
  destruct mo as [[[pm tym [[ty3 n3 c3]|]] datm]|];
    [| destruct c1, c2; run; discriminate | destruct c1, c2; run; discriminate].
  destruct c1, c2, c3; run; intros [= <- <-]; cbn; wsimpl;
    (split; [reflexivity|]);
    (split; [intros n;
             rewrite ?elem_of_difference, ?elem_of_singleton,
                     ?not_elem_of_cons, ?elem_of_nil; tauto|]);
    (split; [rewrite <- ?app_assoc, ?app_nil_r; reflexivity|]);
    intros w2; run; reflexivity.
Qed.

(** X6: when [AlarmSystem.close] returns, hardware enabled, none of the three
    sub-devices holds a pin any more; the pins reserved afterwards are those
    reserved before less the ones the alarm held, each released once, switch
    first, buzzer next, motion sensor last; and closing again, in any world,
    returns without changing anything. *)
Theorem AlarmSystem_close_releases (a : AlarmSystem.t) (w : World) a' w' :
  AlarmSystem.close true (a, w) = (Ok tt, (a', w')) ->
  held_pins a' = [] /\
  (forall n, n ∈ reserved w' <-> n ∈ reserved w /\ n ∉ held_pins a) /\
  log w' = log w ++ map Release (held_pins a) /\
  (forall w2, AlarmSystem.close true (a', w2) = (Ok tt, (a', w2))).
Proof. apply close_releases. Qed.

(** The alarm of the example, closed. *)
Lemma AlarmSystem_close_releases_witness :
  let a := Example.alarm true false false false None None in
  let w := Example.running 0 in
  exists a' w',
    AlarmSystem.close true (a, w) = (Ok tt, (a', w')) /\
    held_pins a' = [] /\
    log w' = log w ++ [Release 4; Release 5; Release 6].
Proof.
  intros a w.
  destruct (AlarmSystem.close true (a, w)) as [res [a' w']] eqn:Hrun.
  assert (Hres : res = Ok tt)
    by (apply (f_equal fst) in Hrun; vm_compute in Hrun; congruence).
  subst res. exists a', w'. split; [reflexivity|].
  destruct (AlarmSystem_close_releases a w a' w' Hrun) as (Hheld & _ & Hlog & _).
  split; [exact Hheld | exact Hlog].
Defined.


(** X7: construction followed by [close] gives every pin back: when
    [AlarmSystem(dic)] returns, closing the alarm returns too, leaves the set
    of reserved pins exactly as it was before the construction, and the log
    shows the three acquisitions followed by the three releases. *)
Theorem AlarmSystem_init_then_close (dic : dict) (w : World) a w1 :
  AlarmSystem.__init__ true dic w = (Ok a, w1) ->
  exists a' w2 n1 n2 n3,
    AlarmSystem.close true (a, w1) = (Ok tt, (a', w2)) /\
    reserved w2 = reserved w /\
    held_pins a' = [] /\
    log w2 = log w ++ [Acquire Button n1; Acquire OutputDevice n2;
                       Acquire Motion n3;
                       Release n1; Release n2; Release n3].
Proof.
  intros H.
  destruct (init_returns_bound _ _ _ _ H)
    as (n1 & n2 & n3 & Hheld & _ & F1 & F2 & F3 & Hres & Hlog & _).
  assert (Hclose : fst (AlarmSystem.close true (a, w1)) = Ok tt).
  { apply AlarmSystem_init_inv in H
      as (p1 & p2 & p3 & em & k & pt & d1 & d2 & d3 & w1' & w2'
          & _ & _ & _ & _ & _ & _ & _ & _ & _ & ->).
    unfold AlarmSystem.close, SimpleInput.close, SimpleOutput.close,
           RemoteAbstract.close, device_close.
    destruct d1 as [? ? []], d2 as [? ? []], d3 as [? ? []]; run; reflexivity. }
  destruct (AlarmSystem.close true (a, w1)) as [res [a' w2]] eqn:Hrun.
  cbn in Hclose. subst res.
  destruct (close_releases _ _ _ _ Hrun) as (Hheld' & Hiff & Hlog' & _).
  exists a', w2, n1, n2, n3. split; [reflexivity|].
  split; [|split; [exact Hheld'|]].
  - apply set_eq. intros x. rewrite Hiff, Hres, Hheld.
    rewrite !not_elem_of_cons, !elem_of_union, !elem_of_singleton.
    split; [tauto|]. intros Hx. split; [auto|].
    repeat split; try (intros ->; contradiction). apply not_elem_of_nil.
  - rewrite Hlog', Hlog, Hheld, <- app_assoc. reflexivity.
Qed.

(** The configuration of the example built and closed at once. *)
Lemma AlarmSystem_init_then_close_witness :
  exists a w1 a' w2,
    AlarmSystem.__init__ true Example.config (Example.boot 0) = (Ok a, w1) /\
    AlarmSystem.close true (a, w1) = (Ok tt, (a', w2)) /\
    reserved w2 = reserved (Example.boot 0).
Proof.
  destruct (AlarmSystem.__init__ true Example.config (Example.boot 0))
    as [res w1] eqn:Hrun.
  assert (Hres : exists a, res = Ok a)
    by (apply (f_equal fst) in Hrun; vm_compute in Hrun; subst res; eauto).
  destruct Hres as (a & ->).
  destruct (AlarmSystem_init_then_close _ _ _ _ Hrun)
    as (a' & w2 & n1 & n2 & n3 & Hclose & Hres & _).
  exists a, w1, a', w2. auto.
Defined.

(** X8: [keep_on] and [photo_toggle] are read after the [try] block.  When
    the three acquisitions succeed and [emails] is there but one of the two
    flags is missing from [dic], [AlarmSystem(dic)] raises [KeyError] for the
    first missing one, and the three pins it acquired are still reserved. *)
Theorem AlarmSystem_init_missing_flag
    (dic : dict) (w : World) (p1 p2 p3 em : val) (d1 d2 d3 : Device)
    (w1 w2 w3 : World) :
  dic !! "pin" = Some p1 ->
  dic !! "pin_buzzer" = Some p2 ->
  dic !! "pin_motion" = Some p3 ->
  dic !! "emails" = Some em ->
  new_device Button p1 w = (Ok d1, w1) ->
  new_device OutputDevice p2 w1 = (Ok d2, w2) ->
  new_device Motion p3 w2 = (Ok d3, w3) ->
  dic !! "keep_on" = None \/ dic !! "photo_toggle" = None ->
  AlarmSystem.__init__ true dic w
  = (Raise (KeyError (match dic !! "keep_on" with
                      | Some _ => "photo_toggle"
                      | None => "keep_on"
                      end)), w3) /\
  dpin d1 ∈ reserved w3 /\ dpin d2 ∈ reserved w3 /\ dpin d3 ∈ reserved w3.
Proof.
  intros H1 H2 H3 Hem Hd1 Hd2 Hd3 Hmiss. split.
  - unfold AlarmSystem.__init__, Switch.__init__, SimpleOutput.__init__,
           MotionSensor.__init__, SimpleInput.__init__.
    repeat (run; rewrite ?H1, ?H2, ?H3, ?Hem, ?RemoteAbstract_init_run,
                         ?Hd1, ?Hd2, ?Hd3).
    destruct (dic !! "keep_on") as [k|]; run; [|reflexivity].
    destruct Hmiss as [Hm|Hm]; [discriminate|]. rewrite Hm. reflexivity.
  - pose proof (new_device_pin _ _ _ _ _ Hd3) as Hin3.
    apply new_device_Ok in Hd1 as (_ & _ & _ & ->).
    apply new_device_Ok in Hd2 as (_ & _ & _ & ->).
    apply new_device_Ok in Hd3 as (_ & _ & _ & ->).
    wsimpl. repeat split; rewrite ?elem_of_union, ?elem_of_singleton; auto.
Qed.

(** The configuration of the example without its [photo_toggle]. *)
Lemma AlarmSystem_init_missing_flag_witness :
  let dic : dict := delete "photo_toggle" Example.config in
  let r := AlarmSystem.__init__ true dic (Example.boot 0) in
  fst r = Raise (KeyError "photo_toggle") /\ 6 ∈ reserved (snd r).
Proof.
  intros dic r.
  set (r1 := new_device Button (VInt 4) (Example.boot 0)).
  set (r2 := new_device OutputDevice (VInt 5) (snd r1)).
  set (r3 := new_device Motion (VInt 6) (snd r2)).
  assert (H1 : dic !! "pin" = Some (VInt 4)) by (vm_compute; reflexivity).
  assert (H2 : dic !! "pin_buzzer" = Some (VInt 5)) by (vm_compute; reflexivity).
  assert (H3 : dic !! "pin_motion" = Some (VInt 6)) by (vm_compute; reflexivity).
  assert (H4 : dic !! "emails" = Some (VStr "a@b.c, d@e.f"))
    by (vm_compute; reflexivity).
  assert (H5 : dic !! "photo_toggle" = None) by (vm_compute; reflexivity).
  destruct (AlarmSystem_init_missing_flag dic (Example.boot 0)
              (VInt 4) (VInt 5) (VInt 6) (VStr "a@b.c, d@e.f")
              (mkDevice Button 4 false) (mkDevice OutputDevice 5 false)
              (mkDevice Motion 6 false) (snd r1) (snd r2) (snd r3)
              H1 H2 H3 H4 eq_refl eq_refl eq_refl (or_intror H5))
    as (Hrun & _ & _ & Hin).
  subst r. rewrite Hrun. split; [|exact Hin].
  change (dic !! "keep_on") with (Some (VBool true)). reflexivity.
Defined.

(** ** What [input] leaves alone *)

Section Keeps.
Context {O X : Type} (f : O -> X) (c : X).

Lemma keeps_setattr {P} (x : Attr O P) v :
  (forall a, f (attr_set x v a) = f a) ->
  preserves (fun s => f (fst s) = c) (setattr x v).
Proof. intros H [a w] Hs. rewrite setattr_run. cbn in *. now rewrite H. Qed.

Lemma keeps_via {P A} (x : Attr O P) (m : M (P * World) A) :
  (forall a p, f (attr_set x p a) = f a) ->
  preserves (fun s => f (fst s) = c) (via x m).
Proof.
  intros H [a w] Hs. rewrite via_run. destruct (attr_get x a) as [p|]; [|exact Hs].
  destruct (m (p, w)) as [r [p' w']]. cbn in *. now rewrite H.
Qed.

Lemma keeps_world {A} (m : M World A) :
  preserves (fun s : O * World => f (fst s) = c) (world m).
Proof. intros [a w] Hs. rewrite world_run. now destruct (m w). Qed.

End Keeps.

Ltac keeps :=
  repeat first
    [ pres_step
    | apply keeps_setattr; reflexivity
    | apply keeps_via; reflexivity
    | apply keeps_world ].

Lemma input_keeps_pin debug data c :
  preserves (fun s => AlarmSystem._pin (fst s) = c) (AlarmSystem.input debug data).
Proof.
  unfold AlarmSystem.input, AlarmSystem.alert_mode, AlarmSystem.passive_mode,
         AlarmSystem.take_photo, AlarmSystem.send_email, AlarmSystem.recipients.
  destruct debug; keeps.
Qed.

Lemma RemoteAbstract_input_Ok_pin debug data r w r' w' :
  RemoteAbstract.input debug data (r, w) = (Ok tt, (r', w')) ->
  exists q, data !! "pin" = Some q /\ py_eq (RemoteAbstract._pin r') q = true.
Proof.
  unfold RemoteAbstract.input, py_ne. destruct r as [p ty dv]. run.
  destruct (data !! "pin") as [q|]; run; [|discriminate].
  destruct (py_eq p q) eqn:Hpq; run.
  - intros [= <- <-]. eauto.
  - intros H. exists q. split; [reflexivity|].
    assert (Hk : preserves (fun s : RemoteAbstract.t * World =>
                              RemoteAbstract._pin (fst s) = q)
                           (RemoteAbstract._change_pin debug q)).
    { unfold RemoteAbstract._change_pin, RemoteAbstract.close.
      repeat first
        [ pres_step
        | apply preserves_same; reflexivity
        | intros [[? ? ?] ?] Hs; rewrite ?via_run, ?setattr_run, ?world_run; cbn in *;
          repeat match goal with
                 | |- context [match ?x with _ => _ end] => destruct x
                 end; cbn; assumption ]. }
    specialize (Hk (RemoteAbstract.mk q ty dv, w) eq_refl).
    rewrite H in Hk. cbn in Hk. rewrite Hk. apply py_eq_refl.
Qed.

Lemma is_active_same debug (s : SimpleInput.t) (w : World) :
  snd (SimpleInput.is_active debug (s, w)) = (s, w).
Proof.
  destruct s as [[p ty [[dty dn [|]]|]] dat];
    unfold SimpleInput.is_active, device_is_active; destruct debug; run; reflexivity.
Qed.

Lemma keeps_switch_is_active debug c :
  preserves (fun s => AlarmSystem._switch (fst s) = c)
            (via AlarmSystem.switch (SimpleInput.is_active debug)).
Proof.
  intros [a w] Hs. rewrite via_run. cbn in *.
  destruct (AlarmSystem._switch a) as [sw|] eqn:Hsw; [|cbn; congruence].
  pose proof (is_active_same debug sw w) as Hsame.
  unfold Switch.t in *.
  destruct (SimpleInput.is_active debug (sw, w)) as [r [sw' w']].
  cbn in *. injection Hsame as -> ->. exact Hs.
Qed.

(** ** What the inherited methods leave alone *)

Lemma Instance_change_pin_keeps_data debug q c :
  preserves (fun s => Instance._data (fst s) = c) (Instance._change_pin debug q).
Proof.
  unfold Instance._change_pin, Instance.close. destruct debug; keeps.
Qed.

Lemma Instance_input_keeps_data debug dic c :
  preserves (fun s => Instance._data (fst s) = c) (Instance.input debug dic).
Proof.
  unfold Instance.input. keeps. apply Instance_change_pin_keeps_data.
Qed.

(** Both runs of a simulation opened at each acquisition. *)
Ltac open_acquisitions :=
  repeat (run;
          try match goal with
              | |- context [new_device ?ty ?p ?w] =>
                  destruct (new_device ty p w) as [[?|[]] ?]
              end);
  try reflexivity.

(** C9: a [Switch] and a [MotionSensor] answer [input], [close] and
    [_change_pin] with the methods of [RemoteAbstract] and [is_active] with
    that of [SimpleInput].  Run on the whole object, each of the four leaves
    the cached [data] as it was, whatever the configuration record, the mode,
    the state of the object and the outcome of the call: [input] assigns
    [pin] and [device] and nothing else.  The two [output] do assign it:
    without hardware, where [is_active] is always true, [Switch.output]
    leaves the string ON in it and [MotionSensor.output] the clock reading.
    The [input], [close] and [is_active] of the [SimpleInput] records are
    the methods of the whole object. *)
Theorem SimpleInput_input_keeps_data
    (debug : bool) (dic : dict) (o : Instance.t) (w : World) :
  Forall (fun c => class_getattr c "input" = Some CRemoteAbstract /\
                   class_getattr c "close" = Some CRemoteAbstract /\
                   class_getattr c "_change_pin" = Some CRemoteAbstract /\
                   class_getattr c "is_active" = Some CSimpleInput)
         [CSimpleInput; CMotionSensor; CSwitch] /\
  Instance._data (fst (snd (Instance.input debug dic (o, w))))
  = Instance._data o /\
  (forall q, Instance._data (fst (snd (Instance._change_pin debug q (o, w))))
             = Instance._data o) /\
  Instance._data (fst (snd (Instance.close debug (o, w)))) = Instance._data o /\
  Instance._data (fst (snd (Instance.is_active debug (o, w))))
  = Instance._data o /\
  Instance._data (fst (snd (Instance.Switch_output false (o, w))))
  = Some (VStr "ON") /\
  Instance._data (fst (snd (Instance.MotionSensor_output false (o, w))))
  = Some (VInt (clock w (ticks w))) /\
  (forall s : SimpleInput.t,
     Instance.input debug dic (Instance.of_record s, w)
     = Instance.lift (SimpleInput.input debug dic (s, w)) /\
     Instance.close debug (Instance.of_record s, w)
     = Instance.lift (SimpleInput.close debug (s, w)) /\
     Instance.is_active debug (Instance.of_record s, w)
     = Instance.lift (SimpleInput.is_active debug (s, w))).
Proof.
  split; [repeat constructor|].
  split; [exact (Instance_input_keeps_data debug dic _ (o, w) eq_refl)|].
  split; [intros q; exact (Instance_change_pin_keeps_data debug q _ (o, w) eq_refl)|].
  split.
  { assert (H : preserves (fun s => Instance._data (fst s) = Instance._data o)
                          (Instance.close debug))
      by (unfold Instance.close; destruct debug; keeps).
    exact (H (o, w) eq_refl). }
  split.
  { assert (H : preserves (fun s => Instance._data (fst s) = Instance._data o)
                          (Instance.is_active debug))
      by (unfold Instance.is_active; destruct debug; keeps).
    exact (H (o, w) eq_refl). }
  split.
  { unfold Instance.Switch_output, Instance.SimpleInput_output,
           Instance.RemoteAbstract_output, Instance.is_active, database_update.
    destruct o as [[p|] ty dv dat]; run; reflexivity. }
  split.
  { unfold Instance.MotionSensor_output, Instance.SimpleInput_output,
           Instance.RemoteAbstract_output, Instance.is_active, database_update,
           time_time.
    destruct o as [[p|] ty dv dat]; run; reflexivity. }
  intros [[p ty dv] dat]. unfold Instance.lift, Instance.of_record.
  split; [|split].
  - unfold Instance.input, SimpleInput.input, RemoteAbstract.input,
           Instance._change_pin, RemoteAbstract._change_pin,
           Instance.close, RemoteAbstract.close, device_close.
    destruct debug, (dic !! "pin") as [q|] eqn:Hq, dv as [[dty dn [|]]|],
             ty as [ty|]; run; rewrite ?Hq; run; try reflexivity;
      destruct (py_ne p q); open_acquisitions.
  - unfold Instance.close, SimpleInput.close, RemoteAbstract.close,
           device_close.
    destruct debug, dv as [[dty dn [|]]|]; run; reflexivity.
  - unfold Instance.is_active, SimpleInput.is_active, device_is_active.
    destruct debug, dv as [[dty dn [|]]|]; run; reflexivity.
Qed.

(** X9: [AlarmSystem.input] never assigns the alarm's own [pin], the key
    [output] files its reports under: it is the same after the call as
    before, for every [data] and every outcome.  The switch does follow
    [data]: when the call returns, hardware enabled, the pin stored in the
    switch equals [data["pin"]].  So once [data["pin"]] changes, the alarm's
    [pin] and its switch's [pin] differ. *)
Theorem AlarmSystem_input_keeps_own_pin
    (debug : bool) (data : dict) (a : AlarmSystem.t) (w : World) :
  AlarmSystem._pin (fst (snd (AlarmSystem.input debug data (a, w))))
  = AlarmSystem._pin a /\
  (forall a' w',
     AlarmSystem.input true data (a, w) = (Ok tt, (a', w')) ->
     exists sw q,
       AlarmSystem._switch a' = Some sw /\ data !! "pin" = Some q /\
       py_eq (RemoteAbstract._pin (SimpleInput._super sw)) q = true).
Proof.
  split; [exact (input_keeps_pin debug data _ (a, w) eq_refl)|].
  intros a' w'. unfold AlarmSystem.input. intros H.
  apply bind_Ok in H as (sw0 & [a0 w0] & Hg & H).
  rewrite getattr_run in Hg. cbn in Hg.
  destruct (AlarmSystem._switch a) as [sw|] eqn:Hsw; [|discriminate].
  injection Hg as <- <- <-.
  apply bind_Ok in H as (q & [a0 w0] & Hq & H).
  apply getitem_Ok in Hq as [Hq [= <- <-]].
  apply bind_Ok in H as ([] & [a1 w1] & Hv & H).
  rewrite via_run in Hv. cbn in Hv. rewrite Hsw in Hv.
  unfold SimpleInput.input in Hv. rewrite via_run in Hv. cbn in Hv.
  match type of Hv with
  | context [RemoteAbstract.input true ?d ?s] =>
      destruct (RemoteAbstract.input true d s) as [res [r' w1']] eqn:Hr
  end.
  cbn in Hv. injection Hv as -> <- <-.
  apply RemoteAbstract_input_Ok_pin in Hr as (q' & Hq' & Hpin).
  rewrite lookup_singleton_eq in Hq'. injection Hq' as <-.
  match type of H with
  | ?m _ = _ =>
      assert (Hk : preserves
                     (fun st => AlarmSystem._switch (fst st)
                                = Some (SimpleInput.mk r' (SimpleInput._data sw)))
                     m)
  end.
  { unfold AlarmSystem.alert_mode, AlarmSystem.passive_mode,
           AlarmSystem.take_photo, AlarmSystem.send_email, AlarmSystem.recipients.
    repeat first
      [ pres_step
      | apply keeps_setattr; reflexivity
      | apply keeps_switch_is_active
      | apply keeps_via; reflexivity
      | apply keeps_world ]. }
  match type of H with
  | _ ?st = _ => specialize (Hk st eq_refl)
  end.
  rewrite H in Hk. cbn in Hk.
  eexists _, q. split; [exact Hk|]. split; [exact Hq | exact Hpin].
Qed.

(** The alarm of the example, still filed under pin 4, after its switch has
    moved to pin 7. *)
Lemma AlarmSystem_input_keeps_own_pin_witness :
  let a := Example.alarm false false false false None None in
  let w := Example.running 0 in
  let data : dict := <[ "pin" := VInt 7 ]> Example.config in
  exists a' w' sw,
    AlarmSystem.input true data (a, w) = (Ok tt, (a', w')) /\
    AlarmSystem._pin a' = Some (VInt 4) /\
    AlarmSystem._switch a' = Some sw /\
    py_eq (RemoteAbstract._pin (SimpleInput._super sw)) (VInt 7) = true.
Proof.
  intros a w data.
  destruct (AlarmSystem_input_keeps_own_pin true data a w) as [Hpin Hsw].
  destruct (AlarmSystem.input true data (a, w)) as [res [a' w']] eqn:Hrun.
  assert (Hres : res = Ok tt)
    by (apply (f_equal fst) in Hrun; vm_compute in Hrun; congruence).
  subst res. destruct (Hsw a' w' eq_refl) as (sw & q & Hs & Hq & Hp).
  change (data !! "pin") with (Some (VInt 7)) in Hq. injection Hq as <-.
  exists a', w', sw. cbn in Hpin. auto.
Defined.

(** ** After a failed reconfiguration *)

(** X10: nothing retries a failed change of pin.  When [input] raises, with
    hardware enabled and [data] holding a pin, the object has taken the new
    pin as its own but holds none; the same [input] again, in any world (for
    instance once the wanted pin has become free), returns at once without
    acquiring anything.  The object stays unbound until [data] names yet
    another pin. *)
Theorem RemoteAbstract_input_no_retry
    (data : dict) (q : val) (r : RemoteAbstract.t) (w : World) e r' w' :
  data !! "pin" = Some q ->
  RemoteAbstract.input true data (r, w) = (Raise e, (r', w')) ->
  RemoteAbstract._pin r' = q /\ held_pin r' = None /\
  forall w2, RemoteAbstract.input true data (r', w2) = (Ok tt, (r', w2)).
Proof.
  intros Hq.
  assert (Hagain : forall ty dv w2,
            RemoteAbstract.input true data (RemoteAbstract.mk q ty dv, w2)
            = (Ok tt, (RemoteAbstract.mk q ty dv, w2))).
  { intros ty dv w2. unfold RemoteAbstract.input, py_ne. run.
    rewrite Hq. run. rewrite py_eq_refl. reflexivity. }
  intros H.
  assert (Hr : exists ty dv, r' = RemoteAbstract.mk q ty dv /\ held_pin r' = None).
  { revert H.
    unfold RemoteAbstract.input, RemoteAbstract._change_pin, RemoteAbstract.close,
           device_close, py_ne, held_pin.
    destruct r as [p ty dv]. run. rewrite Hq. run.
    destruct (py_eq p q); run; [discriminate|].
    destruct dv as [[dty dn c]|]; run;
      [|intros [= <- <- <-]; cbn; eauto].
    destruct c; run;
      (destruct ty as [ty|]; run; [|intros [= <- <- <-]; cbn; eauto]).
    all: match goal with
         | |- context [new_device ?t ?q ?w0] =>
             destruct (new_device t q w0) as [[d'|e0] w1]; run;
             [discriminate | intros [= <- <- <-]; cbn; eauto]
         end. }
  destruct Hr as (ty & dv & -> & Hheld). auto.
Qed.

(** A device on pin 4 asked for pin 5, which is taken; asked again once the
    board is otherwise empty, it still acquires nothing. *)
Lemma RemoteAbstract_input_no_retry_witness :
  let r := Example.button 4 in
  let data : dict := {[ "pin" := VInt 5 ]} in
  let s := snd (RemoteAbstract.input true data (r, Example.running 0)) in
  fst (RemoteAbstract.input true data (r, Example.running 0))
  = Raise (ValueError "pin is already in use") /\
  held_pin (fst s) = None /\
  RemoteAbstract.input true data (fst s, Example.boot 0)
  = (Ok tt, (fst s, Example.boot 0)).
Proof.
  intros r data s.
  assert (Hrun : RemoteAbstract.input true data (r, Example.running 0)
                 = (Raise (ValueError "pin is already in use"), (fst s, snd s)))
    by (vm_compute; reflexivity).
  destruct (RemoteAbstract_input_no_retry data (VInt 5) r _ _ _ _ eq_refl Hrun)
    as (_ & Hheld & Hagain).
  split; [rewrite Hrun; reflexivity|]. split; [exact Hheld | apply Hagain].
Defined.

(** ** A control cycle: [input], then [output] *)

Lemma output_run (a : AlarmSystem.t) (w : World) (p : val) :
  AlarmSystem._pin a = Some p ->
  exists fields a' w',
    AlarmSystem.output true (a, w) = (Ok tt, (a', w')) /\
    log w' = log w ++ (if AlarmSystem._motion_detected a then [Photo] else [])
                   ++ [Update fields p] /\
    fields !! "door_open" = Some (VBool (AlarmSystem._door_open a)) /\
    fields !! "motion" =
      (if AlarmSystem._motion_detected a
       then Some (VStr (strftime_c w (clock w (ticks w)))) else None).
Proof.
  destruct a as [p0 sw bz mo em k pt md dop le lp]; cbn. intros ->.
  unfold AlarmSystem.output, time_strftime_c, get_newest_photo, database_update.
  destruct md; run.
  - rewrite take_photo_run. run. eexists _, _, _. split; [reflexivity|].
    wsimpl. split; [now rewrite <- app_assoc|].
    split; [now rewrite !lookup_insert_ne, lookup_singleton_eq by discriminate|].
    now rewrite lookup_insert_ne, lookup_insert_eq by discriminate.
  - eexists _, _, _. split; [reflexivity|]. wsimpl. split; [reflexivity|].
    split; [now rewrite lookup_insert_ne, lookup_singleton_eq by discriminate|].
    now rewrite lookup_insert_ne, lookup_singleton_ne by discriminate.
Qed.

(** The sensors as a returning [input] leaves them recorded. *)
Lemma input_records_sensors (data : dict) (a : AlarmSystem.t) (w : World) a' w' :
  AlarmSystem.input true data (a, w) = (Ok tt, (a', w')) ->
  exists sw ds mo dm,
    AlarmSystem._switch a' = Some sw /\
    RemoteAbstract._device (SimpleInput._super sw) = Some ds /\ closed ds = false /\
    AlarmSystem._motion a' = Some mo /\
    RemoteAbstract._device (SimpleInput._super mo) = Some dm /\ closed dm = false /\
    AlarmSystem._door_open a' = negb (sensed w (dpin ds)) /\
    AlarmSystem._motion_detected a' = sensed w (dpin dm) /\
    AlarmSystem._pin a' = AlarmSystem._pin a.
Proof.
  intros H.
  apply AlarmSystem_input_Ok in H
    as (k & pt & em & sw & bz & mo & ds & dm & w1 & _ & _ & _ & _ & Hds & Hcs
        & Hdm & Hcm & Hm).
  cbn zeta in Hm. exists sw, ds, mo, dm.
  destruct (truthy k && negb (sensed w (dpin ds))).
  - apply alert_mode_Ok in Hm as (? & ? & _ & _ & _ & _ & -> & _). cbn. auto 10.
  - apply passive_mode_Ok in Hm as (? & ? & _ & _ & _ & -> & _). cbn. auto 10.
Qed.

(** X11: one control cycle.  When [input] returns, hardware enabled, and the
    alarm has its [pin], the [output] that follows returns too and hands the
    database one record, keyed by that pin, whose [door_open] is the negation
    of what the switch read during [input]; the record has a [motion] entry,
    and a photo is captured just before it is written, exactly when the
    motion sensor read active during [input]. *)
Theorem AlarmSystem_cycle_reports
    (data : dict) (a : AlarmSystem.t) (w : World) a1 w1 (p : val) :
  AlarmSystem._pin a = Some p ->
  AlarmSystem.input true data (a, w) = (Ok tt, (a1, w1)) ->
  exists sw ds mo dm fields a2 w2,
    AlarmSystem._switch a1 = Some sw /\
    RemoteAbstract._device (SimpleInput._super sw) = Some ds /\
    AlarmSystem._motion a1 = Some mo /\
    RemoteAbstract._device (SimpleInput._super mo) = Some dm /\
    AlarmSystem.output true (a1, w1) = (Ok tt, (a2, w2)) /\
    log w2 = log w1 ++ (if sensed w (dpin dm) then [Photo] else [])
                    ++ [Update fields p] /\
    fields !! "door_open" = Some (VBool (negb (sensed w (dpin ds)))) /\
    (is_Some (fields !! "motion") <-> sensed w (dpin dm) = true).
Proof.
  intros Hp H.
  apply input_records_sensors in H
    as (sw & ds & mo & dm & Hsw & Hds & _ & Hmo & Hdm & _ & Hdo & Hmd & Hpin).
  rewrite Hp in Hpin.
  destruct (output_run a1 w1 p Hpin) as (fields & a2 & w2 & Hout & Hlog & Hf1 & Hf2).
  rewrite Hmd in Hlog, Hf2. rewrite Hdo in Hf1.
  exists sw, ds, mo, dm, fields, a2, w2.
  repeat (split; [assumption|]).
  rewrite Hf2. destruct (sensed w (dpin dm)); split; intros Hx;
    try reflexivity; try discriminate; [eauto | destruct Hx; discriminate].
Qed.

(** The alarm of the example with its motion sensor moved to pin 4, the pin
    that reads active, and its switch to pin 7. *)
Lemma AlarmSystem_cycle_reports_witness :
  let a := Example.alarm false false false false None None in
  let w := Example.running 0 in
  let data : dict :=
    <[ "pin" := VInt 7 ]> (<[ "pin_motion" := VInt 4 ]> Example.config) in
  exists a1 w1 a2 w2 fields,
    AlarmSystem.input true data (a, w) = (Ok tt, (a1, w1)) /\
    AlarmSystem.output true (a1, w1) = (Ok tt, (a2, w2)) /\
    log w2 = log w1 ++ [Photo] ++ [Update fields (VInt 4)].
Proof.
  intros a w data.
  destruct (AlarmSystem.input true data (a, w)) as [res [a1 w1]] eqn:Hrun.
  assert (Hres : res = Ok tt)
    by (apply (f_equal fst) in Hrun; vm_compute in Hrun; congruence).
  subst res.
  destruct (AlarmSystem_cycle_reports data a w a1 w1 (VInt 4) eq_refl Hrun)
    as (sw & ds & mo & dm & fields & a2 & w2 & _ & _ & Hmo & Hdm & Hout & Hlog & _).
  assert (Ha : a1 = fst (snd (AlarmSystem.input true data (a, w))))
    by (rewrite Hrun; reflexivity).
  rewrite Ha in Hmo. vm_compute in Hmo. injection Hmo as <-.
  vm_compute in Hdm. injection Hdm as <-.
  exists a1, w1, a2, w2, fields. split; [reflexivity|]. split; [exact Hout|].
  exact Hlog.
Defined.

(** ** Disarming and re-arming *)

Lemma pin_events_no_email evs :
  forallb is_pin_event evs = true -> filter is_email evs = [].
Proof.
  induction evs as [|[] evs IH]; cbn; try discriminate; auto.
Qed.

(** The mode a returning [input] ran can be read off the state it leaves. *)
Lemma input_mode (data : dict) (a : AlarmSystem.t) (w : World) a' w' :
  AlarmSystem.input true data (a, w) = (Ok tt, (a', w')) ->
  exists pins a2 w2,
    forallb is_pin_event pins = true /\
    log w2 = log w ++ pins
                   ++ (if py_ne (AlarmSystem._photo_toggle a')
                                (AlarmSystem._photo_toggle a)
                       then [Photo] else []) /\
    AlarmSystem._last_email_sent a2 = AlarmSystem._last_email_sent a /\
    mail_to a2 = mail_to a' /\
    (if truthy (AlarmSystem._keep_on a') && AlarmSystem._door_open a'
     then AlarmSystem.alert_mode else AlarmSystem.passive_mode) (a2, w2)
    = (Ok tt, (a', w')).
Proof.
  intros H.
  apply AlarmSystem_input_Ok in H
    as (k & pt & em & sw & bz & mo & ds & dm & w1 & _ & _ & _ & Hw & _ & _
        & _ & _ & Hm).
  cbn zeta in Hm.
  destruct (before_mode_log w w1 (py_ne pt (AlarmSystem._photo_toggle a)) Hw)
    as (pins & Hpins & Hlog).
  assert (Htog : (if py_ne pt (AlarmSystem._photo_toggle a) then pt
                  else AlarmSystem._photo_toggle a) = pt
                 \/ py_ne pt (AlarmSystem._photo_toggle a) = false).
  { destruct (py_ne pt (AlarmSystem._photo_toggle a)); auto. }
  assert (Hsame : py_ne (if py_ne pt (AlarmSystem._photo_toggle a) then pt
                         else AlarmSystem._photo_toggle a)
                        (AlarmSystem._photo_toggle a)
                  = py_ne pt (AlarmSystem._photo_toggle a)).
  { destruct (py_ne pt (AlarmSystem._photo_toggle a)) eqn:E; [exact E|].
    unfold py_ne. now rewrite py_eq_refl. }
  exists pins. pose proof Hm as Hrun.
  destruct (truthy k && negb (sensed w (dpin ds))) eqn:Hc.
  - apply alert_mode_Ok in Hm as (? & ? & _ & _ & _ & _ & -> & _).
    cbn. rewrite Hc, Hsame. eexists _, _.
    split; [exact Hpins|]. split; [exact Hlog|]. split; [|split; [|exact Hrun]];
      reflexivity.
  - apply passive_mode_Ok in Hm as (? & ? & _ & _ & _ & -> & _).
    cbn. rewrite Hc, Hsame. eexists _, _.
    split; [exact Hpins|]. split; [exact Hlog|]. split; [|split; [|exact Hrun]];
      reflexivity.
Qed.

(** X12: disarm, then re-arm.  Take two calls of [input] that return, the
    first one ending in passive mode ([keep_on and door_open] false), the
    second, in whatever world and however soon, in alert mode.  Then the
    first left [last_email_sent] unset, and the second sends exactly one
    email, to the alarm's recipients, whatever the clock reads and whenever
    the previous email went out. *)
Theorem AlarmSystem_rearm_sends_email
    (data1 data2 : dict) (a : AlarmSystem.t) (w : World) a1 w1 w2 a3 w3 :
  AlarmSystem.input true data1 (a, w) = (Ok tt, (a1, w1)) ->
  truthy (AlarmSystem._keep_on a1) && AlarmSystem._door_open a1 = false ->
  AlarmSystem.input true data2 (a1, w2) = (Ok tt, (a3, w3)) ->
  truthy (AlarmSystem._keep_on a3) && AlarmSystem._door_open a3 = true ->
  AlarmSystem._last_email_sent a1 = None /\
  exists evs, log w3 = log w2 ++ evs /\
    filter is_email evs = [Email (mail_to a3)] /\
    is_Some (AlarmSystem._last_email_sent a3).
Proof.
  intros H1 Hc1 H2 Hc2.
  apply input_mode in H1 as (pins1 & b1 & v1 & _ & _ & _ & _ & Hm1).
  rewrite Hc1 in Hm1.
  apply passive_mode_buzzer in Hm1 as (_ & _ & _ & _ & _ & Hnone & _).
  split; [exact Hnone|].
  apply input_mode in H2 as (pins & b2 & v2 & Hpins & Hlog & Hle & Hmail & Hm2).
  rewrite Hc2 in Hm2. rewrite Hnone in Hle.
  apply alert_mode_Ok in Hm2 as (bz & db & _ & _ & _ & _ & Ha3 & Hw3).
  cbn zeta in Ha3, Hw3. rewrite Hle in Ha3, Hw3.
  cbn [limiter_due checks Nat.b2n] in Ha3, Hw3.
  eexists. split; [rewrite Hw3; cbn [log]; rewrite Hlog, <- !app_assoc; reflexivity|].
  split; [|rewrite Ha3; cbn; eauto].
  rewrite !filter_app, (pin_events_no_email _ Hpins), Hmail.
  destruct (py_ne _ _), (limiter_due 3 _ _); reflexivity.
Qed.

(** The alarm of the example, which sent an email at time 5, disarmed at
    time 10 with the door open and armed again at once. *)
Lemma AlarmSystem_rearm_sends_email_witness :
  let a := Example.alarm true false false true (Some 5) None in
  let w := Example.running 10 in
  let off : dict := <[ "keep_on" := VBool false ]> (<[ "pin" := VInt 7 ]> Example.config) in
  let on : dict := <[ "pin" := VInt 7 ]> Example.config in
  let r1 := AlarmSystem.input true off (a, w) in
  let r3 := AlarmSystem.input true on (snd r1) in
  fst r1 = Ok tt /\ fst r3 = Ok tt /\
  exists evs, log (snd (snd r3)) = log (snd (snd r1)) ++ evs /\
    filter is_email evs = [Email ["a@b.c"; "d@e.f"]].
Proof.
  intros a w off on r1 r3.
  assert (H1 : AlarmSystem.input true off (a, w)
               = (Ok tt, (fst (snd r1), snd (snd r1))))
    by (vm_compute; reflexivity).
  assert (H3 : AlarmSystem.input true on (fst (snd r1), snd (snd r1))
               = (Ok tt, (fst (snd r3), snd (snd r3))))
    by (vm_compute; reflexivity).
  destruct (AlarmSystem_rearm_sends_email off on a w _ _ _ _ _ H1 eq_refl H3 eq_refl)
    as (_ & evs & Hlog & Hmail & _).
  split; [vm_compute; reflexivity|]. split; [vm_compute; reflexivity|].
  exists evs. split; [exact Hlog | exact Hmail].
Defined.

(** ** Recipients *)

Lemma split_comma_cons s : exists h t, split_comma s = h :: t.
Proof.
  induction s as [|c s IH]; cbn; [eauto|].
  destruct (Ascii.eqb c ","); [eauto|]. destruct IH as (h & t & ->). eauto.
Qed.

Lemma concat_split_comma s : String.concat "," (split_comma s) = s.
Proof.
  induction s as [|c s IH]; [reflexivity|]. cbn [split_comma].
  destruct (split_comma_cons s) as (h & t & E). rewrite E in *.
  destruct (Ascii.eqb_spec c ","%char) as [->|Hc].
  - change (String.concat "," (EmptyString :: h :: t))
      with (String ","%char (String.concat "," (h :: t))).
    now rewrite IH.
  - destruct t as [|t0 t].
    + cbn in *. now rewrite IH.
    + change (String.concat "," (String c h :: t0 :: t))
        with (String c (String.concat "," (h :: t0 :: t))).
      now rewrite IH.
Qed.

Lemma split_comma_chars s r c :
  In r (split_comma s) -> In c (list_ascii_of_string r) ->
  In c (list_ascii_of_string s) /\ c <> ","%char.
Proof.
  revert r. induction s as [|a s IH]; intros r; cbn [split_comma].
  - intros [<-|[]] [].
  - destruct (Ascii.eqb_spec a ","%char) as [->|Ha].
    + intros [<-|Hr] Hc; [destruct Hc|].
      destruct (IH _ Hr Hc). split; [now right | assumption].
    + destruct (split_comma_cons s) as (h & t & E). rewrite E in *.
      intros [<-|Hr] Hc.
      * destruct Hc as [<-|Hc]; [split; [now left | assumption]|].
        destruct (IH h (or_introl eq_refl) Hc). split; [now right | assumption].
      * destruct (IH r (or_intror Hr) Hc). split; [now right | assumption].
Qed.

Lemma remove_spaces_chars s c :
  In c (list_ascii_of_string (remove_spaces s)) -> c <> " "%char.
Proof.
  induction s as [|a s IH]; cbn; [tauto|].
  destruct (Ascii.eqb_spec a " "%char) as [->|Ha]; [exact IH|].
  intros [<-|H]; auto.
Qed.

(** X13: the recipients [send_email] computes from [emails].  For a string
    they are never an empty list; joined with commas they give back [emails]
    without its spaces; and none of them contains a space or a comma.  In
    particular an [emails] that is empty or all spaces yields the single
    recipient that is the empty string. *)
Theorem send_email_recipients (S : Type) (st : S) (s : string) :
  exists l,
    AlarmSystem.recipients (VStr s) st = (Ok l, st) /\
    l <> [] /\
    String.concat "," l = remove_spaces s /\
    (forall r c, In r l -> In c (list_ascii_of_string r) ->
                 c <> " "%char /\ c <> ","%char) /\
    (remove_spaces s = EmptyString -> l = [EmptyString]).
Proof.
  exists (split_comma (remove_spaces s)). split; [reflexivity|].
  split; [destruct (split_comma_cons (remove_spaces s)) as (h & t & ->); discriminate|].
  split; [apply concat_split_comma|]. split.
  - intros r c Hr Hc. destruct (split_comma_chars _ _ _ Hr Hc) as [Hin Hcomma].
    split; [exact (remove_spaces_chars _ _ Hin) | exact Hcomma].
  - intros ->. reflexivity.
Qed.

(** ** From a form to a running device *)

Lemma form_data_run {S} (form : dict) field (s : S) :
  form_data form field s = match form !! field with
                           | Some v => (Ok v, s)
                           | None => (Raise (AttributeError field), s)
                           end.
Proof. unfold form_data. now destruct (form !! field). Qed.

Lemma RemoteAbstract_input_same debug (data : dict) (q : val) r w :
  data !! "pin" = Some q ->
  py_eq (RemoteAbstract._pin r) q = true ->
  RemoteAbstract.input debug data (r, w) = (Ok tt, (r, w)).
Proof.
  intros Hq Hp. unfold RemoteAbstract.input, py_ne. run. rewrite Hq. run.
  now rewrite Hp.
Qed.

(** X14: from the form to the pin.  The record [SimpleOutput.to_dic] makes of
    a form with [pin], [name] and [keep_on] builds, when its pin can be
    acquired, a [SimpleOutput] bound to that pin; and [input] with that same
    record then moves no pin and ends with one command: on when the form's
    [keep_on] is true, off otherwise. *)
Theorem SimpleOutput_from_form
    (cls : string) (form : dict) (p n k : val) (w w1 : World) (d : Device) :
  form !! "pin" = Some p ->
  form !! "name" = Some n ->
  form !! "keep_on" = Some k ->
  new_device OutputDevice p w = (Ok d, w1) ->
  exists dic r,
    SimpleOutput.to_dic cls form w = (Ok dic, w) /\
    dic !! "type" = Some (VStr cls) /\
    SimpleOutput.__init__ true dic w = (Ok r, w1) /\
    held_pin r = Some (dpin d) /\
    SimpleOutput.input true dic (r, w1)
    = (Ok tt, (r, emit (if truthy k then On (dpin d) else Off (dpin d)) w1)).
Proof.
  intros Hp Hn Hk Hd.
  pose proof (new_device_Ok _ _ _ _ _ Hd) as (_ & _ & Ed & _).
  set (dic := <[ "keep_on" := k ]>
                ({[ "pin" := p; "name" := n; "type" := VStr cls ]} : dict)).
  assert (Hpin : dic !! "pin" = Some p).
  { unfold dic. now rewrite lookup_insert_ne, lookup_insert_eq by discriminate. }
  assert (Hkeep : dic !! "keep_on" = Some k).
  { unfold dic. now rewrite lookup_insert_eq. }
  exists dic, (RemoteAbstract.mk p (Some OutputDevice) (Some d)).
  split; [|split; [|split; [|split]]].
  - unfold SimpleOutput.to_dic, RemoteInterface.to_dic. run.
    rewrite !form_data_run, Hp. run. rewrite !form_data_run, Hn. run.
    rewrite !form_data_run, Hk. reflexivity.
  - unfold dic. now rewrite !lookup_insert_ne, lookup_singleton_eq by discriminate.
  - unfold SimpleOutput.__init__, RemoteAbstract.__init__. run.
    rewrite Hpin. run. rewrite Hd. reflexivity.
  - rewrite Ed. reflexivity.
  - unfold SimpleOutput.input. rewrite bind_run.
    rewrite (RemoteAbstract_input_same true dic p) by (auto using py_eq_refl).
    rewrite bool_decide_eq_true_2 by (rewrite Hkeep; eauto).
    unfold SimpleOutput.on, SimpleOutput.off, device_on, device_off.
    run. rewrite Hkeep. run. rewrite Ed.
    destruct (truthy k); run; reflexivity.
Qed.

(** A form asking for an output on pin 9, initially on. *)
Lemma SimpleOutput_from_form_witness :
  let form : dict :=
    {[ "pin" := VInt 9; "name" := VStr "lamp"; "keep_on" := VBool true ]} in
  let w := Example.boot 0 in
  exists dic r,
    SimpleOutput.to_dic "SimpleOutput" form w = (Ok dic, w) /\
    level 9 (log (snd (snd (SimpleOutput.input true dic
                              (r, snd (new_device OutputDevice (VInt 9) w))))))
    = Some true.
Proof.
  intros form w.
  assert (H1 : form !! "pin" = Some (VInt 9)) by (vm_compute; reflexivity).
  assert (H2 : form !! "name" = Some (VStr "lamp")) by (vm_compute; reflexivity).
  assert (H3 : form !! "keep_on" = Some (VBool true)) by (vm_compute; reflexivity).
  destruct (SimpleOutput_from_form "SimpleOutput" form _ _ _ w
              (snd (new_device OutputDevice (VInt 9) w))
              (mkDevice OutputDevice 9 false) H1 H2 H3 eq_refl)
    as (dic & r & Hdic & _ & _ & _ & Hin).
  exists dic, r. split; [exact Hdic|]. rewrite Hin. reflexivity.
Defined.

Lemma SimpleInput_is_active_run p ty d dat w :
  closed d = false ->
  SimpleInput.is_active true
    (SimpleInput.mk (RemoteAbstract.mk p ty (Some d)) dat, w)
  = (Ok (sensed w (dpin d)),
     (SimpleInput.mk (RemoteAbstract.mk p ty (Some d)) dat, w)).
Proof.
  intros Hc. unfold SimpleInput.is_active, device_is_active.
  destruct d as [dty dn c]. cbn in Hc. subst c. now run.
Qed.

Lemma singleton_pin_no_keep_on (q : val) :
  bool_decide (is_Some (({[ "pin" := q ]} : dict) !! "keep_on")) = false.
Proof.
  apply bool_decide_eq_false_2. rewrite lookup_singleton_ne by discriminate.
  intros [? ?]; discriminate.
Qed.

Ltac lookup_dic :=
  repeat first [ rewrite lookup_insert_eq
               | rewrite lookup_insert_ne by discriminate
               | rewrite lookup_singleton_eq ].

(** X15: from the form to the first control cycle.  For a form with the six
    fields and a string for [emails], [AlarmSystem.to_dic] returns a record
    whose [emails] have lost their spaces, whose [photo_toggle] is false and
    whose [door_open] and [motion] are [None].  When the three pins can be
    acquired, [AlarmSystem] of that record returns an alarm on them, and the
    first [input] with the same record moves no pin and takes no toggle
    photo: it reads the two sensors and goes straight to the mode. *)
Theorem AlarmSystem_from_form
    (cls : string) (form : dict) (p n pb pm k : val) (s : string)
    (w w1 w2 w3 : World) (d1 d2 d3 : Device) :
  form !! "pin" = Some p ->
  form !! "name" = Some n ->
  form !! "pin_buzzer" = Some pb ->
  form !! "pin_motion" = Some pm ->
  form !! "keep_on" = Some k ->
  form !! "emails" = Some (VStr s) ->
  new_device Button p w = (Ok d1, w1) ->
  new_device OutputDevice pb w1 = (Ok d2, w2) ->
  new_device Motion pm w2 = (Ok d3, w3) ->
  exists dic a,
    AlarmSystem.to_dic cls form w = (Ok dic, w) /\
    dic !! "emails" = Some (VStr (remove_spaces s)) /\
    dic !! "photo_toggle" = Some (VBool false) /\
    dic !! "door_open" = Some VNone /\ dic !! "motion" = Some VNone /\
    dic !! "type" = Some (VStr cls) /\
    AlarmSystem.__init__ true dic w = (Ok a, w3) /\
    held_pins a = [dpin d1; dpin d2; dpin d3] /\
    let door := negb (sensed w3 (dpin d1)) in
    AlarmSystem.input true dic (a, w3)
    = (if truthy k && door then AlarmSystem.alert_mode
       else AlarmSystem.passive_mode)
        (AlarmSystem.mk (AlarmSystem._pin a) (AlarmSystem._switch a)
                        (AlarmSystem._buzzer a) (AlarmSystem._motion a)
                        (AlarmSystem._emails a) k (VBool false)
                        (sensed w3 (dpin d3)) door None None,
         w3).
Proof.
  intros Hp Hn Hpb Hpm Hk Hem Hd1 Hd2 Hd3.
  pose proof (new_device_Ok _ _ _ _ _ Hd1) as (_ & _ & E1 & _).
  pose proof (new_device_Ok _ _ _ _ _ Hd2) as (_ & _ & E2 & _).
  pose proof (new_device_Ok _ _ _ _ _ Hd3) as (_ & _ & E3 & _).
  assert (C1 : closed d1 = false) by (rewrite E1; reflexivity).
  assert (C3 : closed d3 = false) by (rewrite E3; reflexivity).
  set (dic := <[ "emails" := VStr (remove_spaces s) ]>
              (<[ "photo" := newest_photo (log w) ]>
               (<[ "photo_toggle" := VBool false ]>
                (<[ "motion" := VNone ]>
                 (<[ "door_open" := VNone ]>
                  (<[ "keep_on" := k ]>
                   (<[ "pin_motion" := pm ]>
                    (<[ "pin_buzzer" := pb ]>
                     ({[ "pin" := p; "name" := n; "type" := VStr cls ]}
                      : dict))))))))).
  assert (L1 : dic !! "pin" = Some p) by (unfold dic; now lookup_dic).
  assert (L2 : dic !! "pin_buzzer" = Some pb) by (unfold dic; now lookup_dic).
  assert (L3 : dic !! "pin_motion" = Some pm) by (unfold dic; now lookup_dic).
  assert (L4 : dic !! "emails" = Some (VStr (remove_spaces s)))
    by (unfold dic; now lookup_dic).
  assert (L5 : dic !! "keep_on" = Some k) by (unfold dic; now lookup_dic).
  assert (L6 : dic !! "photo_toggle" = Some (VBool false))
    by (unfold dic; now lookup_dic).
  exists dic. eexists.
  split.
  { unfold AlarmSystem.to_dic, RemoteInterface.to_dic, AlarmSystem.without_spaces,
           get_newest_photo.
    repeat (run; rewrite ?form_data_run, ?Hp, ?Hn, ?Hpb, ?Hpm, ?Hk, ?Hem).
    reflexivity. }
  split; [exact L4|]. split; [exact L6|].
  split; [unfold dic; now lookup_dic|]. split; [unfold dic; now lookup_dic|].
  split; [unfold dic; now lookup_dic|].
  split.
  { unfold AlarmSystem.__init__, Switch.__init__, SimpleOutput.__init__,
           MotionSensor.__init__, SimpleInput.__init__.
    repeat (run; rewrite ?L1, ?L2, ?L3, ?L4, ?L5, ?L6, ?RemoteAbstract_init_run,
                         ?Hd1, ?Hd2, ?Hd3).
    reflexivity. }
  split; [rewrite E1, E2, E3; reflexivity|].
  cbn zeta. cbn [AlarmSystem._pin AlarmSystem._switch AlarmSystem._buzzer
                 AlarmSystem._motion AlarmSystem._emails].
  unfold AlarmSystem.input, SimpleInput.input, SimpleOutput.input.
  repeat (run; rewrite ?L1, ?L2, ?L3, ?L4, ?L5, ?L6;
          rewrite ?(RemoteAbstract_input_same true {[ "pin" := p ]} p),
                  ?(RemoteAbstract_input_same true {[ "pin" := pb ]} pb),
                  ?(RemoteAbstract_input_same true {[ "pin" := pm ]} pm)
            by first [apply lookup_singleton_eq | apply py_eq_refl];
          rewrite ?singleton_pin_no_keep_on;
          rewrite ?SimpleInput_is_active_run by assumption).
  reflexivity.
Qed.

(** A form asking for an alarm on pins 4, 5 and 6, with a space in the
    list of addresses. *)
Lemma AlarmSystem_from_form_witness :
  let form : dict :=
    {[ "pin" := VInt 4; "name" := VStr "door"; "pin_buzzer" := VInt 5;
       "pin_motion" := VInt 6; "keep_on" := VBool false;
       "emails" := VStr "a@b.c, d@e.f" ]} in
  let w := Example.boot 0 in
  exists dic a,
    AlarmSystem.to_dic "AlarmSystem" form w = (Ok dic, w) /\
    dic !! "emails" = Some (VStr "a@b.c,d@e.f") /\
    held_pins a = [4; 5; 6]%Z.
Proof.
  intros form w.
  assert (H1 : form !! "pin" = Some (VInt 4)) by (vm_compute; reflexivity).
  assert (H2 : form !! "name" = Some (VStr "door")) by (vm_compute; reflexivity).
  assert (H3 : form !! "pin_buzzer" = Some (VInt 5))
    by (vm_compute; reflexivity).
  assert (H4 : form !! "pin_motion" = Some (VInt 6))
    by (vm_compute; reflexivity).
  assert (H5 : form !! "keep_on" = Some (VBool false))
    by (vm_compute; reflexivity).
  assert (H6 : form !! "emails" = Some (VStr "a@b.c, d@e.f"))
    by (vm_compute; reflexivity).
  pose (w1 := snd (new_device Button (VInt 4) w)).
  pose (w2 := snd (new_device OutputDevice (VInt 5) w1)).
  pose (w3 := snd (new_device Motion (VInt 6) w2)).
  destruct (AlarmSystem_from_form "AlarmSystem" form _ _ _ _ _ _ w w1 w2 w3
              (mkDevice Button 4 false) (mkDevice OutputDevice 5 false)
              (mkDevice Motion 6 false) H1 H2 H3 H4 H5 H6
              eq_refl eq_refl eq_refl)
    as (dic & a & Hdic & Hem & _ & _ & _ & _ & _ & Hheld & _).
  exists dic, a. split; [exact Hdic|]. split; [exact Hem|exact Hheld].
Defined.

(** X16: a sensor made from a form starts with nothing to report.  The record
    [SimpleInput.to_dic] makes of a form with [pin] and [name] carries
    [data] [None]; [MotionSensor] of that record, when the pin can be
    acquired, caches [None] as well; and as long as no motion is sensed its
    [output] hands the database that same [None] under the form's pin,
    without reading the clock. *)
Theorem MotionSensor_from_form
    (cls : string) (form : dict) (p n : val) (w w1 : World) (d : Device) :
  form !! "pin" = Some p ->
  form !! "name" = Some n ->
  new_device Motion p w = (Ok d, w1) ->
  exists dic r,
    SimpleInput.to_dic cls form w = (Ok dic, w) /\
    dic !! "data" = Some VNone /\
    MotionSensor.__init__ true dic w = (Ok r, w1) /\
    SimpleInput._data r = VNone /\
    held_pin (SimpleInput._super r) = Some (dpin d) /\
    (sensed w1 (dpin d) = false ->
     MotionSensor.output true (r, w1)
     = (Ok tt, (r, emit (Update {[ "data" := VNone ]} p) w1))).
Proof.
  intros Hp Hn Hd.
  pose proof (new_device_Ok _ _ _ _ _ Hd) as (_ & _ & E & _).
  assert (C : closed d = false) by (rewrite E; reflexivity).
  set (dic := <[ "data" := VNone ]>
              ({[ "pin" := p; "name" := n; "type" := VStr cls ]} : dict)).
  assert (L1 : dic !! "pin" = Some p) by (unfold dic; now lookup_dic).
  exists dic. eexists.
  split.
  { unfold SimpleInput.to_dic, RemoteInterface.to_dic.
    repeat (run; rewrite ?form_data_run, ?Hp, ?Hn). reflexivity. }
  split; [unfold dic; now lookup_dic|].
  split.
  { unfold MotionSensor.__init__, SimpleInput.__init__,
           RemoteAbstract.__init__.
    repeat (run; rewrite ?L1, ?Hd). reflexivity. }
  split; [reflexivity|].
  split; [cbn; rewrite E; reflexivity|].
  intros Hq.
  unfold MotionSensor.output, SimpleInput.output, RemoteAbstract.output,
         database_update.
  repeat (run; rewrite ?SimpleInput_is_active_run, ?Hq by assumption).
  reflexivity.
Qed.

(** A form asking for a sensor on pin 6, which reads inactive. *)
Lemma MotionSensor_from_form_witness :
  let form : dict := {[ "pin" := VInt 6; "name" := VStr "hall" ]} in
  let w := Example.boot 0 in
  exists dic r,
    SimpleInput.to_dic "MotionSensor" form w = (Ok dic, w) /\
    dic !! "data" = Some VNone /\
    SimpleInput._data r = VNone /\
    held_pin (SimpleInput._super r) = Some 6%Z.
Proof.
  intros form w.
  assert (H1 : form !! "pin" = Some (VInt 6)) by (vm_compute; reflexivity).
  assert (H2 : form !! "name" = Some (VStr "hall")) by (vm_compute; reflexivity).
  destruct (MotionSensor_from_form "MotionSensor" form _ _ w
              (snd (new_device Motion (VInt 6) w))
              (mkDevice Motion 6 false) H1 H2 eq_refl)
    as (dic & r & Hdic & Hdat & _ & Hr & Hheld & _).
  exists dic, r. auto.
Defined.
